(** * Scitify: retrieval, filtering and consolidation scripts

    A shallow embedding of [bin/PubMed_retrieve.py], [bin/arXiv_retrieve.py],
    [bin/bioRxiv_retrieve.py] and [bin/summarise_papers.py].

    Python [str] values are modelled by [string]; the case and whitespace
    operations act on the ASCII range.  Calendar days are proleptic Gregorian
    ordinals ([date.toordinal]); the rendering of a day by
    [strftime('%Y-%m-%d')] inside a request is represented by the day itself.
    The scripts are modelled from the point where [argparse] has produced the
    argument namespace.  The PubMed script leaves [--help] to [argparse],
    which ends the run before that point; the arXiv and bioRxiv scripts test
    the flag themselves.  The consolidation script is modelled for a run
    without [--help]. *)

From Stdlib Require Import ZArith Ascii String List Bool Lia Sorted.
From stdpp Require Import base gmap strings list pretty.

Local Open Scope string_scope.
Local Open Scope Z_scope.

Set Warnings "-clear-no-such-hyp".

(** ** Python string operations *)

Module Text.

Definition LF : ascii := "010"%char.

Definition CR : ascii := "013"%char.

(** The line terminator ["\n"]. *)
Definition nl : string := String LF EmptyString.

Definition code (c : ascii) : Z := Z.of_nat (nat_of_ascii c).

Definition chr (z : Z) : ascii := ascii_of_nat (Z.to_nat z).

Definition is_upper (c : ascii) : bool := (65 <=? code c) && (code c <=? 90).

Definition is_lower (c : ascii) : bool := (97 <=? code c) && (code c <=? 122).

Definition is_digit (c : ascii) : bool := (48 <=? code c) && (code c <=? 57).

(** [str.isspace] on one character: tab, line feed, vertical tab, form feed,
    carriage return, the four separators 0x1c..0x1f and the space. *)
Definition is_space (c : ascii) : bool :=
  ((9 <=? code c) && (code c <=? 13)) || ((28 <=? code c) && (code c <=? 32)).

Definition lower_char (c : ascii) : ascii :=
  if is_upper c then chr (code c + 32) else c.

Definition upper_char (c : ascii) : ascii :=
  if is_lower c then chr (code c - 32) else c.

(** [s.lower()] *)
Fixpoint lower (s : string) : string :=
  match s with
  | EmptyString => EmptyString
  | String c t => String (lower_char c) (lower t)
  end.

(** [s.capitalize()] *)
Definition capitalize (s : string) : string :=
  match s with
  | EmptyString => EmptyString
  | String c t => String (upper_char c) (lower t)
  end.

(** [s.startswith(p)] *)
Fixpoint startswith (p s : string) : bool :=
  match p, s with
  | EmptyString, _ => true
  | String a p', String b s' => if Ascii.eqb a b then startswith p' s' else false
  | String _ _, EmptyString => false
  end.

(** [needle in hay] *)
Fixpoint contains (needle hay : string) : bool :=
  startswith needle hay ||
  match hay with
  | EmptyString => false
  | String _ t => contains needle t
  end.

(** [s[n:]] *)
Fixpoint drop (n : nat) (s : string) : string :=
  match n, s with
  | O, _ => s
  | S _, EmptyString => EmptyString
  | S n', String _ t => drop n' t
  end.

(** [s[:n]] *)
Fixpoint take (n : nat) (s : string) : string :=
  match n, s with
  | O, _ => EmptyString
  | S _, EmptyString => EmptyString
  | S n', String c t => String c (take n' t)
  end.

(** [sep.join(l)] *)
Fixpoint join (sep : string) (l : list string) : string :=
  match l with
  | [] => EmptyString
  | [x] => x
  | x :: t => x +:+ sep +:+ join sep t
  end.

Fixpoint lstrip (s : string) : string :=
  match s with
  | EmptyString => EmptyString
  | String c t => if is_space c then lstrip t else s
  end.

Fixpoint rstrip (s : string) : string :=
  match s with
  | EmptyString => EmptyString
  | String c t =>
      match rstrip t with
      | EmptyString => if is_space c then EmptyString else String c EmptyString
      | t' => String c t'
      end
  end.

(** [s.strip()] *)
Definition strip (s : string) : string := rstrip (lstrip s).

(** [s.replace('\n', ' ')] *)
Fixpoint replace_newline (s : string) : string :=
  match s with
  | EmptyString => EmptyString
  | String c t =>
      String (if Ascii.eqb c LF then " "%char else c) (replace_newline t)
  end.

(** [s.split()]: the maximal runs of non-whitespace characters.  [cur] is
    the run being read, in reverse. *)
Fixpoint split_ws_aux (cur : list ascii) (s : string) : list string :=
  match s with
  | EmptyString =>
      match cur with
      | [] => []
      | _ => [string_of_list_ascii (rev cur)]
      end
  | String c t =>
      if is_space c then
        match cur with
        | [] => split_ws_aux [] t
        | _ => string_of_list_ascii (rev cur) :: split_ws_aux [] t
        end
      else split_ws_aux (c :: cur) t
  end.

Definition split_ws (s : string) : list string := split_ws_aux [] s.

(** [s.split('\n')] *)
Fixpoint split_lines (s : string) : list string :=
  match s with
  | EmptyString => [EmptyString]
  | String c t =>
      if Ascii.eqb c LF then EmptyString :: split_lines t
      else
        match split_lines t with
        | [] => [String c EmptyString]
        | l :: ls => String c l :: ls
        end
  end.

(** The lines of a text read with universal newlines: a line ends at
    ["\n"], at ["\r"] and at ["\r\n"].  [after_cr]: the character before
    was a carriage return. *)
Fixpoint text_lines (after_cr : bool) (s : string) : list string :=
  match s with
  | EmptyString => [EmptyString]
  | String c t =>
      if Ascii.eqb c LF then
        if after_cr then text_lines false t
        else EmptyString :: text_lines false t
      else if Ascii.eqb c CR then EmptyString :: text_lines true t
      else
        match text_lines false t with
        | [] => [String c EmptyString]
        | l :: ls => String c l :: ls
        end
  end.

(** [s.zfill(width)]: zeros go after a leading sign. *)
Definition zfill (width : nat) (s : string) : string :=
  let pad := string_of_list_ascii (repeat "0"%char (width - String.length s)) in
  match s with
  | String c t =>
      if Ascii.eqb c "+"%char || Ascii.eqb c "-"%char
      then String c (pad +:+ t)
      else pad +:+ s
  | EmptyString => pad
  end.

(** A value that stays on one line of a record. *)
Definition single_line (s : string) : bool := negb (contains nl s).

End Text.


(** ** Calendar dates: [datetime], [strptime], [strftime] *)

Module Calendar.
Import Text.

Record datetime := {
  year : Z; month : Z; day : Z;
  hour : Z; minute : Z; second : Z; microsecond : Z
}.

Definition is_leap (y : Z) : bool :=
  (y mod 4 =? 0) && (negb (y mod 100 =? 0) || (y mod 400 =? 0)).

Definition days_in_month (y m : Z) : Z :=
  if m =? 2 then (if is_leap y then 29 else 28)
  else if (m =? 4) || (m =? 6) || (m =? 9) || (m =? 11) then 30
  else 31.

Definition days_before_year (y : Z) : Z :=
  let p := y - 1 in p * 365 + p / 4 - p / 100 + p / 400.

Definition days_before_month (y m : Z) : Z :=
  fold_left (fun acc k => acc + days_in_month y (Z.of_nat k))
            (seq 1 (Z.to_nat (m - 1))) 0.

(** [date(y, m, d).toordinal()] *)
Definition ymd2ord (y m d : Z) : Z :=
  days_before_year y + days_before_month y m + d.

Definition toordinal (t : datetime) : Z := ymd2ord (year t) (month t) (day t).

(** The instant within the day, in microseconds. *)
Definition time_of_day (t : datetime) : Z :=
  ((hour t * 60 + minute t) * 60 + second t) * 1000000 + microsecond t.

(** The fields a [datetime] constructor accepts. *)
Definition valid (t : datetime) : bool :=
  (1 <=? year t) && (year t <=? 9999) &&
  (1 <=? month t) && (month t <=? 12) &&
  (1 <=? day t) && (day t <=? days_in_month (year t) (month t)) &&
  (0 <=? hour t) && (hour t <=? 23) &&
  (0 <=? minute t) && (minute t <=? 59) &&
  (0 <=? second t) && (second t <=? 59) &&
  (0 <=? microsecond t) && (microsecond t <=? 999999).

(** A point in time as the pair (day ordinal, microseconds into the day),
    the form in which [t - timedelta(days=n)] and [>=] are computed. *)
Definition instant : Type := Z * Z.

Definition instant_of (t : datetime) : instant := (toordinal t, time_of_day t).

(** [t - timedelta(days=n)] *)
Definition minus_days (t : instant) (n : Z) : instant := (fst t - n, snd t).

(** [a >= b] on datetimes *)
Definition geb (a b : instant) : bool :=
  (fst b <? fst a) || ((fst a =? fst b) && (snd b <=? snd a)).

(** [date.max.toordinal()]: the last day of the year 9999. *)
Definition max_ordinal : Z := 3652059.

(** [datetime.now() - timedelta(days=n)] returns a value: [timedelta]
    accepts the number of days and the day reached lies in the years 1 to
    9999.  Otherwise the expression raises [OverflowError]. *)
Definition can_go_back (today n : Z) : bool :=
  (-999999999 <=? n) && (n <=? 999999999) &&
  (1 <=? today - n) && (today - n <=? max_ordinal).

(** *** The regular expressions [_strptime] builds for the directives.
    A matcher consumes a prefix and returns its value and the rest. *)

Definition matcher : Type := string -> option (Z * string).

Definition digit_val (c : ascii) : Z := code c - 48.

Definition in_range (lo hi : string) (c : ascii) : bool :=
  match lo, hi with
  | String a _, String b _ => (code a <=? code c) && (code c <=? code b)
  | _, _ => false
  end.

(** one character of the class [lo-hi], read as a digit *)
Definition one (lo hi : string) : matcher := fun s =>
  match s with
  | String c t => if in_range lo hi c then Some (digit_val c, t) else None
  | EmptyString => None
  end.

(** two characters of the classes [a-b][c-d], read as a two-digit number *)
Definition two (a b c d : string) : matcher := fun s =>
  match one a b s with
  | Some (x, t) =>
      match one c d t with
      | Some (y, t') => Some (10 * x + y, t')
      | None => None
      end
  | None => None
  end.

(** ordered alternation [m1|m2] *)
Definition alt (m1 m2 : matcher) : matcher := fun s =>
  match m1 s with
  | Some r => Some r
  | None => m2 s
  end.

(** [%Y]: [\d\d\d\d] *)
Definition re_Y : matcher := fun s =>
  match two "0" "9" "0" "9" s with
  | Some (hi, t) =>
      match two "0" "9" "0" "9" t with
      | Some (lo, t') => Some (100 * hi + lo, t')
      | None => None
      end
  | None => None
  end.

(** [%m]: [1[0-2]|0[1-9]|[1-9]] *)
Definition re_m : matcher :=
  alt (two "1" "1" "0" "2") (alt (two "0" "0" "1" "9") (one "1" "9")).

(** a space followed by [1-9] *)
Definition space_digit : matcher := fun s =>
  match s with
  | String c t => if Ascii.eqb c " "%char then one "1" "9" t else None
  | EmptyString => None
  end.

(** [%d]: [3[0-1]|[1-2]\d|0[1-9]|[1-9]| [1-9]] *)
Definition re_d : matcher :=
  alt (two "3" "3" "0" "1")
    (alt (two "1" "2" "0" "9")
       (alt (two "0" "0" "1" "9") (alt (one "1" "9") space_digit))).

(** [%H]: [2[0-3]|[0-1]\d|\d] *)
Definition re_H : matcher :=
  alt (two "2" "2" "0" "3") (alt (two "0" "1" "0" "9") (one "0" "9")).

(** [%M]: [[0-5]\d|\d] *)
Definition re_M : matcher := alt (two "0" "5" "0" "9") (one "0" "9").

(** [%S]: [6[0-1]|[0-5]\d|\d] *)
Definition re_S : matcher :=
  alt (two "6" "6" "0" "1") (alt (two "0" "5" "0" "9") (one "0" "9")).

(** a literal character of the format, matched ignoring case *)
Definition lit (c : string) (s : string) : option string :=
  match c, s with
  | String a _, String b t =>
      if Ascii.eqb (lower_char a) (lower_char b) then Some t else None
  | _, _ => None
  end.

End Calendar.

Module Strptime.
Import Text Calendar.

(** [datetime(...)]: [None] stands for the [ValueError] of an invalid field. *)
Definition make (y m d hh mi ss : Z) : option datetime :=
  let t := {| year := y; month := m; day := d;
              hour := hh; minute := mi; second := ss; microsecond := 0 |} in
  if valid t then Some t else None.

(** [datetime.strptime(s, '%Y-%m-%d')]; [None] is [ValueError]. *)
Definition ymd (s : string) : option datetime :=
  '(y, s) ← re_Y s;
  s ← lit "-" s;
  '(m, s) ← re_m s;
  s ← lit "-" s;
  '(d, s) ← re_d s;
  match s with
  | EmptyString => make y m d 0 0 0
  | String _ _ => None
  end.

(** [datetime.strptime(s, '%Y-%m-%dT%H:%M:%SZ')]; [None] is [ValueError]. *)
Definition iso (s : string) : option datetime :=
  '(y, s) ← re_Y s;
  s ← lit "-" s;
  '(m, s) ← re_m s;
  s ← lit "-" s;
  '(d, s) ← re_d s;
  s ← lit "T" s;
  '(hh, s) ← re_H s;
  s ← lit ":" s;
  '(mi, s) ← re_M s;
  s ← lit ":" s;
  '(ss, s) ← re_S s;
  s ← lit "Z" s;
  match s with
  | EmptyString => make y m d hh mi ss
  | String _ _ => None
  end.

Definition digit (n : Z) : ascii := chr (48 + n mod 10).

Definition pad2 (n : Z) : string :=
  String (digit (n / 10)) (String (digit n) EmptyString).

Definition pad4 (n : Z) : string := pad2 (n / 100) +:+ pad2 n.

(** [%Y] as the C library writes it: the year of a [datetime], 1 to 9999,
    in decimal and without padding. *)
Definition unpadded (y : Z) : string :=
  if y <? 10 then String (digit y) EmptyString
  else if y <? 100 then pad2 y
  else if y <? 1000 then String (digit (y / 100)) (pad2 y)
  else pad4 y.

(** [t.strftime('%Y-%m-%d')] *)
Definition strftime_ymd (t : datetime) : string :=
  unpadded (year t) +:+ "-" +:+ pad2 (month t) +:+ "-" +:+ pad2 (day t).

End Strptime.

(** ** The process and its surroundings *)

Inductive exn :=
| ConnectionError | JSONDecodeError | ValueError | IndexError | TypeError
| OverflowError
| ConfigParserError.

(** A call that went over the network. *)
Inductive request :=
| Esearch (term : string) (mindate maxdate : Z) (retmax retstart : Z)
| Efetch (ids : list string)
| ArxivQuery (keyword : string) (start max_results : Z)
| BiorxivDetails (start_date end_date : Z) (offset : Z).

(** What a run leaves behind: the two output streams, the network calls in
    the order they were made, and the files on disk. *)
Record world := {
  stdout : list string;
  stderr : list string;
  requests : list request;
  files : gmap string string
}.

(** How a computation ends: with a value, with an uncaught exception, with
    [sys.exit(code)], or still looping when the fuel of a [while] ran out. *)
Inductive result (A : Type) :=
| Ok (a : A)
| Raised (e : exn)
| SysExit (status : Z)
| OutOfFuel.
Arguments Ok {A} a.
Arguments Raised {A} e.
Arguments SysExit {A} status.
Arguments OutOfFuel {A}.

Definition M (A : Type) : Type := world -> result A * world.

#[global] Instance M_ret : MRet M := fun A a w => (Ok a, w).

#[global] Instance M_bind : MBind M := fun A B f m w =>
  match m w with
  | (Ok a, w') => f a w'
  | (Raised e, w') => (Raised e, w')
  | (SysExit c, w') => (SysExit c, w')
  | (OutOfFuel, w') => (OutOfFuel, w')
  end.

Module Runtime.

Definition raise {A} (e : exn) : M A := fun w => (Raised e, w).

Definition sys_exit {A} (status : Z) : M A := fun w => (SysExit status, w).

Definition out_of_fuel {A} : M A := fun w => (OutOfFuel, w).

(** [print(s)] *)
Definition print (s : string) : M unit := fun w =>
  (Ok tt, {| stdout := (stdout w ++ [s])%list; stderr := stderr w;
             requests := requests w; files := files w |}).

(** [sys.stderr.write(s)] *)
Definition write_stderr (s : string) : M unit := fun w =>
  (Ok tt, {| stdout := stdout w; stderr := (stderr w ++ [s])%list;
             requests := requests w; files := files w |}).

(** Records a network call and returns its rank among the calls of the run. *)
Definition send (r : request) : M nat := fun w =>
  (Ok (length (requests w)),
   {| stdout := stdout w; stderr := stderr w;
      requests := (requests w ++ [r])%list; files := files w |}).

(** [with open(path, "w") as f: f.write(content)], for a directory that
    exists and text the output encoding can represent: the write is taken
    to succeed.  In general [open] truncates the file first and the write
    can then raise, which leaves a changed file behind an exception. *)
Definition write_file (path content : string) : M unit := fun w =>
  (Ok tt, {| stdout := stdout w; stderr := stderr w;
             requests := requests w; files := <[path := content]> (files w) |}).

(** [os.path.exists(path)] and reading a file, both without effect. *)
Definition read_file (path : string) : M (option string) := fun w =>
  (Ok (files w !! path), w).

(** [if not args.quiet: print(s)] *)
Definition print_unless (quiet : bool) (s : string) : M unit :=
  if quiet then mret tt else print s.

(** [for x in l: acc = body(x, acc)] *)
Fixpoint for_each {A St} (body : A -> St -> M St) (l : list A) (acc : St)
  : M St :=
  match l with
  | [] => mret acc
  | x :: t => acc' ← body x acc; for_each body t acc'
  end.

Definition initial : world :=
  {| stdout := []; stderr := []; requests := []; files := ∅ |}.

End Runtime.

(** ** Keyword configuration *)

Module Config.
Import Text Runtime.

(** The sections of a keyword file other than [DEFAULT], in the order of
    the file, each with the option names written under it. *)
Definition config : Type := list (string * list string).

(** What [configparser] makes of a keyword file.  [Unparsable]:
    [config.read] raises, as it does on text before the first section header
    ([MissingSectionHeaderError]) and on a line without an option name
    ([ParsingError]).  [Sections defaults c]: the option names under
    [DEFAULT] and the other sections. *)
Inductive parsed :=
| Unparsable
| Sections (defaults : list string) (c : config).

(** A keyword file without a [DEFAULT] section; [None] when the path does
    not exist. *)
Definition plain (c : option config) : option parsed := Sections [] <$> c.

Fixpoint section (name : string) (c : config) : option (list string) :=
  match c with
  | [] => None
  | (n, ks) :: t => if String.eqb n name then Some ks else section name t
  end.

Record keywords_dict := {
  keywords : list string;
  exclude_keywords : list string;
  required_keywords : list string;
  journals_of_interest : list string
}.

(** No string comes twice. *)
Fixpoint distinct (l : list string) : bool :=
  match l with
  | [] => true
  | x :: t => negb (existsb (String.eqb x) t) && distinct t
  end.

(** The parser is strict: it raises [DuplicateSectionError] on a section
    header that comes twice and [DuplicateOptionError] on an option name
    that comes twice in a section, names being compared in lower case. *)
Definition strict (defaults : list string) (c : config) : bool :=
  distinct (map fst c) && distinct (map lower defaults) &&
  forallb (fun s => distinct (map lower (snd s))) c.

(** [list(config[name].keys())] when [name in config], else the empty list
    the loader starts with: the option names of the section in lower case,
    then those of [DEFAULT] that the section does not have. *)
Definition keys_or_empty (defaults : list string) (name : string) (c : config)
  : list string :=
  match section name c with
  | Some own =>
      let own := map lower own in
      (own ++ List.filter (fun k => negb (existsb (String.eqb k) own))
                          (map lower defaults))%list
  | None => []
  end.

(** [load_keywords_from_file] of the PubMed script; [file] is [None] when
    the path does not exist. *)
Definition load_keywords_from_file_journals (file : option parsed)
  : M (option keywords_dict) :=
  match file with
  | None => mret None
  | Some Unparsable => raise ConfigParserError
  | Some (Sections d c) =>
      if strict d c then
        mret (Some {| keywords := keys_or_empty d "keywords" c;
                      exclude_keywords := keys_or_empty d "exclude_keywords" c;
                      required_keywords :=
                        keys_or_empty d "required_keywords" c;
                      journals_of_interest :=
                        keys_or_empty d "journals_of_interest" c |})
      else raise ConfigParserError
  end.

(** [load_keywords_from_file] of the arXiv and bioRxiv scripts: no journal
    list is read. *)
Definition load_keywords_from_file (file : option parsed)
  : M (option keywords_dict) :=
  match file with
  | None => mret None
  | Some Unparsable => raise ConfigParserError
  | Some (Sections d c) =>
      if strict d c then
        mret (Some {| keywords := keys_or_empty d "keywords" c;
                      exclude_keywords := keys_or_empty d "exclude_keywords" c;
                      required_keywords :=
                        keys_or_empty d "required_keywords" c;
                      journals_of_interest := [] |})
      else raise ConfigParserError
  end.

(** The two messages of the check for a missing or empty keyword file. *)
Definition keyword_errors (path : string) (d : option keywords_dict)
  : list string :=
  match d with
  | None =>
      ["Error: The keyword file '" +:+ path +:+
       "' does not exist. Please ensure the file is present."]
  | Some k =>
      match keywords k with
      | [] => ["Error: No keywords found in '" +:+ path +:+
               "'. Please specify at least one keyword."]
      | _ :: _ => []
      end
  end.

Definition missing_flag {A} (flag : option A) (name : string) : list string :=
  match flag with
  | None => ["Error: --" +:+ name +:+ " flag is required."]
  | Some _ => []
  end.

(** [any(k.lower() in text for k in ks)] *)
Definition any_in (ks : list string) (text : string) : bool :=
  existsb (fun k => contains (lower k) text) ks.

(** [sum(k.lower() in text for k in ks)] *)
Definition score (ks : list string) (text : string) : Z :=
  fold_left (fun acc k => acc + (if contains (lower k) text then 1 else 0)) ks 0.

End Config.

(** The answer of a remote service to one call: an exception with its
    message, or a value. *)
Inductive reply (A : Type) :=
| Fails (msg : string)
| Returns (a : A).
Arguments Fails {A} msg.
Arguments Returns {A} a.

(** ** [bin/PubMed_retrieve.py] *)

Module PubMed.
Import Text Calendar Config Runtime.

Record author := { LastName : option string; Initials : option string }.

(** An [ELocationID] element: its [EIdType] attribute and its text. *)
Record eloc := { EIdType : option string; eloc_text : string }.

Record pub_date := {
  Year : option string; Month : option string; Day : option string
}.

(** [article['MedlineCitation']['Article']]; the keys read with [.get] are
    optional. *)
Record article := {
  ArticleTitle : option string;
  AuthorList : option (list author);
  JournalTitle : string;
  PubDate : pub_date;
  AbstractText : option (list string);
  ELocationID : option (list eloc)
}.

Record search_results := { Count : Z; IdList : list string }.

Record args := {
  days_before_today : option Z;
  batch_size : option Z;
  email : option string;
  quiet : bool
}.

Record env := {
  keywords_file : option parsed;
  today : Z;
  esearch : nat -> request -> reply search_results;
  efetch : nat -> request -> reply (list article)
}.

Definition keywords_path : string := "../config/PubMed_keywords.txt".
Definition output_path : string := "../output/latest_pubmed_entries.txt".

Definition month_mapping : list (string * string) :=
  [("jan", "01"); ("feb", "02"); ("mar", "03"); ("apr", "04");
   ("may", "05"); ("jun", "06"); ("jul", "07"); ("aug", "08");
   ("sep", "09"); ("oct", "10"); ("nov", "11"); ("dec", "12")].

(** [d.get(k, default)] on a dictionary with string keys *)
Fixpoint dict_get (k : string) (d : list (string * string)) (default : string)
  : string :=
  match d with
  | [] => default
  | (k', v) :: t => if String.eqb k k' then v else dict_get k t default
  end.

(** The query sent for one keyword. *)
Definition build_query (keyword : string) (journals exclude : list string)
  : string :=
  let q := "(" +:+ keyword +:+ ")" in
  let q :=
    match journals with
    | [] => q
    | _ :: _ =>
        q +:+ " AND (" +:+
        join " OR " (map (fun j => j +:+ "[Journal]") journals) +:+ ")"
    end in
  match exclude with
  | [] => q
  | _ :: _ => q +:+ " NOT " +:+ join " NOT " exclude
  end.

(** [not journals_of_interest or any(name.lower() in journal ...)] *)
Definition journal_ok (journals : list string) (journal : string) : bool :=
  match journals with
  | [] => true
  | _ :: _ => any_in journals journal
  end.

Definition title_of (a : article) : string :=
  match ArticleTitle a with Some t => t | None => "No Title" end.

Definition authors_of (a : article) : string :=
  join ", "
    (omap (fun au =>
             match LastName au with
             | Some last =>
                 Some (last +:+ " " +:+
                       match Initials au with Some i => i | None => "" end)
             | None => None
             end)
          (match AuthorList a with Some l => l | None => [] end)).

Definition date_str_of (p : pub_date) : string :=
  let year := match Year p with Some y => y | None => "No Year" end in
  let month :=
    take 3 (lower (match Month p with Some m => m | None => "" end)) in
  let day := match Day p with Some d => d | None => "" end in
  let month_num := dict_get month month_mapping "01" in
  if negb (String.eqb year "No Year") then
    year +:+ "-" +:+ month_num +:+ "-" +:+
    match day with
    | EmptyString => "01"
    | String _ _ => zfill 2 day
    end
  else "Unknown Date".

(** [article_info.get('Abstract', {}).get('AbstractText', ['No Abstract'])[0]] *)
Definition abstract_of (a : article) : M string :=
  match AbstractText a with
  | None => mret "No Abstract"
  | Some [] => raise IndexError
  | Some (x :: _) => mret x
  end.

(** The first [ELocationID] whose [EIdType] is ['doi']. *)
Definition doi_of (a : article) : option string :=
  eloc_text <$>
    List.find (fun e =>
                 match EIdType e with
                 | Some t => String.eqb t "doi"
                 | None => false
                 end)
              (match ELocationID a with Some l => l | None => [] end).

Definition full_text_url_of (a : article) : string :=
  match doi_of a with
  | Some (String c d) => "https://doi.org/" +:+ String c d
  | Some EmptyString | None => "Full text link not available"
  end.

(** The record of one paper. *)
Definition entry (title authors journal date_str url abstract : string)
  : string :=
  "Title: " +:+ title +:+ nl +:+
  "Authors: " +:+ authors +:+ nl +:+
  "Journal: " +:+ capitalize journal +:+ nl +:+
  "Date: " +:+ date_str +:+ nl +:+
  "URL: " +:+ url +:+ nl +:+
  "Abstract: " +:+ abstract +:+ nl +:+ nl.

(** The body of [for article in fetch_results['PubmedArticle']]. *)
Definition process_article (journals : list string) (q : bool)
  (a : article) (entries : list string) : M (list string) :=
  let journal := lower (JournalTitle a) in
  if journal_ok journals journal then
    abstract ← abstract_of a;
    let e := entry (title_of a) (authors_of a) journal
                   (date_str_of (PubDate a)) (full_text_url_of a) abstract in
    _ ← print_unless q ("Retrieved: " +:+ title_of a);
    mret (entries ++ [e])%list
  else mret entries.

Section Run.
Variable E : env.
Variable quiet_mode : bool.
Variables start_date end_date batch : Z.
Variables journals : list string.

(** The [while True] loop of one keyword, from offset [retstart]. *)
Fixpoint paginate (fuel : nat) (query : string) (retstart : Z)
  (entries : list string) : M (list string) :=
  match fuel with
  | O => out_of_fuel
  | S fuel' =>
      let rq := Esearch query start_date end_date batch retstart in
      n ← send rq;
      match esearch E n rq with
      | Fails msg =>
          _ ← print ("Error querying PubMed: " +:+ msg); mret entries
      | Returns found =>
          match IdList found with
          | [] => mret entries
          | _ :: _ =>
              let rf := Efetch (IdList found) in
              n' ← send rf;
              match efetch E n' rf with
              | Fails msg =>
                  _ ← print ("Error fetching PubMed entries: " +:+ msg);
                  mret entries
              | Returns articles =>
                  entries' ←
                    for_each (process_article journals quiet_mode)
                             articles entries;
                  let retstart' := retstart + batch in
                  if Count found <=? retstart' then mret entries'
                  else paginate fuel' query retstart' entries'
              end
          end
      end
  end.
End Run.

Definition write_entries (entries : list string) : M unit :=
  match entries with
  | [] => print "No matching entries found for the given keywords."
  | _ :: _ =>
      _ ← write_file output_path (String.concat "" entries);
      print (pretty (length entries) +:+
             " entries successfully written to '/Scitify/output/latest_pubmed_entries.txt'.")
  end.

(** The script, after argument parsing, up to the end of the loop over the
    keywords.  [fuel] bounds the iterations of each keyword's [while]
    loop. *)
Definition collect (E : env) (a : args) (fuel : nat) : M (list string) :=
  keywords_dict ← load_keywords_from_file_journals (keywords_file E);
  let errors :=
    (missing_flag (days_before_today a) "days_before_today" ++
     missing_flag (batch_size a) "batch_size" ++
     missing_flag (email a) "email" ++
     keyword_errors keywords_path keywords_dict)%list in
  match errors, days_before_today a, batch_size a, keywords_dict with
  | [], Some days, Some batch, Some k =>
      if can_go_back (today E) days then
        let start_date := today E - days in
        let end_date := today E in
        for_each (fun keyword entries =>
                    paginate E (quiet a) start_date end_date batch
                             (journals_of_interest k) fuel
                             (build_query keyword (journals_of_interest k)
                                          (exclude_keywords k))
                             0 entries)
                 (keywords k) []
      else raise OverflowError
  | _, _, _, _ =>
      _ ← write_stderr (join nl errors +:+ nl);
      sys_exit 1
  end.

(** The script, after argument parsing. *)
Definition main (E : env) (a : args) (fuel : nat) : M unit :=
  entries ← collect E a fuel;
  write_entries entries.

End PubMed.

(** ** [bin/arXiv_retrieve.py] *)

Module arXiv.
Import Text Calendar Config Runtime.

(** One entry of the Atom feed as [feedparser] presents it. *)
Record entry := {
  title : string;
  summary : string;
  link : string;
  published : string;
  authors : list string
}.

Record args := {
  days_before_today : option Z;
  batch_size : option Z;
  quiet : bool;
  help : bool
}.

(** [feedparser.parse] does not raise on a failed transfer: it returns a
    feed without entries.  [usage] is what [parser.print_help()] prints. *)
Record env := {
  keywords_file : option parsed;
  now : instant;
  feed : nat -> request -> list entry;
  usage : string
}.

Definition keywords_path : string := "../config/arXiv_keywords.txt".
Definition output_path : string := "../output/latest_arxiv_entries.txt".

(** The dictionary [entries], in insertion order. *)
Definition dict : Type := list (string * string).

(** [d[k] = v]: a key already present keeps its place. *)
Fixpoint dict_set (k v : string) (d : dict) : dict :=
  match d with
  | [] => [(k, v)]
  | (k', v') :: t =>
      if String.eqb k k' then (k, v) :: t else (k', v') :: dict_set k v t
  end.

(** The two variables the loops update. *)
Record state := { entries : dict; processed_links : gset string }.

Definition clean_title (e : entry) : string :=
  join " " (split_ws (replace_newline (strip (title e)))).

Definition entry_data (e : entry) (published_date : datetime) : string :=
  "Title: " +:+ clean_title e +:+ nl +:+
  "Authors: " +:+ join ", " (authors e) +:+ nl +:+
  "Date: " +:+ Strptime.strftime_ymd published_date +:+ nl +:+
  "URL: " +:+ link e +:+ nl +:+
  "Abstract: " +:+ summary e +:+ nl +:+ nl.

Section Run.
Variable E : env.
Variable quiet_mode : bool.
Variables days batch : Z.
Variables exclude required : list string.

(** The body of [for entry in response.entries]. *)
Definition process_entry (e : entry) (st : state) : M state :=
  _ ← print_unless quiet_mode ("Retrieved: " +:+ title e);
  if bool_decide (link e ∈ processed_links st) then mret st
  else
    let st := {| entries := entries st;
                 processed_links := {[link e]} ∪ processed_links st |} in
    match Strptime.iso (published e) with
    | None => raise ValueError
    | Some published_date =>
        if geb (instant_of published_date) (minus_days (now E) days) then
          let combined_text := lower (title e +:+ " " +:+ summary e) in
          if negb (any_in exclude combined_text) then
            let score := score required combined_text in
            if match required with [] => true | _ :: _ => false end
               || (0 <? score)
            then
              mret {| entries :=
                        dict_set (link e) (entry_data e published_date)
                                 (entries st);
                      processed_links := processed_links st |}
            else
              _ ← print_unless quiet_mode
                    ("Excluded (low score): " +:+ title e);
              mret st
          else
            _ ← print_unless quiet_mode
                  ("Excluded (excluded keyword): " +:+ title e);
            mret st
        else mret st
    end.

(** The [while True] loop of one keyword, from [offset]. *)
Fixpoint paginate (fuel : nat) (keyword : string) (offset : Z) (st : state)
  : M state :=
  match fuel with
  | O => out_of_fuel
  | S fuel' =>
      let rq := ArxivQuery keyword offset batch in
      n ← send rq;
      match feed E n rq with
      | [] => mret st
      | (_ :: _) as response_entries =>
          st' ← for_each process_entry response_entries st;
          paginate fuel' keyword (offset + batch) st'
      end
  end.
End Run.

Definition write_entries (d : dict) : M unit :=
  match d with
  | [] => print "No matching entries found for the given keywords."
  | _ :: _ =>
      _ ← write_file output_path (String.concat "" (map snd d));
      print (pretty (length d) +:+
             " unique entries successfully written to '/Scitify/output/latest_arxiv_entries.txt'.")
  end.

(** The script, after argument parsing, up to the end of the loop over the
    keywords: the [--help] exit, the checks and the loop. *)
Definition collect (E : env) (a : args) (fuel : nat) : M state :=
  if help a then _ ← print (usage E); sys_exit 0
  else
    keywords_dict ← load_keywords_from_file (keywords_file E);
    let errors :=
      (missing_flag (days_before_today a) "days_before_today" ++
       missing_flag (batch_size a) "batch_size" ++
       keyword_errors keywords_path keywords_dict)%list in
    match errors, days_before_today a, batch_size a, keywords_dict with
    | [], Some days, Some batch, Some k =>
        for_each (fun keyword st =>
                    paginate E (quiet a) days batch
                             (exclude_keywords k) (required_keywords k)
                             fuel keyword 0 st)
                 (keywords k)
                 {| entries := []; processed_links := ∅ |}
    | _, _, _, _ =>
        _ ← for_each (fun error (_ : unit) => print error) errors tt;
        sys_exit 1
    end.

Definition main (E : env) (a : args) (fuel : nat) : M unit :=
  st ← collect E a fuel;
  write_entries (entries st).

End arXiv.

(** ** [bin/bioRxiv_retrieve.py] *)

Module bioRxiv.
Import Text Calendar Config Runtime.

(** The value under ['authors']: a list of names or any other value, which
    the API delivers as a single string. *)
Inductive authors_field :=
| AuthorNames (names : list string)
| AuthorText (text : string).

Record item := {
  title : string;
  abstract : string;
  date : string;
  doi : string;
  authors : option authors_field
}.

(** The decoded body of a response.  [NotJson]: [response.json()] raises.
    [Json collection]: an object, with the value under ["collection"] when
    that key is there.  [NotObject stops]: any other JSON value; [stops]
    when the test ["collection" in response_data] raises (null, a number, a
    boolean) or holds, so that the subscript after it raises (a list or a
    string that holds that text): a [TypeError] either way. *)
Inductive body :=
| NotJson
| Json (collection : option (list item))
| NotObject (stops : bool).

Record response := { status_code : Z; content : body }.

Record args := {
  days_before_today : option Z;
  batch_size : option Z;
  quiet : bool;
  help : bool
}.

(** [usage] is what [parser.print_help()] prints. *)
Record env := {
  keywords_file : option parsed;
  today : Z;
  get : nat -> request -> reply response;
  usage : string
}.

Definition keywords_path : string := "../config/bioRxiv_keywords.txt".
Definition output_path : string := "../output/latest_bioRxiv_entries.txt".

Definition authors_of (i : item) : string :=
  match authors i with
  | None => join ", " []
  | Some (AuthorNames l) => join ", " l
  | Some (AuthorText s) => s
  end.

Definition entry (i : item) : string :=
  "Title: " +:+ title i +:+ nl +:+
  "Authors: " +:+ authors_of i +:+ nl +:+
  "Date: " +:+ date i +:+ nl +:+
  "DOI: " +:+ doi i +:+ nl +:+
  "URL: https://doi.org/" +:+ doi i +:+ nl +:+
  "Abstract: " +:+ abstract i +:+ nl +:+ nl.

Definition nonempty {A} (l : list A) : bool :=
  match l with [] => false | _ :: _ => true end.

Section Run.
Variable E : env.
Variable quiet_mode : bool.
Variables start_date end_date batch : Z.
Variables exclude required : list string.

(** The body of [for item in collection], for the current keyword. *)
Definition process_item (keyword : string) (i : item) (entries : list string)
  : M (list string) :=
  let abstract_text := lower (abstract i) in
  let combined_text := lower (title i +:+ " " +:+ abstract i) in
  if contains (lower keyword) abstract_text then
    if nonempty exclude && any_in exclude combined_text then
      _ ← print_unless quiet_mode
            ("Excluded (excluded keyword): " +:+ title i);
      mret entries
    else if nonempty required && (score required combined_text =? 0) then
      _ ← print_unless quiet_mode
            ("Excluded (missing required keyword): " +:+ title i);
      mret entries
    else
      _ ← print_unless quiet_mode ("Retrieved: " +:+ title i);
      mret (entries ++ [entry i])%list
  else mret entries.

(** The [while True] loop of one keyword, from [offset]. *)
Fixpoint paginate (fuel : nat) (keyword : string) (offset : Z)
  (entries : list string) : M (list string) :=
  match fuel with
  | O => out_of_fuel
  | S fuel' =>
      let rq := BiorxivDetails start_date end_date offset in
      n ← send rq;
      match get E n rq with
      | Fails _ => raise ConnectionError
      | Returns resp =>
          match content resp with
          | NotJson => raise JSONDecodeError
          | NotObject stops =>
              if (status_code resp =? 200) && stops then raise TypeError
              else
                _ ← print "Failed to retrieve data from bioRxiv. Please try again later.";
                mret entries
          | Json data =>
              match status_code resp =? 200, data with
              | true, Some [] => mret entries
              | true, Some ((_ :: _) as collection) =>
                  entries' ←
                    for_each (process_item keyword) collection entries;
                  paginate fuel' keyword (offset + batch) entries'
              | _, _ =>
                  _ ← print "Failed to retrieve data from bioRxiv. Please try again later.";
                  mret entries
              end
          end
      end
  end.
End Run.

Definition write_entries (entries : list string) : M unit :=
  match entries with
  | [] => print "No matching entries found for the given keywords."
  | _ :: _ =>
      _ ← write_file output_path (String.concat "" entries);
      print (pretty (length entries) +:+
             " entries successfully written to '/Scitify/output/latest_bioRxiv_entries.txt'.")
  end.

(** The script, after argument parsing, up to the end of the loop over the
    keywords: the [--help] exit, the checks and the loop. *)
Definition collect (E : env) (a : args) (fuel : nat) : M (list string) :=
  if help a then _ ← print (usage E); sys_exit 0
  else
    keywords_dict ← load_keywords_from_file (keywords_file E);
    let errors :=
      (missing_flag (days_before_today a) "days_before_today" ++
       missing_flag (batch_size a) "batch_size" ++
       keyword_errors keywords_path keywords_dict)%list in
    match errors, days_before_today a, batch_size a, keywords_dict with
    | [], Some days, Some batch, Some k =>
        if can_go_back (today E) days && can_go_back (today E) 1 then
          let start_date := today E - days in
          let end_date := today E - 1 in
          for_each (fun keyword entries =>
                      paginate E (quiet a) start_date end_date batch
                               (exclude_keywords k) (required_keywords k)
                               fuel keyword 0 entries)
                   (keywords k) []
        else raise OverflowError
    | _, _, _, _ =>
        _ ← for_each (fun error (_ : unit) => print error) errors tt;
        sys_exit 1
    end.

Definition main (E : env) (a : args) (fuel : nat) : M unit :=
  entries ← collect E a fuel;
  write_entries entries.

End bioRxiv.

(** ** [bin/summarise_papers.py] *)

Module Summarise.
Import Text Calendar Runtime.

(** The three source files with the name [basename(file).split('_')[1]]
    yields for each. *)
Definition sources : list (string * string) :=
  [("../output/latest_arxiv_entries.txt", "arxiv");
   ("../output/latest_bioRxiv_entries.txt", "bioRxiv");
   ("../output/latest_pubmed_entries.txt", "pubmed")].

Definition output_file : string := "../output/titles_and_urls.txt".

(** The dictionary [entry] while a record is being read; under ["date"]
    the value may be [None]. *)
Record partial := {
  p_title : option string;
  p_date : option (option datetime);
  p_url : option string
}.

Definition blank : partial :=
  {| p_title := None; p_date := None; p_url := None |}.

(** An entry with its three keys. *)
Record entry := { title : string; date : option datetime; url : string }.

(** The lines [for line in f] yields, without their terminators; the file
    is opened in text mode, which reads with universal newlines. *)
Definition file_lines (content : string) : list string :=
  let ls := text_lines false content in
  match last ls with
  | Some EmptyString => removelast ls
  | _ => ls
  end.

(** One iteration of [for line in f]. *)
Definition read_line (st : partial * list entry) (raw : string)
  : partial * list entry :=
  let '(e, acc) := st in
  let line := strip raw in
  if startswith "Title:" line then
    ({| p_title := Some (drop 7 line); p_date := p_date e; p_url := p_url e |},
     acc)
  else if startswith "Date:" line then
    ({| p_title := p_title e; p_date := Some (Strptime.ymd (drop 6 line));
        p_url := p_url e |}, acc)
  else if startswith "URL:" line then
    ({| p_title := p_title e; p_date := p_date e; p_url := Some (drop 5 line) |},
     acc)
  else
    match line with
    | EmptyString =>
        match p_title e, p_date e, p_url e with
        | Some t, Some d, Some u =>
            (blank, (acc ++ [{| title := t; date := d; url := u |}])%list)
        | _, _, _ => (blank, acc)
        end
    | String _ _ => (e, acc)
    end.

(** [extract_entries(file)]; [None] when the file does not exist. *)
Definition extract_entries (file : option string) : list entry :=
  match file with
  | None => []
  | Some content => snd (fold_left read_line (file_lines content) (blank, []))
  end.

(** [a < b] on the sort keys: [TypeError] as soon as one is [None]. *)
Definition key_lt (a b : option datetime) : M bool :=
  match a, b with
  | Some x, Some y =>
      mret (negb (geb (instant_of x) (instant_of y)))
  | _, _ => raise TypeError
  end.

(** Places [x] behind the entries that are not older than it. *)
Fixpoint insert_desc (x : entry) (sorted : list entry) : M (list entry) :=
  match sorted with
  | [] => mret [x]
  | y :: t =>
      key_lt (date y) (date x) ≫= fun older : bool =>
      if older then mret (x :: y :: t)
      else t' ← insert_desc x t; mret (y :: t')
  end.

(** [sorted(l, key=lambda x: x["date"], reverse=True)]: stable, newest
    first, every entry of a list of two or more compared at least once. *)
Definition sorted_desc (l : list entry) : M (list entry) :=
  for_each insert_desc l [].

Definition digest (l : list entry) : string :=
  match l with
  | [] => "No entries found for the given sources." +:+ nl
  | _ :: _ =>
      String.concat ""
        (map (fun e => title e +:+ nl +:+ url e +:+ nl +:+ nl) l)
  end.

Definition report_missing (src : string * string) (_ : unit) : M unit :=
  file ← read_file (fst src);
  match file with
  | None => print ("No entries were found for " +:+ snd src +:+ ".")
  | Some _ => mret tt
  end.

Definition main : M unit :=
  all_entries ←
    for_each (fun src acc =>
                file ← read_file (fst src);
                mret (acc ++ extract_entries file)%list)
             sources [];
  all_entries ← sorted_desc all_entries;
  _ ← write_file output_file (digest all_entries);
  _ ← print "Titles and URLs have been successfully written to /Scitify/output/titles_and_urls.txt.";
  for_each report_missing sources tt.

End Summarise.

(** ** The filter rules in the words of the specification *)

Module Spec.
Import Text.

(** [k] occurs in [text] as a substring, ignoring case. *)
Definition occurs_ci (k text : string) : Prop :=
  exists pre post, lower text = pre +:+ lower k +:+ post.

(** Some exclusion keyword occurs in the text. *)
Definition excluded (exclude : list string) (text : string) : Prop :=
  exists k, In k exclude /\ occurs_ci k text.

(** The number of required keywords present in the text. *)
Definition count_present (required : list string) (text : string) : Z :=
  Z.of_nat
    (length (List.filter (fun k => contains (lower k) (lower text)) required)).

(** Any-match acceptance: no required keyword configured, or one present. *)
Definition meets_required (required : list string) (text : string) : Prop :=
  required = [] \/ exists k, In k required /\ occurs_ci k text.

(** The text both keyword filters look at. *)
Definition combined (title abstract : string) : string :=
  title +:+ " " +:+ abstract.

(** The label of a line of a record: what precedes its first colon. *)
Fixpoint before_colon (line : string) : option string :=
  match line with
  | EmptyString => None
  | String c t =>
      if Ascii.eqb c ":"%char then Some EmptyString
      else String c <$> before_colon t
  end.

(** The labels of the fields of a record, in the order of its lines. *)
Definition labels (record : string) : list string :=
  omap before_colon (split_lines record).

Definition six_labels : list string :=
  ["Title"; "Authors"; "Journal"; "Date"; "URL"; "Abstract"].

(** The lines of a record whose fields carry the given labels and values:
    one line per field, then the blank separator. *)
Definition field_lines (fields : list (string * string)) : list string :=
  (map (fun f => fst f +:+ ": " +:+ snd f) fields
   ++ [EmptyString; EmptyString])%list.

(** Every value stays on its line. *)
Definition one_line_each (fields : list (string * string)) : Prop :=
  Forall (fun f => single_line (snd f) = true) fields.

(** The fields of the three kinds of record. *)
Definition pubmed_fields (a : PubMed.article) (abstract : string)
  : list (string * string) :=
  [("Title", PubMed.title_of a);
   ("Authors", PubMed.authors_of a);
   ("Journal", capitalize (lower (PubMed.JournalTitle a)));
   ("Date", PubMed.date_str_of (PubMed.PubDate a));
   ("URL", PubMed.full_text_url_of a);
   ("Abstract", abstract)].

Definition arxiv_fields (e : arXiv.entry) (d : Calendar.datetime)
  : list (string * string) :=
  [("Title", arXiv.clean_title e);
   ("Authors", join ", " (arXiv.authors e));
   ("Date", Strptime.strftime_ymd d);
   ("URL", arXiv.link e);
   ("Abstract", arXiv.summary e)].

Definition biorxiv_fields (i : bioRxiv.item) : list (string * string) :=
  [("Title", bioRxiv.title i);
   ("Authors", bioRxiv.authors_of i);
   ("Date", bioRxiv.date i);
   ("DOI", bioRxiv.doi i);
   ("URL", "https://doi.org/" +:+ bioRxiv.doi i);
   ("Abstract", bioRxiv.abstract i)].

(** The keyword files the check refuses: no file at the path, or a file
    the parser reads in which the [keywords] section is absent, or is empty
    while [DEFAULT] is empty too. *)
Definition unusable (file : option Config.parsed) : Prop :=
  file = None \/
  exists d c, file = Some (Config.Sections d c) /\
              Config.strict d c = true /\
              (Config.section "keywords" c = None \/
               (Config.section "keywords" c = Some [] /\ d = [])).

(** The keyword files the parser rejects. *)
Definition rejected (file : option Config.parsed) : Prop :=
  file = Some Config.Unparsable \/
  exists d c, file = Some (Config.Sections d c) /\
              Config.strict d c = false.

(** The day [d] lies in the date range a request asks for. *)
Definition in_range (r : request) (d : Z) : Prop :=
  match r with
  | Esearch _ mindate maxdate _ _ => mindate <= d <= maxdate
  | BiorxivDetails start_date end_date _ => start_date <= d <= end_date
  | _ => False
  end.

(** The page requests among the calls of a run. *)
Definition is_page_request (r : request) : bool :=
  match r with
  | Efetch _ => false
  | _ => true
  end.

(** What a bioRxiv request looks like in a run with arguments [a]. *)
Definition biorxiv_request (E : bioRxiv.env) (a : bioRxiv.args) (r : request)
  : Prop :=
  exists days offset,
    bioRxiv.days_before_today a = Some days /\
    r = BiorxivDetails (bioRxiv.today E - days) (bioRxiv.today E - 1) offset /\
    ~ in_range r (bioRxiv.today E).

(** What a PubMed call looks like in a run with arguments [a]. *)
Definition pubmed_request (E : PubMed.env) (a : PubMed.args) (r : request)
  : Prop :=
  is_page_request r = true ->
  exists days term retmax retstart,
    PubMed.days_before_today a = Some days /\
    r = Esearch term (PubMed.today E - days) (PubMed.today E) retmax retstart /\
    (0 <= days -> in_range r (PubMed.today E)).


Definition page_requests (w : world) : list request :=
  List.filter is_page_request (requests w).

(** The message for a keyword file that is missing, or that lists no
    keyword. *)
Definition config_error (path : string) (file : option Config.parsed)
  : string :=
  match file with
  | None =>
      "Error: The keyword file '" +:+ path +:+
      "' does not exist. Please ensure the file is present."
  | Some _ =>
      "Error: No keywords found in '" +:+ path +:+
      "'. Please specify at least one keyword."
  end.

(** A computation that comes to an end whatever the world it starts in:
    its loops do not exhaust their fuel. *)
Definition finishes {A} (m : M A) : Prop :=
  forall w, fst (m w) <> OutOfFuel.

(** A computation every network call of which satisfies [P]. *)
Definition sends_only (P : request -> Prop) {A} (m : M A) : Prop :=
  forall w, Forall P (requests w) -> Forall P (requests (snd (m w))).

(** A computation that only adds to the calls made so far. *)
Definition appends {A} (m : M A) : Prop :=
  forall w, exists rs, requests (snd (m w)) = (requests w ++ rs)%list.

(** A computation whose first call is [r]. *)
Definition starts_with (r : request) {A} (m : M A) : Prop :=
  forall w, exists rs, requests (snd (m w)) = (requests w ++ r :: rs)%list.

(** The value a computation ends with, when it ends with one. *)
Definition value_of {A} (r : result A * world) : option A :=
  match fst r with
  | Ok a => Some a
  | _ => None
  end.

(** The world after [if not quiet: print(s)]. *)
Definition logged (q : bool) (s : string) (w : world) : world :=
  snd (Runtime.print_unless q s w).

(** The arXiv state once a link is noted as processed. *)
Definition mark (l : string) (st : arXiv.state) : arXiv.state :=
  {| arXiv.entries := arXiv.entries st;
     arXiv.processed_links := {[l]} ∪ arXiv.processed_links st |}.

End Spec.

(** ** Concrete inputs *)

Module Samples.
Import Text Calendar Config Runtime.

(** 2024-10-20, at noon. *)
Definition today : Z := 739179.
Definition noon : instant := (today, 43200000000).

Definition oncology_config : config :=
  [("keywords", ["oncology"]); ("exclude_keywords", ["cancer"]);
   ("required_keywords", [])].

Definition two_keywords : config :=
  [("keywords", ["oncology"; "crispr"]); ("exclude_keywords", ["cancer"]);
   ("required_keywords", [])].

Definition no_keywords : config := [("exclude_keywords", ["cancer"])].

(** *** PubMed *)

Definition pubmed_args : PubMed.args :=
  {| PubMed.days_before_today := Some 10; PubMed.batch_size := Some 100;
     PubMed.email := Some "reader@example.org"; PubMed.quiet := true |}.

Definition cancer_article : PubMed.article :=
  {| PubMed.ArticleTitle := Some "Pancreatic Cancer Cells";
     PubMed.AuthorList :=
       Some [{| PubMed.LastName := Some "Ching";
                PubMed.Initials := Some "C" |}];
     PubMed.JournalTitle := "Nature Reviews";
     PubMed.PubDate := {| PubMed.Year := Some "2023";
                          PubMed.Month := Some "Mar";
                          PubMed.Day := None |};
     PubMed.AbstractText := Some ["Advances in oncology."];
     PubMed.ELocationID :=
       Some [{| PubMed.EIdType := Some "doi";
                PubMed.eloc_text := "10.1000/j.1" |}] |}.

(** An article with none of the optional keys. *)
Definition bare_article : PubMed.article :=
  {| PubMed.ArticleTitle := None;
     PubMed.AuthorList := None;
     PubMed.JournalTitle := "Cell";
     PubMed.PubDate := {| PubMed.Year := None; PubMed.Month := None;
                          PubMed.Day := None |};
     PubMed.AbstractText := None;
     PubMed.ELocationID := None |}.

(** A source holding [total] identifiers, served [retmax] at a time. *)
Definition paged_ids (total : nat) (n : nat) (r : request)
  : reply PubMed.search_results :=
  match r with
  | Esearch _ _ _ retmax retstart =>
      Returns {| PubMed.Count := Z.of_nat total;
                 PubMed.IdList :=
                   firstn (Z.to_nat retmax)
                     (skipn (Z.to_nat retstart)
                        (map pretty (seq 0 total))) |}
  | _ => Fails "unexpected call"
  end.

Definition fetch_all (a : PubMed.article) (n : nat) (r : request)
  : reply (list PubMed.article) :=
  match r with
  | Efetch ids => Returns (map (fun _ => a) ids)
  | _ => Fails "unexpected call"
  end.

Definition pubmed_env (c : option config) (total : nat) : PubMed.env :=
  {| PubMed.keywords_file := plain c; PubMed.today := today;
     PubMed.esearch := paged_ids total;
     PubMed.efetch := fetch_all cancer_article |}.

(** A service that is down. *)
Definition pubmed_down : PubMed.env :=
  {| PubMed.keywords_file := plain (Some two_keywords); PubMed.today := today;
     PubMed.esearch := fun _ _ => Fails "connection refused";
     PubMed.efetch := fun _ _ => Fails "connection refused" |}.

(** *** arXiv *)

(** A stand-in for the help text of the parser. *)
Definition arxiv_usage : string :=
  "usage: arXiv_retrieve.py [--days_before_today DAYS_BEFORE_TODAY]".

Definition arxiv_args : arXiv.args :=
  {| arXiv.days_before_today := Some 10; arXiv.batch_size := Some 100;
     arXiv.quiet := true; arXiv.help := false |}.

Definition paper (n : nat) : arXiv.entry :=
  {| arXiv.title := "Oncology report " +:+ pretty n;
     arXiv.summary := "A study in oncology.";
     arXiv.link := "http://arxiv.org/abs/2410." +:+ pretty n;
     arXiv.published := "2024-10-18T09:00:00Z";
     arXiv.authors := ["Cyan Ching"; "A. Reader"] |}.

(** A feed holding [total] entries, served [max_results] at a time. *)
Definition paged_feed (total : nat) (n : nat) (r : request)
  : list arXiv.entry :=
  match r with
  | ArxivQuery _ start max_results =>
      firstn (Z.to_nat max_results)
        (skipn (Z.to_nat start) (map paper (seq 0 total)))
  | _ => []
  end.

Definition arxiv_env (c : option config) (total : nat) : arXiv.env :=
  {| arXiv.keywords_file := plain c; arXiv.now := noon;
     arXiv.feed := paged_feed total; arXiv.usage := arxiv_usage |}.

(** Two versions of one link: the first names an exclusion keyword, the
    second does not. *)
Definition first_version : arXiv.entry :=
  {| arXiv.title := "Oncology of cancer";
     arXiv.summary := "A study in oncology.";
     arXiv.link := "http://arxiv.org/abs/2410.00001";
     arXiv.published := "2024-10-18T09:00:00Z";
     arXiv.authors := ["Cyan Ching"] |}.

Definition second_version : arXiv.entry :=
  {| arXiv.title := "Oncology of tumours";
     arXiv.summary := "A study in oncology.";
     arXiv.link := "http://arxiv.org/abs/2410.00001";
     arXiv.published := "2024-10-18T09:00:00Z";
     arXiv.authors := ["Cyan Ching"] |}.

Definition published_day : datetime :=
  {| year := 2024; month := 10; day := 18;
     hour := 9; minute := 0; second := 0; microsecond := 0 |}.

(** The fifth of January 999. *)
Definition early_day : datetime :=
  {| year := 999; month := 1; day := 5;
     hour := 9; minute := 0; second := 0; microsecond := 0 |}.

Definition no_state : arXiv.state :=
  {| arXiv.entries := []; arXiv.processed_links := ∅ |}.

(** *** bioRxiv *)

Definition biorxiv_usage : string :=
  "usage: bioRxiv_retrieve.py [--days_before_today DAYS_BEFORE_TODAY]".

Definition biorxiv_args : bioRxiv.args :=
  {| bioRxiv.days_before_today := Some 10; bioRxiv.batch_size := Some 100;
     bioRxiv.quiet := true; bioRxiv.help := false |}.

Definition preprint (n : nat) : bioRxiv.item :=
  {| bioRxiv.title := "Oncology preprint " +:+ pretty n;
     bioRxiv.abstract := "A study in oncology.";
     bioRxiv.date := "2024-10-18";
     bioRxiv.doi := "10.1101/2024.10.18." +:+ pretty n;
     bioRxiv.authors := Some (bioRxiv.AuthorText "Ching, C.; Reader, A.") |}.

(** The keyword is in the title only. *)
Definition title_only : bioRxiv.item :=
  {| bioRxiv.title := "CRISPR screens";
     bioRxiv.abstract := "We study gene editing.";
     bioRxiv.date := "2024-10-18";
     bioRxiv.doi := "10.1101/2024.10.18.7";
     bioRxiv.authors := Some (bioRxiv.AuthorNames ["Ching, C."]) |}.

(** Mentions RNA, not CRISPR. *)
Definition rna_only : bioRxiv.item :=
  {| bioRxiv.title := "Small RNA maps";
     bioRxiv.abstract := "An atlas of RNA in oncology.";
     bioRxiv.date := "2024-10-18";
     bioRxiv.doi := "10.1101/2024.10.18.8";
     bioRxiv.authors := None |}.

(** A collection of [total] items, served a hundred at a time. *)
Definition paged_collection (total : nat) (n : nat) (r : request)
  : reply bioRxiv.response :=
  match r with
  | BiorxivDetails _ _ offset =>
      Returns {| bioRxiv.status_code := 200;
                 bioRxiv.content :=
                   bioRxiv.Json
                     (Some (firstn 100
                              (skipn (Z.to_nat offset)
                                 (map preprint (seq 0 total))))) |}
  | _ => Fails "unexpected call"
  end.

Definition biorxiv_env (c : option config) (total : nat) : bioRxiv.env :=
  {| bioRxiv.keywords_file := plain c; bioRxiv.today := today;
     bioRxiv.get := paged_collection total;
     bioRxiv.usage := biorxiv_usage |}.

(** A service that is down. *)
Definition biorxiv_down : bioRxiv.env :=
  {| bioRxiv.keywords_file := plain (Some two_keywords);
     bioRxiv.today := today;
     bioRxiv.get := fun _ _ => Fails "connection refused";
     bioRxiv.usage := biorxiv_usage |}.

(** A service that answers with an error page that is not JSON. *)
Definition biorxiv_error_page : bioRxiv.env :=
  {| bioRxiv.keywords_file := plain (Some two_keywords);
     bioRxiv.today := today;
     bioRxiv.get := fun _ _ =>
       Returns {| bioRxiv.status_code := 503;
                  bioRxiv.content := bioRxiv.NotJson |};
     bioRxiv.usage := biorxiv_usage |}.

(** *** Keyword files with a [DEFAULT] section, or that the parser rejects *)

(** The [keywords] section is empty; [DEFAULT] lists a keyword. *)
Definition inherited_keywords : parsed :=
  Sections ["oncology"] [("keywords", [])].

(** The [keywords] section comes twice. *)
Definition repeated_section : parsed :=
  Sections [] [("keywords", ["oncology"]); ("keywords", ["crispr"])].

Definition pubmed_reading (file : option parsed) (total : nat) : PubMed.env :=
  {| PubMed.keywords_file := file; PubMed.today := today;
     PubMed.esearch := paged_ids total;
     PubMed.efetch := fetch_all cancer_article |}.

Definition arxiv_reading (file : option parsed) (total : nat) : arXiv.env :=
  {| arXiv.keywords_file := file; arXiv.now := noon;
     arXiv.feed := paged_feed total; arXiv.usage := arxiv_usage |}.

Definition biorxiv_reading (file : option parsed) (total : nat)
  : bioRxiv.env :=
  {| bioRxiv.keywords_file := file; bioRxiv.today := today;
     bioRxiv.get := paged_collection total;
     bioRxiv.usage := biorxiv_usage |}.

(** *** Required keywords *)

(** A keyword file that requires [crispr]. *)
Definition crispr_required : config :=
  [("keywords", ["oncology"]); ("required_keywords", ["crispr"])].

(** A bioRxiv item with the title and abstract of [cancer_article]. *)
Definition same_as_article : bioRxiv.item :=
  {| bioRxiv.title := "Pancreatic Cancer Cells";
     bioRxiv.abstract := "Advances in oncology.";
     bioRxiv.date := "2023-03-01";
     bioRxiv.doi := "10.1000/j.1";
     bioRxiv.authors := Some (bioRxiv.AuthorNames ["Ching, C."]) |}.

(** *** Dates *)

(** A preprint dated 2024-10-20, the day of the run. *)
Definition dated_today : bioRxiv.item :=
  {| bioRxiv.title := "Oncology preprint of the day";
     bioRxiv.abstract := "A study in oncology.";
     bioRxiv.date := "2024-10-20";
     bioRxiv.doi := "10.1101/2024.10.20.1";
     bioRxiv.authors := Some (bioRxiv.AuthorNames ["Ching, C."]) |}.

(** A server whose first page holds that preprint. *)
Definition biorxiv_serving_today : bioRxiv.env :=
  {| bioRxiv.keywords_file := plain (Some oncology_config);
     bioRxiv.today := today;
     bioRxiv.get := fun _ r =>
       match r with
       | BiorxivDetails _ _ 0 =>
           Returns {| bioRxiv.status_code := 200;
                      bioRxiv.content := bioRxiv.Json (Some [dated_today]) |}
       | _ =>
           Returns {| bioRxiv.status_code := 200;
                      bioRxiv.content := bioRxiv.Json (Some []) |}
       end;
     bioRxiv.usage := biorxiv_usage |}.

(** [--days_before_today -1] *)
Definition pubmed_day_ahead : PubMed.args :=
  {| PubMed.days_before_today := Some (-1); PubMed.batch_size := Some 100;
     PubMed.email := Some "reader@example.org"; PubMed.quiet := true |}.

(** *** Consolidation *)

(** One PubMed record with a full date and one without a year. *)
Definition mixed_dates : world :=
  {| stdout := []; stderr := []; requests := [];
     files :=
       {[ "../output/latest_pubmed_entries.txt" :=
            PubMed.entry "Dated" "Ching C" "cell" "2024-10-01"
                         "https://doi.org/10.1000/j.1" "No Abstract" +:+
            PubMed.entry "Undated" "Ching C" "cell" "Unknown Date"
                         "https://doi.org/10.1000/j.2" "No Abstract" ]} |}.

End Samples.

(** ** Notions for the properties of the loops and of the files *)

Module Notions.
Import Text Calendar Runtime.

(** A computation that leaves the files as they are. *)
Definition leaves_files {A} (m : M A) : Prop :=
  forall w, files (snd (m w)) = files w.

(** A computation that only adds to the standard output. *)
Definition add_line (w : world) (s : string) : world :=
  {| stdout := (stdout w ++ [s])%list; stderr := stderr w;
     requests := requests w; files := files w |}.

(** The world after the calls [rs] and the printed lines [ls]. *)
Definition after (w : world) (rs : list request) (ls : list string) : world :=
  {| stdout := (stdout w ++ ls)%list; stderr := stderr w;
     requests := (requests w ++ rs)%list; files := files w |}.

(** [a] is not older than [b]: both are dated and [a >= b]. *)
Definition not_older (a b : Summarise.entry) : Prop :=
  exists da db,
    Summarise.date a = Some da /\ Summarise.date b = Some db /\
    geb (instant_of da) (instant_of db) = true.

(** The date alone, at midnight. *)
Definition midnight (t : datetime) : datetime :=
  {| year := year t; month := month t; day := day t;
     hour := 0; minute := 0; second := 0; microsecond := 0 |}.

(** The characters of a string. *)
Definition chars (s : string) : list ascii := list_ascii_of_string s.

(** A record as the consolidation step reads it back: the three values
    without their trailing whitespace. *)
Definition read_back (title date_str url : string) : Summarise.entry :=
  {| Summarise.title := rstrip title;
     Summarise.date := Strptime.ymd (rstrip date_str);
     Summarise.url := rstrip url |}.

(** The links under which the arXiv entries are kept. *)
Definition links (st : arXiv.state) : list string :=
  map fst (arXiv.entries st).

(** No link is kept twice, and every link kept was noted as processed. *)
Definition distinct_links (st : arXiv.state) : Prop :=
  NoDup (links st) /\
  forall k, In k (links st) -> k ∈ arXiv.processed_links st.

(** From [st] to [st'] the entries only grow at the end and the links stay
    distinct. *)
Definition grows (st st' : arXiv.state) : Prop :=
  distinct_links st ->
  distinct_links st' /\
  (exists l, arXiv.entries st' = (arXiv.entries st ++ l)%list) /\
  arXiv.processed_links st ⊆ arXiv.processed_links st'.

(** The entries the consolidation step extracts from the three source
    files of a world, in the order of the sources. *)
Definition all_entries (w : world) : list Summarise.entry :=
  flat_map (fun src => Summarise.extract_entries (files w !! fst src))
           Summarise.sources.

(** An entry whose date was parsed. *)
Definition dated (e : Summarise.entry) : Prop := Summarise.date e <> None.

(** The lines that report the source files that do not exist. *)
Definition missing_lines (fs : gmap string string) : list string :=
  flat_map (fun src : string * string =>
              match fs !! fst src with
              | None => ["No entries were found for " +:+ snd src +:+ "."]
              | Some _ => []
              end)
           Summarise.sources.

(** The lines [ls] hold one complete record, read as the entry [e]:
    reading them from a blank state adds [e] and leaves a blank state. *)
Definition reads_as (ls : list string) (e : Summarise.entry) : Prop :=
  forall acc,
    fold_left Summarise.read_line ls (Summarise.blank, acc)
    = (Summarise.blank, (acc ++ [e])%list).

(** The values of one PubMed record. *)
Record pubmed_values := {
  v_title : string; v_authors : string; v_journal : string;
  v_date : string; v_url : string; v_abstract : string
}.

Definition pubmed_record (v : pubmed_values) : string :=
  PubMed.entry (v_title v) (v_authors v) (v_journal v) (v_date v) (v_url v)
               (v_abstract v).

Definition pubmed_one_line (v : pubmed_values) : Prop :=
  Spec.one_line_each [("Title", v_title v); ("Authors", v_authors v);
                 ("Journal", capitalize (v_journal v)); ("Date", v_date v);
                 ("URL", v_url v); ("Abstract", v_abstract v)].

(** The fields of the record made of the values [v]. *)
Definition pubmed_value_fields (v : pubmed_values) : list (string * string) :=
  [("Title", v_title v); ("Authors", v_authors v);
   ("Journal", capitalize (v_journal v)); ("Date", v_date v);
   ("URL", v_url v); ("Abstract", v_abstract v)].

(** The text holds no white space. *)
Fixpoint spaceless (s : string) : bool :=
  match s with
  | EmptyString => true
  | String c t => negb (is_space c) && spaceless t
  end.

(** The text holds no carriage return. *)
Fixpoint no_cr (s : string) : bool :=
  match s with
  | EmptyString => true
  | String c t => negb (Ascii.eqb c CR) && no_cr t
  end.

(** No value holds a carriage return, which would end its line when the
    file is read back. *)
Definition without_cr (fields : list (string * string)) : Prop :=
  Forall (fun f => no_cr (snd f) = true) fields.

(** The number of lines of a file that are blank once stripped. *)
Definition blank_line_count (content : string) : nat :=
  length (List.filter (fun l => String.eqb (strip l) EmptyString)
                      (Summarise.file_lines content)).

(** A reply the bioRxiv script takes as a failure of the service: its body
    decodes, and it is not a success with a collection.  The status is not
    200, or the body is an object without the key [collection], or another
    JSON value in which the test for that key is false. *)
Definition refusal (resp : bioRxiv.response) : Prop :=
  match bioRxiv.content resp with
  | bioRxiv.NotJson => False
  | bioRxiv.Json data => bioRxiv.status_code resp <> 200 \/ data = None
  | bioRxiv.NotObject stops =>
      bioRxiv.status_code resp <> 200 \/ stops = false
  end.

(** The day part of a PubMed date. *)
Definition day_part (day : string) : string :=
  match day with
  | EmptyString => "01"
  | String _ _ => zfill 2 day
  end.

(** [b] continues [a]. *)
Definition extends (a b : list string) : Prop :=
  exists l, b = (a ++ l)%list.

(** The test the PubMed script makes on an [ELocationID]. *)
Definition is_doi (e : PubMed.eloc) : bool :=
  match PubMed.EIdType e with
  | Some t => String.eqb t "doi"
  | None => false
  end.

(** The identifiers asked for in the fetch calls of a run, in order. *)
Definition fetched_ids (w : world) : list string :=
  flat_map (fun r => match r with Efetch ids => ids | _ => [] end)
           (requests w).

(** An article whose abstract can be shown: [AbstractText] is absent or has
    a first segment. *)
Definition has_abstract (a : PubMed.article) : Prop :=
  PubMed.AbstractText a <> Some [].

(** A search service over the identifiers [ids], [retmax] at a time. *)
Definition serves (E : PubMed.env) (ids : list string) : Prop :=
  forall n term mindate maxdate retmax retstart,
    PubMed.esearch E n (Esearch term mindate maxdate retmax retstart)
    = Returns {| PubMed.Count := Z.of_nat (length ids);
                 PubMed.IdList :=
                   firstn (Z.to_nat retmax) (skipn (Z.to_nat retstart) ids) |}.

(** A fetch service that never raises and delivers articles that have an
    abstract to show. *)
Definition delivers (E : PubMed.env) : Prop :=
  forall n ids, exists articles,
    PubMed.efetch E n (Efetch ids) = Returns articles /\
    Forall has_abstract articles.

(** The bioRxiv page calls at [offset], [offset + batch], ..., [n] of them. *)
Definition offsets (sd ed offset batch : Z) (n : nat) : list request :=
  map (fun k => BiorxivDetails sd ed (offset + Z.of_nat k * batch)) (seq 0 n).

(** Every page the loop can ask for from [offset] on holds an item. *)
Definition always_full (E : bioRxiv.env) (sd ed offset batch : Z) : Prop :=
  forall (n k : nat), exists i page,
    bioRxiv.get E n (BiorxivDetails sd ed (offset + Z.of_nat k * batch))
    = Returns {| bioRxiv.status_code := 200;
                 bioRxiv.content := bioRxiv.Json (Some (i :: page)) |}.

End Notions.

(** ** Further concrete inputs *)

Module MoreSamples.
Import Text Calendar Config Runtime Samples.

Definition pubmed_no_days : PubMed.args :=
  {| PubMed.days_before_today := None; PubMed.batch_size := Some 100;
     PubMed.email := Some "reader@example.org"; PubMed.quiet := true |}.

Definition arxiv_no_batch : arXiv.args :=
  {| arXiv.days_before_today := Some 10; arXiv.batch_size := None;
     arXiv.quiet := true; arXiv.help := false |}.

Definition biorxiv_no_flags : bioRxiv.args :=
  {| bioRxiv.days_before_today := None; bioRxiv.batch_size := None;
     bioRxiv.quiet := false; bioRxiv.help := false |}.

(** [--help] alone. *)
Definition biorxiv_help : bioRxiv.args :=
  {| bioRxiv.days_before_today := None; bioRxiv.batch_size := None;
     bioRxiv.quiet := false; bioRxiv.help := true |}.

(** A PubMed file with two dated records, the older one first. *)
Definition two_dated : world :=
  {| stdout := []; stderr := []; requests := [];
     files :=
       {[ "../output/latest_pubmed_entries.txt" :=
            PubMed.entry "Older" "Ching C" "cell" "2024-09-30"
                         "https://doi.org/10.1000/j.1" "No Abstract" +:+
            PubMed.entry "Newer" "Ching C" "cell" "2024-10-02"
                         "https://doi.org/10.1000/j.2" "No Abstract" ]} |}.

(** The values of two PubMed records, the second without a year. *)
Definition dated_values : Notions.pubmed_values :=
  {| Notions.v_title := "Pancreatic Cancer Cells";
     Notions.v_authors := "Ching C";
     Notions.v_journal := "nature reviews";
     Notions.v_date := "2023-03-01";
     Notions.v_url := "https://doi.org/10.1000/j.1";
     Notions.v_abstract := "Advances in oncology." |}.

Definition undated_values : Notions.pubmed_values :=
  {| Notions.v_title := "No Title";
     Notions.v_authors := "";
     Notions.v_journal := "cell";
     Notions.v_date := "Unknown Date";
     Notions.v_url := "Full text link not available";
     Notions.v_abstract := "No Abstract" |}.

(** A service that answers every request with status 503 and a JSON body
    without collection. *)
Definition biorxiv_refusing : bioRxiv.env :=
  {| bioRxiv.keywords_file := plain (Some two_keywords);
     bioRxiv.today := today;
     bioRxiv.get := fun _ _ =>
       Returns {| bioRxiv.status_code := 503;
                  bioRxiv.content := bioRxiv.Json None |};
     bioRxiv.usage := biorxiv_usage |}.

(** A service that answers every request with status 200 and the JSON
    value [null]. *)
Definition biorxiv_null : bioRxiv.env :=
  {| bioRxiv.keywords_file := plain (Some two_keywords);
     bioRxiv.today := today;
     bioRxiv.get := fun _ _ =>
       Returns {| bioRxiv.status_code := 200;
                  bioRxiv.content := bioRxiv.NotObject true |};
     bioRxiv.usage := biorxiv_usage |}.

(** An article with a publisher identifier before its DOI. *)
Definition two_locations : PubMed.article :=
  {| PubMed.ArticleTitle := Some "Located";
     PubMed.AuthorList := None;
     PubMed.JournalTitle := "Cell";
     PubMed.PubDate := {| PubMed.Year := Some "2024"; PubMed.Month := None;
                          PubMed.Day := None |};
     PubMed.AbstractText := None;
     PubMed.ELocationID :=
       Some [{| PubMed.EIdType := Some "pii";
                PubMed.eloc_text := "S0092-8674(24)00001-1" |};
             {| PubMed.EIdType := Some "doi";
                PubMed.eloc_text := "10.1000/j.9" |}] |}.

End MoreSamples.

(** * Properties *)

(** ** Substring search and line splitting *)

Module TextFacts.
Import Text.

Lemma append_nil (t : string) : EmptyString +:+ t = t.
Proof. reflexivity. Qed.

Lemma append_cons c (s t : string) : String c s +:+ t = String c (s +:+ t).
Proof. reflexivity. Qed.

Lemma append_nil_r (s : string) : s +:+ EmptyString = s.
Proof.
  induction s as [|c s IH]; [reflexivity|].
  rewrite append_cons. now rewrite IH.
Qed.

Lemma app_assoc_s (a b c : string) : (a +:+ b) +:+ c = a +:+ (b +:+ c).
Proof.
  induction a as [|x a IH]; [reflexivity|].
  rewrite !append_cons. now rewrite IH.
Qed.

Lemma startswith_spec p s :
  startswith p s = true <-> exists t, s = p +:+ t.
Proof.
  revert s. induction p as [|a p IH]; intros s; simpl.
  - split; [intros _; now exists s | reflexivity].
  - destruct s as [|b s].
    + split; [discriminate | intros [t Ht]; discriminate].
    + destruct (Ascii.eqb_spec a b) as [->|Hab].
      * rewrite IH. split; intros [t Ht]; exists t.
        -- now rewrite Ht.
        -- rewrite append_cons in Ht. congruence.
      * split; [discriminate|].
        intros [t Ht]. rewrite append_cons in Ht. congruence.
Qed.

(** [needle in hay] holds exactly when [hay] splits around [needle]. *)
Lemma contains_spec needle hay :
  contains needle hay = true <->
  exists pre post, hay = pre +:+ needle +:+ post.
Proof.
  induction hay as [|c hay IH]; simpl.
  - rewrite orb_false_r, startswith_spec. split.
    + intros [t Ht]. now exists EmptyString, t.
    + intros [pre [post H]]. destruct pre as [|x pre]; [now exists post|].
      discriminate.
  - rewrite orb_true_iff, startswith_spec, IH. split.
    + intros [[t Ht] | [pre [post H]]].
      * now exists EmptyString, t.
      * exists (String c pre), post. rewrite append_cons. now rewrite H.
    + intros [pre [post H]]. destruct pre as [|x pre].
      * left. now exists post.
      * right. exists pre, post. rewrite append_cons in H. congruence.
Qed.

Lemma contains_nl_cons c s :
  contains nl (String c s) = Ascii.eqb LF c || contains nl s.
Proof.
  unfold nl. cbn [contains startswith].
  destruct (Ascii.eqb LF c); [now destruct s | reflexivity].
Qed.

Lemma single_line_cons c s :
  single_line (String c s) = true <-> c <> LF /\ single_line s = true.
Proof.
  unfold single_line. rewrite contains_nl_cons.
  destruct (Ascii.eqb_spec LF c) as [<-|Hc]; cbn [orb negb].
  - split; [discriminate | intros [H _]; now elim H].
  - split; [intros H; split; [congruence | exact H] | now intros [_ H]].
Qed.

(** A value without line feed followed by a line feed is one line. *)
Lemma split_lines_line v rest :
  single_line v = true ->
  split_lines (v +:+ nl +:+ rest) = v :: split_lines rest.
Proof.
  induction v as [|c v IH]; intros Hv.
  - reflexivity.
  - apply single_line_cons in Hv as [Hc Hv].
    rewrite append_cons. cbn [split_lines]. rewrite (IH Hv).
    destruct (Ascii.eqb_spec c LF); [contradiction | reflexivity].
Qed.

Lemma single_line_app a b :
  single_line a = true -> single_line b = true ->
  single_line (a +:+ b) = true.
Proof.
  induction a as [|c a IH]; intros Ha Hb; [exact Hb|].
  apply single_line_cons in Ha as [Hc Ha].
  rewrite append_cons. apply single_line_cons. auto.
Qed.

End TextFacts.

(** ** The keyword tests *)

Module FilterFacts.
Import Text Config Spec TextFacts.

Lemma contains_occurs k text :
  contains (lower k) (lower text) = true <-> occurs_ci k text.
Proof. apply contains_spec. Qed.

Lemma any_in_excluded ks text :
  any_in ks (lower text) = true <-> excluded ks text.
Proof.
  unfold any_in, excluded. rewrite existsb_exists.
  split; intros [k [Hin Hk]]; exists k; split; auto;
    now apply contains_occurs.
Qed.

Lemma score_from acc ks text :
  fold_left (fun a k => a + (if contains (lower k) text then 1 else 0)) ks acc
  = acc + score ks text.
Proof.
  unfold score. revert acc.
  induction ks as [|k ks IH]; intros acc; cbn [fold_left].
  - lia.
  - rewrite (IH (acc + _)), (IH (0 + _)). lia.
Qed.

Lemma score_cons k ks text :
  score (k :: ks) text
  = (if contains (lower k) text then 1 else 0) + score ks text.
Proof. unfold score at 1. cbn [fold_left]. now rewrite score_from. Qed.

(** The score is the number of required keywords present. *)
Lemma score_count ks text : score ks (lower text) = count_present ks text.
Proof.
  unfold count_present. induction ks as [|k ks IH]; [reflexivity|].
  rewrite score_cons, IH. simpl.
  destruct (contains (lower k) (lower text)); simpl length; lia.
Qed.

Lemma score_nonneg ks text : 0 <= score ks text.
Proof.
  induction ks as [|k ks IH]; [unfold score; simpl; lia|].
  rewrite score_cons. destruct (contains (lower k) text); lia.
Qed.

Lemma score_pos ks text : (0 <? score ks text) = any_in ks text.
Proof.
  induction ks as [|k ks IH]; [reflexivity|].
  rewrite score_cons. unfold any_in in *. simpl.
  pose proof (score_nonneg ks text).
  destruct (contains (lower k) text); simpl.
  - apply Z.ltb_lt. lia.
  - exact IH.
Qed.

Lemma score_zero ks text : (score ks text =? 0) = negb (any_in ks text).
Proof.
  rewrite <- score_pos. pose proof (score_nonneg ks text).
  destruct (Z.ltb_spec 0 (score ks text)); simpl; [apply Z.eqb_neq | apply Z.eqb_eq]; lia.
Qed.

Lemma any_in_required ks text :
  (match ks with [] => true | _ :: _ => false end) || any_in ks (lower text) = true
  <-> meets_required ks text.
Proof.
  unfold meets_required. rewrite orb_true_iff, any_in_excluded.
  unfold excluded. destruct ks; split; intros [H|H]; auto; discriminate.
Qed.

End FilterFacts.

(** ** Running the loop bodies *)

Module RunFacts.
Import Text Calendar Config Runtime Spec TextFacts FilterFacts.

Lemma print_unless_run q s w : print_unless q s w = (Ok tt, logged q s w).
Proof. unfold logged. now destruct q. Qed.

Lemma bind_run {A B} (m : M A) (f : A -> M B) w a w' :
  m w = (Ok a, w') -> (m ≫= f) w = f a w'.
Proof. intros H. unfold mbind, M_bind. now rewrite H. Qed.

Lemma bind_exit {A B} (m : M A) (f : A -> M B) w c w' :
  m w = (SysExit c, w') -> (m ≫= f) w = (SysExit c, w').
Proof. intros H. unfold mbind, M_bind. now rewrite H. Qed.

Lemma bind_raised {A B} (m : M A) (f : A -> M B) w e w' :
  m w = (Raised e, w') -> (m ≫= f) w = (Raised e, w').
Proof. intros H. unfold mbind, M_bind. now rewrite H. Qed.

Lemma logged_requests q s w : requests (logged q s w) = requests w.
Proof. now destruct q. Qed.

Lemma logged_loud s w : stdout (logged false s w) = (stdout w ++ [s])%list.
Proof. reflexivity. Qed.

(** An entry whose link was processed before is skipped. *)
Lemma arXiv_entry_seen E q days ex req e st w :
  arXiv.link e ∈ arXiv.processed_links st ->
  arXiv.process_entry E q days ex req e st w
  = (Ok st, logged q ("Retrieved: " +:+ arXiv.title e) w).
Proof.
  intros Hin. unfold arXiv.process_entry.
  erewrite bind_run by apply print_unless_run.
  now rewrite bool_decide_eq_true_2.
Qed.

(** An entry met for the first time, published inside the window. *)
Lemma arXiv_entry_fresh E q days ex req e st w d :
  arXiv.link e ∉ arXiv.processed_links st ->
  Strptime.iso (arXiv.published e) = Some d ->
  geb (instant_of d) (minus_days (arXiv.now E) days) = true ->
  let text := lower (combined (arXiv.title e) (arXiv.summary e)) in
  let w1 := logged q ("Retrieved: " +:+ arXiv.title e) w in
  arXiv.process_entry E q days ex req e st w
  = if any_in ex text then
      (Ok (mark (arXiv.link e) st),
       logged q ("Excluded (excluded keyword): " +:+ arXiv.title e) w1)
    else if match req with [] => true | _ :: _ => false end || any_in req text
    then
      (Ok {| arXiv.entries :=
               arXiv.dict_set (arXiv.link e) (arXiv.entry_data e d)
                              (arXiv.entries st);
             arXiv.processed_links :=
               {[arXiv.link e]} ∪ arXiv.processed_links st |}, w1)
    else
      (Ok (mark (arXiv.link e) st),
       logged q ("Excluded (low score): " +:+ arXiv.title e) w1).
Proof.
  intros Hnew Hd Hwin text w1. unfold arXiv.process_entry.
  erewrite bind_run by apply print_unless_run.
  rewrite bool_decide_eq_false_2 by exact Hnew.
  rewrite Hd, Hwin. fold (combined (arXiv.title e) (arXiv.summary e)).
  fold text. fold w1. rewrite score_pos.
  destruct (any_in ex text); cbn [negb].
  - now erewrite bind_run by apply print_unless_run.
  - destruct (_ || any_in req text); [reflexivity|].
    now erewrite bind_run by apply print_unless_run.
Qed.

(** An entry met for the first time, published before the window. *)
Lemma arXiv_entry_old E q days ex req e st w d :
  arXiv.link e ∉ arXiv.processed_links st ->
  Strptime.iso (arXiv.published e) = Some d ->
  geb (instant_of d) (minus_days (arXiv.now E) days) = false ->
  arXiv.process_entry E q days ex req e st w
  = (Ok (mark (arXiv.link e) st),
     logged q ("Retrieved: " +:+ arXiv.title e) w).
Proof.
  intros Hnew Hd Hwin. unfold arXiv.process_entry.
  erewrite bind_run by apply print_unless_run.
  rewrite bool_decide_eq_false_2 by exact Hnew.
  now rewrite Hd, Hwin.
Qed.

(** The item of a bioRxiv page, for the keyword being searched. *)
Lemma bioRxiv_item_run q ex req keyword i entries w :
  let text := lower (combined (bioRxiv.title i) (bioRxiv.abstract i)) in
  bioRxiv.process_item q ex req keyword i entries w
  = if contains (lower keyword) (lower (bioRxiv.abstract i)) then
      if any_in ex text then
        (Ok entries,
         logged q ("Excluded (excluded keyword): " +:+ bioRxiv.title i) w)
      else if match req with [] => true | _ :: _ => false end
              || any_in req text
      then
        (Ok (entries ++ [bioRxiv.entry i])%list,
         logged q ("Retrieved: " +:+ bioRxiv.title i) w)
      else
        (Ok entries,
         logged q ("Excluded (missing required keyword): "
                   +:+ bioRxiv.title i) w)
    else (Ok entries, w).
Proof.
  intros text. unfold bioRxiv.process_item.
  fold (combined (bioRxiv.title i) (bioRxiv.abstract i)). fold text.
  destruct (contains (lower keyword) _); [|reflexivity].
  rewrite score_zero.
  destruct ex as [|x ex]; destruct req as [|r req]; cbn [bioRxiv.nonempty andb orb];
    try (destruct (any_in (x :: ex) text)); cbn [andb orb negb];
    try (destruct (any_in (r :: req) text)); cbn [andb orb negb];
    now erewrite bind_run by apply print_unless_run.
Qed.

End RunFacts.

(** ** The PubMed query *)

Module QueryFacts.
Import Text Spec TextFacts.

Lemma join_cons2 sep x y l :
  join sep (x :: y :: l) = x +:+ sep +:+ join sep (y :: l).
Proof. reflexivity. Qed.

(** Every element of a joined list follows a separator, once a separator
    is put in front. *)
Lemma join_member sep k l :
  In k l ->
  exists pre post, sep +:+ join sep l = pre +:+ sep +:+ k +:+ post.
Proof.
  induction l as [|x l IH]; intros Hin; [destruct Hin|].
  destruct l as [|y l].
  - destruct Hin as [->|[]]. exists EmptyString, EmptyString.
    cbn [join]. now rewrite append_nil, append_nil_r.
  - rewrite join_cons2. destruct Hin as [->|Hin].
    + exists EmptyString, (sep +:+ join sep (y :: l)). reflexivity.
    + destruct (IH Hin) as [pre [post H]].
      exists (sep +:+ x +:+ pre), post.
      rewrite H. now rewrite !app_assoc_s.
Qed.

(** Each exclusion keyword is sent to the server as a [NOT] clause. *)
Lemma query_excludes keyword journals exclude k :
  In k exclude ->
  contains (" NOT " +:+ k) (PubMed.build_query keyword journals exclude) = true.
Proof.
  intros Hin. apply contains_spec. unfold PubMed.build_query.
  destruct exclude as [|x ex]; [destruct Hin|].
  destruct (join_member " NOT " k (x :: ex) Hin) as [pre [post H]].
  set (q := match journals with [] => _ | _ :: _ => _ end).
  exists (q +:+ pre), post. rewrite H. now rewrite !app_assoc_s.
Qed.

End QueryFacts.

(** ** C1: keyword filters on the client side *)

Module ClientFilter.
Import Text Calendar Config Runtime Spec Samples.
Import TextFacts FilterFacts RunFacts QueryFacts.

(** The claim fails for PubMed: an article whose title names the exclusion
    keyword [cancer], once returned by the server, is written to the
    output file. *)
Lemma pubmed_keeps_excluded_article :
  excluded ["cancer"] (combined "Pancreatic Cancer Cells" "Advances in oncology.")
  /\ files (snd (PubMed.main (pubmed_env (Some oncology_config) 1)
                             pubmed_args 10 initial))
       !! PubMed.output_path
     = Some (PubMed.entry "Pancreatic Cancer Cells" "Ching C" "nature reviews"
                          "2023-03-01" "https://doi.org/10.1000/j.1"
                          "Advances in oncology.").
Proof.
  split.
  - exists "cancer". split; [now left|].
    now exists "pancreatic ", " cells advances in oncology.".
  - vm_compute. reflexivity.
Qed.

(** C1 (amended): the arXiv and bioRxiv scripts apply the same two keyword
    tests on the client side.  An entry that reaches them is kept exactly
    when no exclusion keyword occurs, ignoring case, in its title and
    abstract and the required list is empty or one of its keywords occurs
    there.  The PubMed script sends each exclusion keyword to the server
    as a [NOT] clause of the query. *)
Theorem keyword_filters_on_the_client :
  (forall E q days ex req e st w d,
      arXiv.link e ∉ arXiv.processed_links st ->
      Strptime.iso (arXiv.published e) = Some d ->
      geb (instant_of d) (minus_days (arXiv.now E) days) = true ->
      let text := combined (arXiv.title e) (arXiv.summary e) in
      exists st' w',
        arXiv.process_entry E q days ex req e st w = (Ok st', w') /\
        (excluded ex text \/ ~ meets_required req text ->
         arXiv.entries st' = arXiv.entries st) /\
        (~ excluded ex text -> meets_required req text ->
         arXiv.entries st'
         = arXiv.dict_set (arXiv.link e) (arXiv.entry_data e d)
                          (arXiv.entries st)))
  /\
  (forall q ex req keyword i entries w,
      occurs_ci keyword (bioRxiv.abstract i) ->
      let text := combined (bioRxiv.title i) (bioRxiv.abstract i) in
      exists entries' w',
        bioRxiv.process_item q ex req keyword i entries w = (Ok entries', w') /\
        (excluded ex text \/ ~ meets_required req text -> entries' = entries) /\
        (~ excluded ex text -> meets_required req text ->
         entries' = (entries ++ [bioRxiv.entry i])%list))
  /\
  (forall keyword journals ex k,
      In k ex ->
      contains (" NOT " +:+ k) (PubMed.build_query keyword journals ex) = true).
Proof.
  split; [|split].
  - intros E q days ex req e st w d Hnew Hd Hwin text.
    rewrite (arXiv_entry_fresh E q days ex req e st w d Hnew Hd Hwin).
    fold text.
    pose proof (any_in_excluded ex text) as Hex.
    pose proof (any_in_required req text) as Hreq.
    destruct (any_in ex (lower text)).
    + eexists _, _. split; [reflexivity|]. split; [reflexivity|].
      intros Hn. elim Hn. now apply Hex.
    + destruct (_ || any_in req (lower text)).
      * eexists _, _. split; [reflexivity|]. split; [|reflexivity].
        intros [H|H]; [apply Hex in H; discriminate | elim H; now apply Hreq].
      * eexists _, _. split; [reflexivity|]. split; [reflexivity|].
        intros _ H. apply Hreq in H. discriminate.
  - intros q ex req keyword i entries w Hk text.
    rewrite bioRxiv_item_run. fold text.
    apply contains_occurs in Hk. rewrite Hk.
    pose proof (any_in_excluded ex text) as Hex.
    pose proof (any_in_required req text) as Hreq.
    destruct (any_in ex (lower text)).
    + eexists _, _. split; [reflexivity|]. split; [reflexivity|].
      intros Hn. elim Hn. now apply Hex.
    + destruct (_ || any_in req (lower text)).
      * eexists _, _. split; [reflexivity|]. split; [|reflexivity].
        intros [H|H]; [apply Hex in H; discriminate | elim H; now apply Hreq].
      * eexists _, _. split; [reflexivity|]. split; [reflexivity|].
        intros _ H. apply Hreq in H. discriminate.
  - apply query_excludes.
Qed.

(** The theorem at one arXiv entry, one bioRxiv item and one query. *)
Lemma keyword_filters_on_the_client_witness :
  ((arXiv.link second_version ∉ arXiv.processed_links no_state) /\
   Strptime.iso (arXiv.published second_version) = Some published_day /\
   geb (instant_of published_day) (minus_days noon 10) = true /\
   exists st' w',
     arXiv.process_entry (arxiv_env None 0) true 10 ["cancer"] []
                         second_version no_state initial = (Ok st', w') /\
     arXiv.entries st'
     = [(arXiv.link second_version,
         arXiv.entry_data second_version published_day)])
  /\
  (occurs_ci "Oncology" (bioRxiv.abstract rna_only) /\
   exists entries' w',
     bioRxiv.process_item true ["cancer"] ["CRISPR"; "RNA"] "Oncology"
                          rna_only [] initial = (Ok entries', w') /\
     entries' = [bioRxiv.entry rna_only])
  /\
  (In "cancer" ["virus"; "cancer"] /\
   contains " NOT cancer"
            (PubMed.build_query "oncology" [] ["virus"; "cancer"]) = true).
Proof.
  assert (H1 : arXiv.link second_version ∉ arXiv.processed_links no_state)
    by apply not_elem_of_empty.
  assert (H2 : Strptime.iso (arXiv.published second_version)
               = Some published_day) by (vm_compute; reflexivity).
  assert (H3 : geb (instant_of published_day) (minus_days noon 10) = true)
    by (vm_compute; reflexivity).
  assert (H4 : occurs_ci "Oncology" (bioRxiv.abstract rna_only))
    by (now exists "an atlas of rna in ", ".").
  assert (H5 : In "cancer" ["virus"; "cancer"]) by (right; now left).
  split; [|split].
  - split; [exact H1|]. split; [exact H2|]. split; [exact H3|].
    destruct (proj1 keyword_filters_on_the_client
                (arxiv_env None 0) true 10 ["cancer"] [] second_version
                no_state initial published_day H1 H2 H3)
      as [st' [w' [Hrun [_ Hkeep]]]].
    exists st', w'. split; [exact Hrun|].
    apply Hkeep.
    + intros Hex. apply any_in_excluded in Hex.
      vm_compute in Hex. discriminate.
    + now left.
  - split; [exact H4|].
    destruct (proj1 (proj2 keyword_filters_on_the_client)
                true ["cancer"] ["CRISPR"; "RNA"] "Oncology" rna_only []
                initial H4)
      as [entries' [w' [Hrun [_ Hkeep]]]].
    exists entries', w'. split; [exact Hrun|].
    apply Hkeep.
    + intros Hex. apply any_in_excluded in Hex.
      vm_compute in Hex. discriminate.
    + right. exists "RNA". split; [right; now left|].
      now exists "small ", " maps an atlas of rna in oncology.".
  - split; [exact H5|].
    exact (proj2 (proj2 keyword_filters_on_the_client)
             "oncology" [] ["virus"; "cancer"] "cancer" H5).
Defined.

End ClientFilter.

(** ** C2: the fields of a record *)

Module RecordFormat.
Import Text Calendar Config Runtime Spec Samples.
Import TextFacts RunFacts.

(** A labelled field followed by a line feed is one line of the record. *)
Lemma split_lines_field label v rest :
  single_line label = true ->
  single_line v = true ->
  split_lines (label +:+ v +:+ nl +:+ rest) = (label +:+ v) :: split_lines rest.
Proof.
  intros Hl Hv. rewrite <- (app_assoc_s label v).
  apply split_lines_line. now apply single_line_app.
Qed.

Lemma pubmed_entry_lines title authors journal date_str url abstract :
  one_line_each [("Title", title); ("Authors", authors);
                 ("Journal", capitalize journal); ("Date", date_str);
                 ("URL", url); ("Abstract", abstract)] ->
  split_lines (PubMed.entry title authors journal date_str url abstract)
  = field_lines [("Title", title); ("Authors", authors);
                 ("Journal", capitalize journal); ("Date", date_str);
                 ("URL", url); ("Abstract", abstract)].
Proof.
  intros H. unfold one_line_each in H.
  repeat (apply Forall_cons_1 in H as [? H]). cbn [snd] in *.
  unfold PubMed.entry.
  now rewrite !split_lines_field by (assumption || reflexivity).
Qed.

Lemma arxiv_entry_lines e d :
  one_line_each (arxiv_fields e d) ->
  split_lines (arXiv.entry_data e d) = field_lines (arxiv_fields e d).
Proof.
  intros H. unfold one_line_each, arxiv_fields in H.
  repeat (apply Forall_cons_1 in H as [? H]). cbn [snd] in *.
  unfold arXiv.entry_data.
  now rewrite !split_lines_field by (assumption || reflexivity).
Qed.

Lemma biorxiv_entry_lines i :
  one_line_each (biorxiv_fields i) ->
  split_lines (bioRxiv.entry i) = field_lines (biorxiv_fields i).
Proof.
  intros H. unfold one_line_each, biorxiv_fields in H.
  repeat (apply Forall_cons_1 in H as [? H]). cbn [snd] in *.
  unfold bioRxiv.entry.
  now rewrite !split_lines_field by (assumption || reflexivity).
Qed.

(** What the PubMed loop does with an article that passes the journal
    filter and has an abstract to show. *)
Lemma pubmed_article_kept journals q a entries w abstract :
  PubMed.journal_ok journals (lower (PubMed.JournalTitle a)) = true ->
  PubMed.abstract_of a w = (Ok abstract, w) ->
  PubMed.process_article journals q a entries w
  = (Ok (entries ++
         [PubMed.entry (PubMed.title_of a) (PubMed.authors_of a)
                       (lower (PubMed.JournalTitle a))
                       (PubMed.date_str_of (PubMed.PubDate a))
                       (PubMed.full_text_url_of a) abstract])%list,
     logged q ("Retrieved: " +:+ PubMed.title_of a) w).
Proof.
  intros Hj Ha. unfold PubMed.process_article. rewrite Hj.
  erewrite bind_run by exact Ha.
  now erewrite bind_run by apply print_unless_run.
Qed.

(** The claim fails for arXiv: the record of an accepted entry has five
    fields and no [Journal] line. *)
Lemma arxiv_record_has_no_journal :
  arXiv.entries
    (match fst (arXiv.process_entry (arxiv_env None 0) true 10 ["cancer"] []
                                    second_version no_state initial) with
     | Ok st => st
     | _ => no_state
     end)
  = [(arXiv.link second_version,
      arXiv.entry_data second_version published_day)]
  /\ labels (arXiv.entry_data second_version published_day)
     = ["Title"; "Authors"; "Date"; "URL"; "Abstract"]
  /\ labels (arXiv.entry_data second_version published_day) <> six_labels.
Proof.
  split; [vm_compute; reflexivity|].
  split; [vm_compute; reflexivity|].
  vm_compute. discriminate.
Qed.

(** C2 (amended): the record of an accepted PubMed article has exactly the
    six labelled fields Title, Authors, Journal, Date, URL, Abstract, in that
    order and each on a non-empty line, with the tokens [No Title],
    [Unknown Date], [Full text link not available] and [No Abstract] in
    place of absent data.  An arXiv record has the five fields Title,
    Authors, Date, URL, Abstract; a bioRxiv record has the six fields Title,
    Authors, Date, DOI, URL, Abstract.  The lines are those of the fields
    when no value contains a line break. *)
Theorem record_fields :
  (forall journals q a entries w abstract,
      PubMed.journal_ok journals (lower (PubMed.JournalTitle a)) = true ->
      PubMed.abstract_of a w = (Ok abstract, w) ->
      exists r,
        PubMed.process_article journals q a entries w
        = (Ok (entries ++ [r])%list,
           logged q ("Retrieved: " +:+ PubMed.title_of a) w) /\
        (one_line_each (pubmed_fields a abstract) ->
         split_lines r = field_lines (pubmed_fields a abstract) /\
         labels r = six_labels /\
         Forall (fun l => l <> EmptyString) (firstn 6 (split_lines r))) /\
        (PubMed.ArticleTitle a = None -> PubMed.title_of a = "No Title") /\
        (PubMed.Year (PubMed.PubDate a) = None ->
         PubMed.date_str_of (PubMed.PubDate a) = "Unknown Date") /\
        (PubMed.doi_of a = None ->
         PubMed.full_text_url_of a = "Full text link not available") /\
        (PubMed.AbstractText a = None -> abstract = "No Abstract"))
  /\
  (forall e d,
      one_line_each (arxiv_fields e d) ->
      split_lines (arXiv.entry_data e d) = field_lines (arxiv_fields e d) /\
      labels (arXiv.entry_data e d)
      = ["Title"; "Authors"; "Date"; "URL"; "Abstract"])
  /\
  (forall i,
      one_line_each (biorxiv_fields i) ->
      split_lines (bioRxiv.entry i) = field_lines (biorxiv_fields i) /\
      labels (bioRxiv.entry i)
      = ["Title"; "Authors"; "Date"; "DOI"; "URL"; "Abstract"]).
Proof.
  split; [|split].
  - intros journals q a entries w abstract Hj Ha.
    exists (PubMed.entry (PubMed.title_of a) (PubMed.authors_of a)
                         (lower (PubMed.JournalTitle a))
                         (PubMed.date_str_of (PubMed.PubDate a))
                         (PubMed.full_text_url_of a) abstract).
    split; [now apply pubmed_article_kept|].
    split; [|split; [|split; [|split]]].
    + intros H. apply pubmed_entry_lines in H.
      split; [exact H|]. unfold labels. rewrite H.
      split; [reflexivity|].
      repeat constructor; discriminate.
    + unfold PubMed.title_of. now intros ->.
    + unfold PubMed.date_str_of. now intros ->.
    + unfold PubMed.full_text_url_of. now intros ->.
    + intros Hn. unfold PubMed.abstract_of in Ha. rewrite Hn in Ha.
      now inversion Ha.
  - intros e d H. apply arxiv_entry_lines in H.
    split; [exact H|]. unfold labels. now rewrite H.
  - intros i H. apply biorxiv_entry_lines in H.
    split; [exact H|]. unfold labels. now rewrite H.
Qed.

(** The theorem at one record of each script. *)
Lemma record_fields_witness :
  (PubMed.journal_ok [] (lower (PubMed.JournalTitle bare_article)) = true /\
   PubMed.abstract_of bare_article initial = (Ok "No Abstract", initial) /\
   one_line_each (pubmed_fields bare_article "No Abstract") /\
   exists r,
     PubMed.process_article [] true bare_article [] initial
     = (Ok [r], initial) /\
     split_lines r
     = ["Title: No Title"; "Authors: "; "Journal: Cell";
        "Date: Unknown Date"; "URL: Full text link not available";
        "Abstract: No Abstract"; ""; ""])
  /\
  (one_line_each (arxiv_fields second_version published_day) /\
   labels (arXiv.entry_data second_version published_day)
   = ["Title"; "Authors"; "Date"; "URL"; "Abstract"])
  /\
  (one_line_each (biorxiv_fields rna_only) /\
   labels (bioRxiv.entry rna_only)
   = ["Title"; "Authors"; "Date"; "DOI"; "URL"; "Abstract"]).
Proof.
  assert (H1 : PubMed.journal_ok [] (lower (PubMed.JournalTitle bare_article))
               = true) by reflexivity.
  assert (H2 : PubMed.abstract_of bare_article initial
               = (Ok "No Abstract", initial)) by reflexivity.
  assert (H3 : one_line_each (pubmed_fields bare_article "No Abstract"))
    by (repeat constructor).
  assert (H4 : one_line_each (arxiv_fields second_version published_day))
    by (repeat constructor).
  assert (H5 : one_line_each (biorxiv_fields rna_only))
    by (repeat constructor).
  split; [|split].
  - split; [exact H1|]. split; [exact H2|]. split; [exact H3|].
    destruct (proj1 record_fields [] true bare_article [] initial
                "No Abstract" H1 H2) as [r [Hrun [Hlines _]]].
    exists r. split; [exact Hrun|].
    exact (proj1 (Hlines H3)).
  - split; [exact H4|].
    exact (proj2 (proj1 (proj2 record_fields) second_version published_day H4)).
  - split; [exact H5|].
    exact (proj2 (proj2 (proj2 record_fields) rna_only H5)).
Defined.

End RecordFormat.

(** ** C6: which text the bioRxiv keyword is searched in *)

Module KeywordMatch.
Import Text Config Runtime Spec Samples.
Import TextFacts FilterFacts RunFacts.

(** The claim fails for the title: [crispr] occurs in the title of the item
    and not in its abstract, and the item is passed over without a trace. *)
Lemma biorxiv_ignores_title :
  occurs_ci "crispr"
            (combined (bioRxiv.title title_only) (bioRxiv.abstract title_only))
  /\ bioRxiv.process_item false [] [] "crispr" title_only [] initial
     = (Ok [], initial).
Proof.
  split.
  - now exists "", " screens we study gene editing.".
  - vm_compute. reflexivity.
Qed.

(** C6 (amended): in the bioRxiv script an item is selected for a keyword
    exactly when the keyword occurs, ignoring case, in the abstract of the
    item; the title is not searched.  An item that is not selected leaves
    the entries and the output untouched; a selected item is either added
    to the entries or reported as excluded. *)
Theorem biorxiv_selects_on_abstract q ex req keyword i entries w :
  (~ occurs_ci keyword (bioRxiv.abstract i) ->
   bioRxiv.process_item q ex req keyword i entries w = (Ok entries, w))
  /\
  (occurs_ci keyword (bioRxiv.abstract i) ->
   exists entries' line,
     bioRxiv.process_item q ex req keyword i entries w
     = (Ok entries', logged q (line +:+ bioRxiv.title i) w) /\
     ((entries' = (entries ++ [bioRxiv.entry i])%list /\ line = "Retrieved: ")
      \/ (entries' = entries /\
          (line = "Excluded (excluded keyword): " \/
           line = "Excluded (missing required keyword): ")))).
Proof.
  rewrite bioRxiv_item_run. split; intros Hk.
  - destruct (contains (lower keyword) (lower (bioRxiv.abstract i))) eqn:Hc;
      [|reflexivity].
    elim Hk. now apply contains_occurs.
  - apply contains_occurs in Hk. rewrite Hk.
    destruct (any_in ex _).
    + eexists _, _. split; [reflexivity|]. right. auto.
    + destruct (_ || any_in req _).
      * eexists _, _. split; [reflexivity|]. left. auto.
      * eexists _, _. split; [reflexivity|]. right. auto.
Qed.

(** The theorem at an item whose abstract names the keyword and at one whose
    abstract does not. *)
Lemma biorxiv_selects_on_abstract_witness :
  (~ occurs_ci "crispr" (bioRxiv.abstract title_only) /\
   bioRxiv.process_item false [] [] "crispr" title_only [] initial
   = (Ok [], initial))
  /\
  (occurs_ci "Oncology" (bioRxiv.abstract rna_only) /\
   exists entries' line,
     bioRxiv.process_item false [] [] "Oncology" rna_only [] initial
     = (Ok entries', logged false (line +:+ bioRxiv.title rna_only) initial) /\
     ((entries' = [bioRxiv.entry rna_only] /\ line = "Retrieved: ")
      \/ (entries' = [] /\
          (line = "Excluded (excluded keyword): " \/
           line = "Excluded (missing required keyword): ")))).
Proof.
  assert (H1 : ~ occurs_ci "crispr" (bioRxiv.abstract title_only)).
  { intros H. apply contains_occurs in H. vm_compute in H. discriminate. }
  assert (H2 : occurs_ci "Oncology" (bioRxiv.abstract rna_only))
    by (now exists "an atlas of rna in ", ".").
  split.
  - split; [exact H1|].
    exact (proj1 (biorxiv_selects_on_abstract false [] [] "crispr"
                    title_only [] initial) H1).
  - split; [exact H2|].
    exact (proj2 (biorxiv_selects_on_abstract false [] [] "Oncology"
                    rna_only [] initial) H2).
Defined.

End KeywordMatch.

(** ** C9: required keywords are matched any-of *)

Module RequiredKeywords.
Import Text Calendar Config Runtime Spec Samples.
Import TextFacts FilterFacts RunFacts.

(** The test both scripts make, in terms of the number of required keywords
    present. *)
Lemma any_match_count req text :
  (match req with [] => true | _ :: _ => false end) || any_in req (lower text)
  = true
  <-> req = [] \/ 1 <= count_present req text.
Proof.
  rewrite <- score_count, <- score_pos, orb_true_iff, Z.ltb_lt.
  destruct req; split; intros [H|H]; auto; try discriminate; right; lia.
Qed.

(** The arXiv and bioRxiv scripts compute the number of required keywords
    that occur, ignoring case, in the title and abstract, and an entry that
    reaches this test is accepted exactly when the required list is empty
    or that number is at least 1; with the required list [CRISPR, RNA] an
    item that mentions only RNA is accepted. *)
Lemma any_match_in_arxiv_and_biorxiv :
  (forall E q days ex req e st w d,
      arXiv.link e ∉ arXiv.processed_links st ->
      Strptime.iso (arXiv.published e) = Some d ->
      geb (instant_of d) (minus_days (arXiv.now E) days) = true ->
      let text := combined (arXiv.title e) (arXiv.summary e) in
      ~ excluded ex text ->
      score req (lower text) = count_present req text /\
      exists st' w',
        arXiv.process_entry E q days ex req e st w = (Ok st', w') /\
        (req = [] \/ 1 <= count_present req text ->
         arXiv.entries st'
         = arXiv.dict_set (arXiv.link e) (arXiv.entry_data e d)
                          (arXiv.entries st)) /\
        (~ (req = [] \/ 1 <= count_present req text) ->
         arXiv.entries st' = arXiv.entries st))
  /\
  (forall q ex req keyword i entries w,
      occurs_ci keyword (bioRxiv.abstract i) ->
      let text := combined (bioRxiv.title i) (bioRxiv.abstract i) in
      ~ excluded ex text ->
      score req (lower text) = count_present req text /\
      exists entries' w',
        bioRxiv.process_item q ex req keyword i entries w = (Ok entries', w') /\
        (req = [] \/ 1 <= count_present req text ->
         entries' = (entries ++ [bioRxiv.entry i])%list) /\
        (~ (req = [] \/ 1 <= count_present req text) -> entries' = entries))
  /\
  (count_present ["CRISPR"; "RNA"]
     (combined (bioRxiv.title rna_only) (bioRxiv.abstract rna_only)) = 1 /\
   bioRxiv.process_item true [] ["CRISPR"; "RNA"] "oncology" rna_only []
                        initial
   = (Ok [bioRxiv.entry rna_only], initial)).
Proof.
  split; [|split].
  - intros E q days ex req e st w d Hnew Hd Hwin text Hex.
    split; [apply score_count|].
    rewrite (arXiv_entry_fresh E q days ex req e st w d Hnew Hd Hwin).
    fold text. pose proof (any_match_count req text) as Hreq.
    destruct (any_in ex (lower text)) eqn:Hx;
      [elim Hex; now apply any_in_excluded|].
    destruct (_ || any_in req (lower text)).
    + eexists _, _. split; [reflexivity|]. split; [reflexivity|].
      intros Hn. elim Hn. now apply Hreq.
    + eexists _, _. split; [reflexivity|]. split; [|reflexivity].
      intros H. apply Hreq in H. discriminate.
  - intros q ex req keyword i entries w Hk text Hex.
    split; [apply score_count|].
    rewrite bioRxiv_item_run. fold text.
    apply contains_occurs in Hk. rewrite Hk.
    pose proof (any_match_count req text) as Hreq.
    destruct (any_in ex (lower text)) eqn:Hx;
      [elim Hex; now apply any_in_excluded|].
    destruct (_ || any_in req (lower text)).
    + eexists _, _. split; [reflexivity|]. split; [reflexivity|].
      intros Hn. elim Hn. now apply Hreq.
    + eexists _, _. split; [reflexivity|]. split; [|reflexivity].
      intros H. apply Hreq in H. discriminate.
  - split; vm_compute; reflexivity.
Qed.

(** The lemma at an arXiv entry with no required keyword configured and at
    the bioRxiv item that mentions RNA only. *)
Lemma any_match_in_arxiv_and_biorxiv_example :
  ((arXiv.link second_version ∉ arXiv.processed_links no_state) /\
   Strptime.iso (arXiv.published second_version) = Some published_day /\
   geb (instant_of published_day) (minus_days noon 10) = true /\
   ~ excluded ["cancer"]
       (combined (arXiv.title second_version) (arXiv.summary second_version)) /\
   exists st' w',
     arXiv.process_entry (arxiv_env None 0) true 10 ["cancer"] []
                         second_version no_state initial = (Ok st', w') /\
     arXiv.entries st'
     = [(arXiv.link second_version,
         arXiv.entry_data second_version published_day)])
  /\
  (occurs_ci "oncology" (bioRxiv.abstract rna_only) /\
   ~ excluded ["cancer"]
       (combined (bioRxiv.title rna_only) (bioRxiv.abstract rna_only)) /\
   exists entries' w',
     bioRxiv.process_item true ["cancer"] ["CRISPR"; "RNA"] "oncology"
                          rna_only [] initial = (Ok entries', w') /\
     entries' = [bioRxiv.entry rna_only]).
Proof.
  assert (H1 : arXiv.link second_version ∉ arXiv.processed_links no_state)
    by apply not_elem_of_empty.
  assert (H2 : Strptime.iso (arXiv.published second_version)
               = Some published_day) by (vm_compute; reflexivity).
  assert (H3 : geb (instant_of published_day) (minus_days noon 10) = true)
    by (vm_compute; reflexivity).
  assert (H4 : ~ excluded ["cancer"]
                 (combined (arXiv.title second_version)
                           (arXiv.summary second_version))).
  { intros H. apply any_in_excluded in H. vm_compute in H. discriminate. }
  assert (H5 : occurs_ci "oncology" (bioRxiv.abstract rna_only))
    by (now exists "an atlas of rna in ", ".").
  assert (H6 : ~ excluded ["cancer"]
                 (combined (bioRxiv.title rna_only)
                           (bioRxiv.abstract rna_only))).
  { intros H. apply any_in_excluded in H. vm_compute in H. discriminate. }
  split.
  - split; [exact H1|]. split; [exact H2|]. split; [exact H3|].
    split; [exact H4|].
    destruct (proj1 any_match_in_arxiv_and_biorxiv
                (arxiv_env None 0) true 10 ["cancer"] [] second_version
                no_state initial published_day H1 H2 H3 H4)
      as [_ [st' [w' [Hrun [Hkeep _]]]]].
    exists st', w'. split; [exact Hrun|]. apply Hkeep. now left.
  - split; [exact H5|]. split; [exact H6|].
    destruct (proj1 (proj2 any_match_in_arxiv_and_biorxiv)
                true ["cancer"] ["CRISPR"; "RNA"] "oncology" rna_only []
                initial H5 H6)
      as [_ [entries' [w' [Hrun [Hkeep _]]]]].
    exists entries', w'. split; [exact Hrun|]. apply Hkeep.
    right. vm_compute. discriminate.
Qed.

(** C9: the PubMed script reads the required keywords of its keyword file
    and never uses them.  With the required list [crispr] the article
    "Pancreatic Cancer Cells", with abstract "Advances in oncology.", names
    no required keyword, and the run writes its record all the same; the
    bioRxiv script, given an item with that title and abstract, passes it
    over as missing a required keyword. *)
Theorem pubmed_ignores_required_keywords :
  (forall w, load_keywords_from_file_journals (plain (Some crispr_required)) w
             = (Ok (Some {| keywords := ["oncology"]; exclude_keywords := [];
                            required_keywords := ["crispr"];
                            journals_of_interest := [] |}), w))
  /\
  (count_present ["crispr"]
     (combined "Pancreatic Cancer Cells" "Advances in oncology.") = 0)
  /\
  (PubMed.main (pubmed_env (Some crispr_required) 1) pubmed_args 10 initial
   = (Ok tt,
      {| stdout := ["1 entries successfully written to '/Scitify/output/latest_pubmed_entries.txt'."];
         stderr := [];
         requests := [Esearch "(oncology)" (today - 10) today 100 0;
                      Efetch ["0"]];
         files :=
           {[ PubMed.output_path :=
                PubMed.entry "Pancreatic Cancer Cells" "Ching C"
                             "nature reviews" "2023-03-01"
                             "https://doi.org/10.1000/j.1"
                             "Advances in oncology." ]} |}))
  /\
  (bioRxiv.process_item false [] ["crispr"] "oncology" same_as_article []
                        initial
   = (Ok [],
      {| stdout := ["Excluded (missing required keyword): Pancreatic Cancer Cells"];
         stderr := []; requests := []; files := ∅ |})).
Proof. repeat split; vm_compute; reflexivity. Qed.

End RequiredKeywords.

(** ** C4: the order of the filter steps *)

Module FilterOrder.
Import Text Calendar Config Runtime Spec Samples.
Import TextFacts FilterFacts RunFacts.

(** Whatever becomes of an entry, its link is among the processed ones
    afterwards. *)
Lemma arxiv_entry_links E q days ex req e st w st' w' :
  arXiv.process_entry E q days ex req e st w = (Ok st', w') ->
  arXiv.processed_links st' = {[arXiv.link e]} ∪ arXiv.processed_links st.
Proof.
  intros Hrun.
  destruct (decide (arXiv.link e ∈ arXiv.processed_links st)) as [Hin|Hnew].
  - rewrite arXiv_entry_seen in Hrun by exact Hin.
    inversion Hrun; subst. set_solver.
  - destruct (Strptime.iso (arXiv.published e)) as [d|] eqn:Hd.
    + destruct (geb (instant_of d) (minus_days (arXiv.now E) days)) eqn:Hwin.
      * rewrite (arXiv_entry_fresh E q days ex req e st w d Hnew Hd Hwin)
          in Hrun.
        destruct (any_in ex _); [now inversion Hrun|].
        destruct (_ || any_in req _); now inversion Hrun.
      * rewrite (arXiv_entry_old E q days ex req e st w d Hnew Hd Hwin)
          in Hrun.
        now inversion Hrun.
    + unfold arXiv.process_entry in Hrun.
      erewrite bind_run in Hrun by apply print_unless_run.
      rewrite bool_decide_eq_false_2, Hd in Hrun by exact Hnew.
      discriminate.
Qed.

Lemma for_each_cons {A St} (body : A -> St -> M St) x l acc w acc' w' :
  for_each body (x :: l) acc w = (Ok acc', w') ->
  exists acc1 w1, body x acc w = (Ok acc1, w1) /\
                  for_each body l acc1 w1 = (Ok acc', w').
Proof.
  cbn [for_each]. unfold mbind, M_bind.
  destruct (body x acc w) as [[acc1| | |] w1]; try discriminate.
  intros H. now exists acc1, w1.
Qed.

(** After a page, the processed links are those before it and those of
    every entry of the page. *)
Lemma arxiv_page_links E q days ex req es st w st' w' :
  for_each (arXiv.process_entry E q days ex req) es st w = (Ok st', w') ->
  arXiv.processed_links st'
  = list_to_set (map arXiv.link es) ∪ arXiv.processed_links st.
Proof.
  revert st w. induction es as [|e es IH]; intros st w Hrun.
  - inversion Hrun; subst. cbn [map list_to_set]. set_solver.
  - apply for_each_cons in Hrun as [st1 [w1 [He Hes]]].
    apply IH in Hes. apply arxiv_entry_links in He.
    rewrite Hes, He. cbn [map list_to_set]. set_solver.
Qed.

(** The claim fails for the deduplication step: the link of the first
    version is rejected for its exclusion keyword and never accepted, yet the
    second version, which passes both keyword tests on its own, is dropped
    as a duplicate. *)
Lemma arxiv_dedup_drops_unaccepted_link :
  arXiv.entries <$>
    value_of (for_each (arXiv.process_entry (arxiv_env None 0) true 10
                                            ["cancer"] [])
                       [first_version] no_state initial)
  = Some []
  /\
  arXiv.entries <$>
    value_of (for_each (arXiv.process_entry (arxiv_env None 0) true 10
                                            ["cancer"] [])
                       [first_version; second_version] no_state initial)
  = Some []
  /\
  arXiv.entries <$>
    value_of (for_each (arXiv.process_entry (arxiv_env None 0) true 10
                                            ["cancer"] [])
                       [second_version] no_state initial)
  = Some [(arXiv.link second_version,
           arXiv.entry_data second_version published_day)].
Proof. repeat split; vm_compute; reflexivity. Qed.

(** C4 (amended): the arXiv script applies the steps to every fetched entry
    in the fixed order deduplication, date window, exclusion filter,
    required-keyword scoring, and stops at the first rejection.  The
    deduplication step comes first and rejects an entry exactly when its URL
    was already processed earlier in the same invocation, whether that
    earlier entry was accepted or not: after a page the processed URLs are
    those of all its entries.  The bioRxiv script applies keyword selection,
    exclusion filter and required-keyword scoring in this order and does not
    deduplicate. *)
Theorem filter_steps_in_order :
  (forall E q days ex req e st w,
      arXiv.link e ∈ arXiv.processed_links st ->
      arXiv.process_entry E q days ex req e st w
      = (Ok st, logged q ("Retrieved: " +:+ arXiv.title e) w))
  /\
  (forall E q days ex req e st w d,
      arXiv.link e ∉ arXiv.processed_links st ->
      Strptime.iso (arXiv.published e) = Some d ->
      let text := combined (arXiv.title e) (arXiv.summary e) in
      let w1 := logged q ("Retrieved: " +:+ arXiv.title e) w in
      (geb (instant_of d) (minus_days (arXiv.now E) days) = false ->
       arXiv.process_entry E q days ex req e st w
       = (Ok (mark (arXiv.link e) st), w1)) /\
      (geb (instant_of d) (minus_days (arXiv.now E) days) = true ->
       (excluded ex text ->
        arXiv.process_entry E q days ex req e st w
        = (Ok (mark (arXiv.link e) st),
           logged q ("Excluded (excluded keyword): " +:+ arXiv.title e) w1)) /\
       (~ excluded ex text -> ~ meets_required req text ->
        arXiv.process_entry E q days ex req e st w
        = (Ok (mark (arXiv.link e) st),
           logged q ("Excluded (low score): " +:+ arXiv.title e) w1)) /\
       (~ excluded ex text -> meets_required req text ->
        arXiv.process_entry E q days ex req e st w
        = (Ok {| arXiv.entries :=
                   arXiv.dict_set (arXiv.link e) (arXiv.entry_data e d)
                                  (arXiv.entries st);
                 arXiv.processed_links :=
                   {[arXiv.link e]} ∪ arXiv.processed_links st |}, w1))))
  /\
  (forall E q days ex req es st w st' w',
      for_each (arXiv.process_entry E q days ex req) es st w = (Ok st', w') ->
      arXiv.processed_links st'
      = list_to_set (map arXiv.link es) ∪ arXiv.processed_links st)
  /\
  (forall q ex req keyword i entries w,
      occurs_ci keyword (bioRxiv.abstract i) ->
      let text := combined (bioRxiv.title i) (bioRxiv.abstract i) in
      (excluded ex text ->
       bioRxiv.process_item q ex req keyword i entries w
       = (Ok entries,
          logged q ("Excluded (excluded keyword): " +:+ bioRxiv.title i) w)) /\
      (~ excluded ex text -> ~ meets_required req text ->
       bioRxiv.process_item q ex req keyword i entries w
       = (Ok entries,
          logged q ("Excluded (missing required keyword): "
                    +:+ bioRxiv.title i) w)) /\
      (~ excluded ex text -> meets_required req text ->
       bioRxiv.process_item q ex req keyword i entries w
       = (Ok (entries ++ [bioRxiv.entry i])%list,
          logged q ("Retrieved: " +:+ bioRxiv.title i) w))).
Proof.
  split; [|split; [|split]].
  - intros. now apply arXiv_entry_seen.
  - intros E q days ex req e st w d Hnew Hd text w1. split.
    + intros Hwin. now apply arXiv_entry_old with (d := d).
    + intros Hwin.
      rewrite (arXiv_entry_fresh E q days ex req e st w d Hnew Hd Hwin).
      fold text. fold w1.
      pose proof (any_in_excluded ex text) as Hex.
      pose proof (any_in_required req text) as Hreq.
      destruct (any_in ex (lower text)).
      * split; [reflexivity|].
        split; intros Hn; elim Hn; now apply Hex.
      * destruct (_ || any_in req (lower text)).
        -- split; [intros H; apply Hex in H; discriminate|].
           split; [|reflexivity].
           intros _ Hn. elim Hn. now apply Hreq.
        -- split; [intros H; apply Hex in H; discriminate|].
           split; [reflexivity|].
           intros _ H. apply Hreq in H. discriminate.
  - intros. eapply arxiv_page_links. eassumption.
  - intros q ex req keyword i entries w Hk text.
    rewrite bioRxiv_item_run. fold text.
    apply contains_occurs in Hk. rewrite Hk.
    pose proof (any_in_excluded ex text) as Hex.
    pose proof (any_in_required req text) as Hreq.
    destruct (any_in ex (lower text)).
    + split; [reflexivity|].
      split; intros Hn; elim Hn; now apply Hex.
    + destruct (_ || any_in req (lower text)).
      * split; [intros H; apply Hex in H; discriminate|].
        split; [|reflexivity].
        intros _ Hn. elim Hn. now apply Hreq.
      * split; [intros H; apply Hex in H; discriminate|].
        split; [reflexivity|].
        intros _ H. apply Hreq in H. discriminate.
Qed.

(** The theorem at the two versions of one link: the second is dropped at
    the deduplication step once the first has been processed. *)
Lemma filter_steps_in_order_witness :
  (arXiv.link second_version
     ∈ arXiv.processed_links (mark (arXiv.link first_version) no_state)) /\
  arXiv.process_entry (arxiv_env None 0) true 10 ["cancer"] [] second_version
                      (mark (arXiv.link first_version) no_state) initial
  = (Ok (mark (arXiv.link first_version) no_state), initial).
Proof.
  assert (H : arXiv.link second_version
                ∈ arXiv.processed_links (mark (arXiv.link first_version)
                                              no_state)).
  { apply elem_of_union_l, elem_of_singleton. reflexivity. }
  split; [exact H|].
  exact (proj1 filter_steps_in_order (arxiv_env None 0) true 10 ["cancer"] []
               second_version (mark (arXiv.link first_version) no_state)
               initial H).
Defined.

End FilterOrder.

(** ** C3: a failed page fetch *)

Module FetchFailure.
Import Text Config Runtime Spec Samples.

(** C3 (failing input): with two keywords configured and a service that
    cannot be reached, the PubMed script logs the failure of each keyword
    and ends normally, while the bioRxiv script ends with the uncaught
    exception of its first request: nothing is logged and the second keyword
    is never queried.  An error page that is not JSON has the same effect,
    because the body is decoded before the status is looked at. *)
Theorem biorxiv_fetch_failure_is_uncaught :
  PubMed.main pubmed_down pubmed_args 10 initial
  = (Ok tt,
     {| stdout := ["Error querying PubMed: connection refused";
                   "Error querying PubMed: connection refused";
                   "No matching entries found for the given keywords."];
        stderr := [];
        requests := [Esearch "(oncology) NOT cancer" (today - 10) today 100 0;
                     Esearch "(crispr) NOT cancer" (today - 10) today 100 0];
        files := ∅ |})
  /\
  bioRxiv.main biorxiv_down biorxiv_args 10 initial
  = (Raised ConnectionError,
     {| stdout := []; stderr := [];
        requests := [BiorxivDetails (today - 10) (today - 1) 0];
        files := ∅ |})
  /\
  bioRxiv.main biorxiv_error_page biorxiv_args 10 initial
  = (Raised JSONDecodeError,
     {| stdout := []; stderr := [];
        requests := [BiorxivDetails (today - 10) (today - 1) 0];
        files := ∅ |}).
Proof. repeat split; vm_compute; reflexivity. Qed.

End FetchFailure.

(** ** C7: sorting entries whose date did not parse *)

Module Consolidation.
Import Text Calendar Runtime Spec Samples.
Import RunFacts.

Lemma for_each_unfold {A St} (body : A -> St -> M St) x l acc :
  for_each body (x :: l) acc = body x acc ≫= for_each body l.
Proof. reflexivity. Qed.

Lemma insert_undated x acc w :
  acc <> [] -> Summarise.date x = None ->
  Summarise.insert_desc x acc w = (Raised TypeError, w).
Proof.
  intros Hne Hx. destruct acc as [|y t]; [contradiction|].
  cbn [Summarise.insert_desc]. rewrite Hx.
  unfold mbind, M_bind, Summarise.key_lt.
  now destruct (Summarise.date y).
Qed.

Lemma insert_behind_undated x y t w :
  Summarise.date y = None ->
  Summarise.insert_desc x (y :: t) w = (Raised TypeError, w).
Proof. intros Hy. cbn [Summarise.insert_desc]. now rewrite Hy. Qed.

Lemma insert_dated x acc w d :
  Summarise.date x = Some d ->
  Forall (fun e => Summarise.date e <> None) acc ->
  exists acc',
    Summarise.insert_desc x acc w = (Ok acc', w) /\
    Forall (fun e => Summarise.date e <> None) acc' /\ acc' <> [].
Proof.
  intros Hx. induction acc as [|y t IH]; intros Hacc.
  - exists [x]. repeat split; [|discriminate].
    constructor; [congruence | constructor].
  - apply Forall_cons_1 in Hacc as [Hy Ht].
    destruct (Summarise.date y) as [dy|] eqn:Hdy; [|contradiction].
    cbn [Summarise.insert_desc]. rewrite Hdy, Hx.
    unfold mbind at 1, M_bind, Summarise.key_lt, mret, M_ret.
    destruct (negb _).
    + exists (x :: y :: t). repeat split; [|discriminate].
      repeat constructor; congruence.
    + destruct (IH Ht) as [t' [Hrun [Hall _]]].
      erewrite bind_run by exact Hrun.
      exists (y :: t'). repeat split; [|discriminate].
      constructor; [congruence | exact Hall].
Qed.

Lemma sort_from_dated l acc w :
  acc <> [] ->
  Forall (fun e => Summarise.date e <> None) acc ->
  (exists e, In e l /\ Summarise.date e = None) ->
  for_each Summarise.insert_desc l acc w = (Raised TypeError, w).
Proof.
  revert acc. induction l as [|x l IH]; intros acc Hne Hacc [e [Hin He]];
    [destruct Hin|].
  cbn [for_each]. destruct (Summarise.date x) as [d|] eqn:Hx.
  - destruct (insert_dated x acc w d Hx Hacc) as [acc' [Hrun [Hall Hne']]].
    erewrite bind_run by exact Hrun.
    apply IH; auto. exists e. split; [|exact He].
    destruct Hin as [->|Hin]; [congruence | exact Hin].
  - unfold mbind, M_bind. now rewrite insert_undated.
Qed.

(** The sort raises [TypeError] for every list of two or more entries one
    of which has no date. *)
Lemma sort_raises_on_undated x y l w :
  (exists e, In e (x :: y :: l) /\ Summarise.date e = None) ->
  Summarise.sorted_desc (x :: y :: l) w = (Raised TypeError, w).
Proof.
  intros [e [Hin He]]. unfold Summarise.sorted_desc.
  rewrite for_each_unfold. erewrite bind_run by reflexivity.
  destruct (Summarise.date x) as [dx|] eqn:Hx.
  - apply sort_from_dated; [discriminate | | ].
    + constructor; [congruence | constructor].
    + exists e. split; [|exact He].
      destruct Hin as [->|Hin]; [congruence | exact Hin].
  - rewrite for_each_unfold. unfold mbind, M_bind.
    now rewrite insert_behind_undated.
Qed.

(** C7 (failing input): the sort raises [TypeError] for every list of two
    or more entries one of which has no date.  The PubMed file of the
    example holds one record dated 2024-10-01 and one dated [Unknown Date]:
    both are extracted, the second with no date; the comparison of the two
    sort keys raises [TypeError], the script ends there and no digest is
    written. *)
Theorem sort_fails_on_unparsed_date :
  (forall x y l w,
      (exists e, In e (x :: y :: l) /\ Summarise.date e = None) ->
      Summarise.sorted_desc (x :: y :: l) w = (Raised TypeError, w))
  /\ map Summarise.date
         (Summarise.extract_entries
            (files mixed_dates !! "../output/latest_pubmed_entries.txt"))
     = [Some {| year := 2024; month := 10; day := 1;
                hour := 0; minute := 0; second := 0; microsecond := 0 |};
        None]
  /\ fst (Summarise.main mixed_dates) = Raised TypeError
  /\ files (snd (Summarise.main mixed_dates)) !! Summarise.output_file = None.
Proof.
  split; [exact sort_raises_on_undated|].
  repeat split; vm_compute; reflexivity.
Qed.

(** The theorem at the two entries of the example. *)
Lemma sort_fails_on_unparsed_date_witness :
  let dated :=
    {| Summarise.title := "Dated"; Summarise.date := Strptime.ymd "2024-10-01";
       Summarise.url := "https://doi.org/10.1000/j.1" |} in
  let undated :=
    {| Summarise.title := "Undated";
       Summarise.date := Strptime.ymd "Unknown Date";
       Summarise.url := "https://doi.org/10.1000/j.2" |} in
  (exists e, In e [dated; undated] /\ Summarise.date e = None) /\
  Summarise.sorted_desc [dated; undated] initial = (Raised TypeError, initial).
Proof.
  intros dated undated.
  assert (H : exists e, In e [dated; undated] /\ Summarise.date e = None).
  { exists undated. split; [right; now left | reflexivity]. }
  split; [exact H|].
  exact (proj1 sort_fails_on_unparsed_date dated undated [] initial H).
Defined.

End Consolidation.

(** ** Reasoning about computations *)

Module MonadFacts.
Import Runtime Spec RunFacts.

Lemma finishes_ret {A} (a : A) : finishes (mret a).
Proof. intros w. discriminate. Qed.

Lemma finishes_bind {A B} (m : M A) (f : A -> M B) :
  finishes m -> (forall a, finishes (f a)) -> finishes (m ≫= f).
Proof.
  intros Hm Hf w. unfold mbind, M_bind. specialize (Hm w).
  destruct (m w) as [[a| | |] w']; cbn [fst] in *;
    [apply Hf | discriminate | discriminate | contradiction].
Qed.

Lemma finishes_print s : finishes (print s).
Proof. intros w. discriminate. Qed.

Lemma finishes_print_unless q s : finishes (print_unless q s).
Proof. destruct q; [apply finishes_ret | apply finishes_print]. Qed.

Lemma finishes_write_stderr s : finishes (write_stderr s).
Proof. intros w. discriminate. Qed.

Lemma finishes_write_file path s : finishes (write_file path s).
Proof. intros w. discriminate. Qed.

Lemma finishes_send r : finishes (send r).
Proof. intros w. discriminate. Qed.

Lemma finishes_raise {A} e : finishes (@raise A e).
Proof. intros w. discriminate. Qed.

Lemma finishes_sys_exit {A} c : finishes (@sys_exit A c).
Proof. intros w. discriminate. Qed.

Lemma finishes_for_each {A St} (body : A -> St -> M St) l :
  (forall x acc, finishes (body x acc)) ->
  forall acc, finishes (for_each body l acc).
Proof.
  intros Hb. induction l as [|x l IH]; intros acc; cbn [for_each].
  - apply finishes_ret.
  - apply finishes_bind; [apply Hb | exact IH].
Qed.

Lemma sends_only_ret P {A} (a : A) : sends_only P (mret a).
Proof. intros w H. exact H. Qed.

Lemma sends_only_bind P {A B} (m : M A) (f : A -> M B) :
  sends_only P m -> (forall a, sends_only P (f a)) -> sends_only P (m ≫= f).
Proof.
  intros Hm Hf w Hw. unfold mbind, M_bind. specialize (Hm w Hw).
  destruct (m w) as [[a| | |] w']; cbn [snd] in *;
    [now apply Hf | assumption | assumption | assumption].
Qed.

Lemma sends_only_print P s : sends_only P (print s).
Proof. intros w H. exact H. Qed.

Lemma sends_only_print_unless P q s : sends_only P (print_unless q s).
Proof. destruct q; [apply sends_only_ret | apply sends_only_print]. Qed.

Lemma sends_only_write_stderr P s : sends_only P (write_stderr s).
Proof. intros w H. exact H. Qed.

Lemma sends_only_write_file P path s : sends_only P (write_file path s).
Proof. intros w H. exact H. Qed.

Lemma sends_only_raise P {A} e : sends_only P (@raise A e).
Proof. intros w H. exact H. Qed.

Lemma sends_only_sys_exit P {A} c : sends_only P (@sys_exit A c).
Proof. intros w H. exact H. Qed.

Lemma sends_only_out_of_fuel P {A} : sends_only P (@out_of_fuel A).
Proof. intros w H. exact H. Qed.

Lemma sends_only_send (P : request -> Prop) r : P r -> sends_only P (send r).
Proof.
  intros Hr w Hw. cbn [send snd requests].
  apply Forall_app. split; [exact Hw | now constructor].
Qed.

Lemma sends_only_for_each P {A St} (body : A -> St -> M St) l :
  (forall x acc, sends_only P (body x acc)) ->
  forall acc, sends_only P (for_each body l acc).
Proof.
  intros Hb. induction l as [|x l IH]; intros acc; cbn [for_each].
  - apply sends_only_ret.
  - apply sends_only_bind; [apply Hb | exact IH].
Qed.

Lemma appends_ret {A} (a : A) : appends (mret a).
Proof. intros w. exists []. cbn. now rewrite app_nil_r. Qed.

Lemma appends_bind {A B} (m : M A) (f : A -> M B) :
  appends m -> (forall a, appends (f a)) -> appends (m ≫= f).
Proof.
  intros Hm Hf w. unfold mbind, M_bind. destruct (Hm w) as [rs Hrs].
  destruct (m w) as [[a| | |] w']; cbn [snd] in *;
    try (exists rs; exact Hrs).
  destruct (Hf a w') as [rs' Hrs']. exists (rs ++ rs')%list.
  now rewrite Hrs', Hrs, app_assoc.
Qed.

Lemma appends_print s : appends (print s).
Proof. intros w. exists []. cbn. now rewrite app_nil_r. Qed.

Lemma appends_print_unless q s : appends (print_unless q s).
Proof. destruct q; [apply appends_ret | apply appends_print]. Qed.

Lemma appends_write_stderr s : appends (write_stderr s).
Proof. intros w. exists []. cbn. now rewrite app_nil_r. Qed.

Lemma appends_write_file path s : appends (write_file path s).
Proof. intros w. exists []. cbn. now rewrite app_nil_r. Qed.

Lemma appends_raise {A} e : appends (@raise A e).
Proof. intros w. exists []. cbn. now rewrite app_nil_r. Qed.

Lemma appends_sys_exit {A} c : appends (@sys_exit A c).
Proof. intros w. exists []. cbn. now rewrite app_nil_r. Qed.

Lemma appends_out_of_fuel {A} : appends (@out_of_fuel A).
Proof. intros w. exists []. cbn. now rewrite app_nil_r. Qed.

Lemma appends_send r : appends (send r).
Proof. intros w. now exists [r]. Qed.

Lemma appends_for_each {A St} (body : A -> St -> M St) l :
  (forall x acc, appends (body x acc)) ->
  forall acc, appends (for_each body l acc).
Proof.
  intros Hb. induction l as [|x l IH]; intros acc; cbn [for_each].
  - apply appends_ret.
  - apply appends_bind; [apply Hb | exact IH].
Qed.

Lemma starts_bind r {A B} (m : M A) (f : A -> M B) :
  starts_with r m -> (forall a, appends (f a)) -> starts_with r (m ≫= f).
Proof.
  intros Hm Hf w. unfold mbind, M_bind. destruct (Hm w) as [rs Hrs].
  destruct (m w) as [[a| | |] w']; cbn [snd] in *;
    try (exists rs; exact Hrs).
  destruct (Hf a w') as [rs' Hrs']. exists (rs ++ rs')%list.
  now rewrite Hrs', Hrs, <- app_assoc.
Qed.

Lemma starts_send r {B} (f : nat -> M B) :
  (forall n, appends (f n)) -> starts_with r (send r ≫= f).
Proof.
  intros Hf w. unfold mbind, M_bind. cbn [send].
  destruct (Hf (length (requests w)) (snd (send r w))) as [rs Hrs].
  exists rs. cbn [send snd] in Hrs. rewrite Hrs. cbn [requests].
  now rewrite <- app_assoc.
Qed.

Create HintDb finishes.
Create HintDb sends.
Create HintDb appends.

#[export] Hint Resolve appends_ret appends_print appends_print_unless
  appends_write_stderr appends_write_file appends_raise appends_sys_exit
  appends_out_of_fuel appends_send : appends.

#[export] Hint Resolve finishes_ret finishes_print finishes_print_unless
  finishes_write_stderr finishes_write_file finishes_send finishes_raise
  finishes_sys_exit : finishes.

#[export] Hint Resolve sends_only_ret sends_only_print sends_only_print_unless
  sends_only_write_stderr sends_only_write_file sends_only_raise
  sends_only_sys_exit sends_only_out_of_fuel : sends.

End MonadFacts.

(** ** C8: a keyword file that cannot be used *)

Module ConfigCheck.
Import Text Config Runtime Spec Samples.
Import TextFacts RunFacts.

(** A file the check refuses is loaded without an exception, and the check
    has exactly one message for it. *)
Lemma unusable_loaded file :
  unusable file ->
  exists kd kd',
    (forall w, load_keywords_from_file file w = (Ok kd, w)) /\
    (forall w, load_keywords_from_file_journals file w = (Ok kd', w)) /\
    forall path,
      keyword_errors path kd = [config_error path file] /\
      keyword_errors path kd' = [config_error path file].
Proof.
  intros [->|(d & c & -> & Hs & Hk)].
  - exists None, None. repeat split.
  - unfold load_keywords_from_file, load_keywords_from_file_journals.
    rewrite Hs. eexists _, _. split; [reflexivity|]. split; [reflexivity|].
    intros path. unfold keyword_errors, keys_or_empty. cbn [keywords].
    destruct Hk as [H|[H ->]]; rewrite H; now split.
Qed.

Lemma rejected_raises file w :
  rejected file ->
  load_keywords_from_file file w = (Raised ConfigParserError, w) /\
  load_keywords_from_file_journals file w = (Raised ConfigParserError, w).
Proof.
  unfold load_keywords_from_file, load_keywords_from_file_journals.
  intros [->|(d & c & -> & Hs)]; [|rewrite Hs]; now split.
Qed.

(** A file that is missing or that the parser accepts is loaded without an
    exception. *)
Lemma accepted_loaded file :
  ~ rejected file ->
  exists kd kd',
    (forall w, load_keywords_from_file file w = (Ok kd, w)) /\
    (forall w, load_keywords_from_file_journals file w = (Ok kd', w)).
Proof.
  intros Hok. unfold load_keywords_from_file, load_keywords_from_file_journals.
  destruct file as [[|d c]|].
  - exfalso. apply Hok. now left.
  - destruct (strict d c) eqn:Hs.
    + eexists _, _. split; reflexivity.
    + exfalso. apply Hok. right. now exists d, c.
  - now exists None, None.
Qed.

(** Printing the error messages one by one. *)
Lemma print_errors errors w :
  for_each (fun error (_ : unit) => print error) errors tt w
  = (Ok tt, {| stdout := (stdout w ++ errors)%list; stderr := stderr w;
               requests := requests w; files := files w |}).
Proof.
  revert w. induction errors as [|e errors IH]; intros w; cbn [for_each].
  - rewrite app_nil_r. now destruct w.
  - erewrite bind_run by reflexivity. rewrite IH.
    cbn [stdout stderr requests files]. now rewrite <- app_assoc.
Qed.

(** The claim fails as it stands.  A file whose [keywords] section is empty
    is read as listing the keys of its [DEFAULT] section: the run reports no
    error and queries the server.  A file that starts without a section
    header has no [keywords] section either: the parser's exception ends
    the run, and the script reports nothing.  And with [--help] the missing
    file is never looked for: the run prints the usage and exits with
    status 0. *)
Lemma default_keys_count_as_keywords :
  (section "keywords" [("keywords", [])] = Some [] /\
   bioRxiv.main (biorxiv_reading (Some inherited_keywords) 0) biorxiv_args 10
                initial
   = (Ok tt,
      {| stdout := ["No matching entries found for the given keywords."];
         stderr := [];
         requests := [BiorxivDetails (today - 10) (today - 1) 0];
         files := ∅ |}))
  /\
  (bioRxiv.main (biorxiv_reading (Some Unparsable) 0) biorxiv_args 10 initial
   = (Raised ConfigParserError, initial))
  /\
  (bioRxiv.main (biorxiv_reading None 0) MoreSamples.biorxiv_help 10 initial
   = (SysExit 0,
      {| stdout := [biorxiv_usage]; stderr := []; requests := [];
         files := ∅ |})).
Proof. split; [split|split]; vm_compute; reflexivity. Qed.

(** C8 (amended): in a run that does not ask for [--help], when the keyword
    file is missing, or is read by the parser and has no [keywords] section
    or an empty one with no key to inherit from [DEFAULT], each of the three
    scripts reports the configuration error (PubMed on the error stream,
    arXiv and bioRxiv on the output), exits with status 1 and makes no
    network call.  A file the parser rejects ends the run with the parser's
    exception, before any call and with nothing reported by the script. *)
Theorem unusable_keyword_file_is_fatal :
  (forall E a fuel w,
      unusable (PubMed.keywords_file E) ->
      exists errors,
        In (config_error PubMed.keywords_path (PubMed.keywords_file E)) errors /\
        PubMed.main E a fuel w
        = (SysExit 1,
           {| stdout := stdout w;
              stderr := (stderr w ++ [join nl errors +:+ nl])%list;
              requests := requests w; files := files w |}))
  /\
  (forall E a fuel w,
      arXiv.help a = false ->
      unusable (arXiv.keywords_file E) ->
      exists errors,
        In (config_error arXiv.keywords_path (arXiv.keywords_file E)) errors /\
        arXiv.main E a fuel w
        = (SysExit 1,
           {| stdout := (stdout w ++ errors)%list; stderr := stderr w;
              requests := requests w; files := files w |}))
  /\
  (forall E a fuel w,
      bioRxiv.help a = false ->
      unusable (bioRxiv.keywords_file E) ->
      exists errors,
        In (config_error bioRxiv.keywords_path (bioRxiv.keywords_file E))
           errors /\
        bioRxiv.main E a fuel w
        = (SysExit 1,
           {| stdout := (stdout w ++ errors)%list; stderr := stderr w;
              requests := requests w; files := files w |}))
  /\
  (forall E a fuel w,
      rejected (PubMed.keywords_file E) ->
      PubMed.main E a fuel w = (Raised ConfigParserError, w))
  /\
  (forall E a fuel w,
      arXiv.help a = false ->
      rejected (arXiv.keywords_file E) ->
      arXiv.main E a fuel w = (Raised ConfigParserError, w))
  /\
  (forall E a fuel w,
      bioRxiv.help a = false ->
      rejected (bioRxiv.keywords_file E) ->
      bioRxiv.main E a fuel w = (Raised ConfigParserError, w)).
Proof.
  repeat apply conj.
  - intros E a fuel w Hbad.
    destruct (unusable_loaded _ Hbad) as (kd & kd' & _ & Hload & Herr).
    destruct (Herr PubMed.keywords_path) as [_ Hmsg].
    unfold PubMed.main, PubMed.collect.
    set (errors := (missing_flag (PubMed.days_before_today a)
                                 "days_before_today" ++
                    missing_flag (PubMed.batch_size a) "batch_size" ++
                    missing_flag (PubMed.email a) "email" ++
                    [config_error PubMed.keywords_path
                                  (PubMed.keywords_file E)])%list).
    exists errors. split.
    + subst errors. rewrite !in_app_iff. right. right. right. now left.
    + apply bind_exit. erewrite bind_run by apply Hload.
      rewrite Hmsg. fold errors.
      assert (Hne : errors <> []).
      { subst errors. intros H.
        apply app_eq_nil in H as [_ H]. apply app_eq_nil in H as [_ H].
        apply app_eq_nil in H as [_ H]. discriminate. }
      destruct errors as [|e errors']; [contradiction|].
      erewrite bind_run by reflexivity. reflexivity.
  - intros E a fuel w Hhelp Hbad.
    destruct (unusable_loaded _ Hbad) as (kd & kd' & Hload & _ & Herr).
    destruct (Herr arXiv.keywords_path) as [Hmsg _].
    unfold arXiv.main, arXiv.collect. rewrite Hhelp.
    set (errors := (missing_flag (arXiv.days_before_today a)
                                 "days_before_today" ++
                    missing_flag (arXiv.batch_size a) "batch_size" ++
                    [config_error arXiv.keywords_path
                                  (arXiv.keywords_file E)])%list).
    exists errors. split.
    + subst errors. rewrite !in_app_iff. right. right. now left.
    + apply bind_exit. erewrite bind_run by apply Hload.
      rewrite Hmsg. fold errors.
      assert (Hne : errors <> []).
      { subst errors. intros H.
        apply app_eq_nil in H as [_ H]. apply app_eq_nil in H as [_ H].
        discriminate. }
      destruct errors as [|e errors']; [contradiction|].
      erewrite bind_run by apply print_errors. reflexivity.
  - intros E a fuel w Hhelp Hbad.
    destruct (unusable_loaded _ Hbad) as (kd & kd' & Hload & _ & Herr).
    destruct (Herr bioRxiv.keywords_path) as [Hmsg _].
    unfold bioRxiv.main, bioRxiv.collect. rewrite Hhelp.
    set (errors := (missing_flag (bioRxiv.days_before_today a)
                                 "days_before_today" ++
                    missing_flag (bioRxiv.batch_size a) "batch_size" ++
                    [config_error bioRxiv.keywords_path
                                  (bioRxiv.keywords_file E)])%list).
    exists errors. split.
    + subst errors. rewrite !in_app_iff. right. right. now left.
    + apply bind_exit. erewrite bind_run by apply Hload.
      rewrite Hmsg. fold errors.
      assert (Hne : errors <> []).
      { subst errors. intros H.
        apply app_eq_nil in H as [_ H]. apply app_eq_nil in H as [_ H].
        discriminate. }
      destruct errors as [|e errors']; [contradiction|].
      erewrite bind_run by apply print_errors. reflexivity.
  - intros E a fuel w Hbad. unfold PubMed.main, PubMed.collect.
    apply bind_raised, bind_raised. now apply rejected_raises.
  - intros E a fuel w Hhelp Hbad. unfold arXiv.main, arXiv.collect.
    rewrite Hhelp. apply bind_raised, bind_raised. now apply rejected_raises.
  - intros E a fuel w Hhelp Hbad. unfold bioRxiv.main, bioRxiv.collect.
    rewrite Hhelp. apply bind_raised, bind_raised. now apply rejected_raises.
Qed.

(** The theorem at a missing PubMed file, an arXiv file without the
    [keywords] section, a bioRxiv file whose [keywords] section is empty,
    and a PubMed file that names a section twice. *)
Lemma unusable_keyword_file_is_fatal_witness :
  (unusable (PubMed.keywords_file (pubmed_env None 250)) /\
   exists errors,
     In (config_error PubMed.keywords_path None) errors /\
     PubMed.main (pubmed_env None 250) pubmed_args 10 initial
     = (SysExit 1,
        {| stdout := []; stderr := [join nl errors +:+ nl];
           requests := []; files := ∅ |}))
  /\
  (arXiv.help arxiv_args = false /\
   unusable (arXiv.keywords_file (arxiv_env (Some no_keywords) 250)) /\
   exists errors,
     In (config_error arXiv.keywords_path (plain (Some no_keywords))) errors /\
     arXiv.main (arxiv_env (Some no_keywords) 250) arxiv_args 10 initial
     = (SysExit 1,
        {| stdout := errors; stderr := []; requests := []; files := ∅ |}))
  /\
  (bioRxiv.help biorxiv_args = false /\
   unusable (bioRxiv.keywords_file (biorxiv_env (Some [("keywords", [])]) 250))
   /\
   exists errors,
     In (config_error bioRxiv.keywords_path
                      (plain (Some [("keywords", [])]))) errors /\
     bioRxiv.main (biorxiv_env (Some [("keywords", [])]) 250) biorxiv_args 10
                  initial
     = (SysExit 1,
        {| stdout := errors; stderr := []; requests := []; files := ∅ |}))
  /\
  (rejected (PubMed.keywords_file (pubmed_reading (Some repeated_section) 250))
   /\
   PubMed.main (pubmed_reading (Some repeated_section) 250) pubmed_args 10
               initial
   = (Raised ConfigParserError, initial)).
Proof.
  assert (H1 : unusable (PubMed.keywords_file (pubmed_env None 250)))
    by (now left).
  assert (H2 : unusable (arXiv.keywords_file (arxiv_env (Some no_keywords) 250))).
  { right. exists [], no_keywords. repeat split. now left. }
  assert (H3 : unusable (bioRxiv.keywords_file
                           (biorxiv_env (Some [("keywords", [])]) 250))).
  { right. exists [], [("keywords", [])]. repeat split. now right. }
  assert (H4 : rejected (PubMed.keywords_file
                           (pubmed_reading (Some repeated_section) 250))).
  { right. eexists _, _. split; reflexivity. }
  assert (H5 : arXiv.help arxiv_args = false) by reflexivity.
  assert (H6 : bioRxiv.help biorxiv_args = false) by reflexivity.
  repeat apply conj; try assumption.
  - exact (proj1 unusable_keyword_file_is_fatal
             (pubmed_env None 250) pubmed_args 10%nat initial H1).
  - exact (proj1 (proj2 unusable_keyword_file_is_fatal)
             (arxiv_env (Some no_keywords) 250) arxiv_args 10%nat initial
             H5 H2).
  - exact (proj1 (proj2 (proj2 unusable_keyword_file_is_fatal))
             (biorxiv_env (Some [("keywords", [])]) 250) biorxiv_args 10%nat
             initial H6 H3).
  - exact (proj1 (proj2 (proj2 (proj2 unusable_keyword_file_is_fatal)))
             (pubmed_reading (Some repeated_section) 250) pubmed_args 10%nat
             initial H4).
Defined.

End ConfigCheck.

(** ** C5: the end of pagination *)

Module Pagination.
Import Text Config Runtime Spec Samples.
Import RunFacts MonadFacts.

Lemma finishes_load file :
  finishes (load_keywords_from_file file) /\
  finishes (load_keywords_from_file_journals file).
Proof.
  unfold load_keywords_from_file, load_keywords_from_file_journals.
  destruct file as [[|d c]|]; [| destruct (strict d c) |];
    split; auto with finishes.
Qed.

Lemma pubmed_article_finishes journals q a entries :
  finishes (PubMed.process_article journals q a entries).
Proof.
  unfold PubMed.process_article.
  destruct (PubMed.journal_ok _ _); [|auto with finishes].
  apply finishes_bind.
  - unfold PubMed.abstract_of.
    destruct (PubMed.AbstractText a) as [[|x l]|]; auto with finishes.
  - intros abstract. apply finishes_bind; auto with finishes.
Qed.

(** A keyword's loop ends once the fuel covers the pages up to the largest
    total the source reports. *)
Lemma pubmed_paginate_finishes E q sd ed batch journals total :
  0 < batch ->
  (forall n r found,
      PubMed.esearch E n r = Returns found -> PubMed.Count found <= total) ->
  forall fuel query retstart entries,
    (1 <= fuel)%nat ->
    total - retstart <= batch * Z.of_nat fuel ->
    finishes (PubMed.paginate E q sd ed batch journals fuel query retstart
                              entries).
Proof.
  intros Hb Htotal. induction fuel as [|fuel IH];
    intros query retstart entries Hfuel Hcover; [lia|].
  cbn [PubMed.paginate].
  apply finishes_bind; [apply finishes_send|]. intros n.
  destruct (PubMed.esearch E n _) as [msg|found] eqn:Hs.
  { apply finishes_bind; auto with finishes. }
  destruct (PubMed.IdList found) as [|id ids]; [auto with finishes|].
  apply finishes_bind; [apply finishes_send|]. intros n'.
  destruct (PubMed.efetch E n' _) as [msg|articles].
  { apply finishes_bind; auto with finishes. }
  apply finishes_bind.
  { apply finishes_for_each. intros. apply pubmed_article_finishes. }
  intros entries'.
  destruct (Z.leb_spec (PubMed.Count found) (retstart + batch)) as [Hle|Hgt];
    [auto with finishes|].
  apply Htotal in Hs. apply IH; lia.
Qed.

(** The calls of the three scripts on a source of 250 results, asked for
    100 at a time. *)
Lemma pubmed_250_by_100 :
  page_requests
    (snd (PubMed.main (pubmed_env (Some oncology_config) 250) pubmed_args 10
                      initial))
  = [Esearch "(oncology) NOT cancer" (today - 10) today 100 0;
     Esearch "(oncology) NOT cancer" (today - 10) today 100 100;
     Esearch "(oncology) NOT cancer" (today - 10) today 100 200].
Proof. vm_compute. reflexivity. Qed.

Lemma arxiv_250_by_100 :
  requests
    (snd (arXiv.main (arxiv_env (Some oncology_config) 250) arxiv_args 10
                     initial))
  = [ArxivQuery "oncology" 0 100; ArxivQuery "oncology" 100 100;
     ArxivQuery "oncology" 200 100; ArxivQuery "oncology" 300 100].
Proof. vm_compute. reflexivity. Qed.

Lemma biorxiv_250_by_100 :
  requests
    (snd (bioRxiv.main (biorxiv_env (Some oncology_config) 250) biorxiv_args
                       10 initial))
  = [BiorxivDetails (today - 10) (today - 1) 0;
     BiorxivDetails (today - 10) (today - 1) 100;
     BiorxivDetails (today - 10) (today - 1) 200;
     BiorxivDetails (today - 10) (today - 1) 300].
Proof. vm_compute. reflexivity. Qed.

(** The claim fails for arXiv: on a source of 250 results asked for 100 at
    a time the script ends normally after four page requests, not three. *)
Lemma arxiv_issues_a_fourth_request :
  fst (arXiv.main (arxiv_env (Some oncology_config) 250) arxiv_args 10 initial)
  = Ok tt
  /\ length (page_requests
               (snd (arXiv.main (arxiv_env (Some oncology_config) 250)
                                arxiv_args 10 initial))) = 4%nat.
Proof.
  split; [vm_compute; reflexivity|].
  unfold page_requests. now rewrite arxiv_250_by_100.
Qed.

(** C5 (amended): in the PubMed script pagination for a keyword terminates,
    for a positive batch size and a bounded reported total, and reaches DONE
    when a page is empty or when the accumulated offset reaches or exceeds
    the total the source reports; on a source of 250 results and a batch
    size of 100 it issues exactly 3 page requests.  The arXiv and bioRxiv
    scripts read no total: they reach DONE when a page is empty, and on the
    same source they issue a fourth request, which returns nothing. *)
Theorem pagination_ends :
  (forall E a fuel batch total,
      PubMed.batch_size a = Some batch ->
      0 < batch ->
      (forall n r found,
          PubMed.esearch E n r = Returns found -> PubMed.Count found <= total) ->
      (1 <= fuel)%nat ->
      total <= batch * Z.of_nat fuel ->
      finishes (PubMed.main E a fuel))
  /\
  (forall E q sd ed batch journals fuel query retstart entries w found,
      PubMed.esearch E (length (requests w))
                     (Esearch query sd ed batch retstart) = Returns found ->
      PubMed.IdList found = [] ->
      PubMed.paginate E q sd ed batch journals (S fuel) query retstart entries w
      = (Ok entries, snd (send (Esearch query sd ed batch retstart) w)))
  /\
  (forall E q days batch ex req fuel keyword offset st w,
      arXiv.feed E (length (requests w)) (ArxivQuery keyword offset batch) = [] ->
      arXiv.paginate E q days batch ex req (S fuel) keyword offset st w
      = (Ok st, snd (send (ArxivQuery keyword offset batch) w)))
  /\
  (forall E q sd ed batch ex req fuel keyword offset entries w,
      bioRxiv.get E (length (requests w)) (BiorxivDetails sd ed offset)
      = Returns {| bioRxiv.status_code := 200;
                   bioRxiv.content := bioRxiv.Json (Some []) |} ->
      bioRxiv.paginate E q sd ed batch ex req (S fuel) keyword offset entries w
      = (Ok entries, snd (send (BiorxivDetails sd ed offset) w)))
  /\
  (let w := snd (PubMed.main (pubmed_env (Some oncology_config) 250)
                             pubmed_args 10 initial) in
   map (fun r => match r with Esearch _ _ _ _ o => o | _ => -1 end)
       (page_requests w) = [0; 100; 200])
  /\
  (let w := snd (arXiv.main (arxiv_env (Some oncology_config) 250)
                            arxiv_args 10 initial) in
   map (fun r => match r with ArxivQuery _ o _ => o | _ => -1 end)
       (page_requests w) = [0; 100; 200; 300])
  /\
  (let w := snd (bioRxiv.main (biorxiv_env (Some oncology_config) 250)
                              biorxiv_args 10 initial) in
   map (fun r => match r with BiorxivDetails _ _ o => o | _ => -1 end)
       (page_requests w) = [0; 100; 200; 300]).
Proof.
  repeat apply conj.
  - intros E a fuel batch total Hbatch Hpos Htotal Hfuel Hcover.
    unfold PubMed.main. apply finishes_bind.
    + unfold PubMed.collect. apply finishes_bind; [apply finishes_load|].
      intros kd. cbv zeta. rewrite Hbatch.
      destruct (_ ++ _)%list as [|e errors'];
        destruct (PubMed.days_before_today a) as [days|];
        destruct kd as [k|];
        try (apply finishes_bind; auto with finishes).
      destruct (Calendar.can_go_back _ _); [|auto with finishes].
      apply finishes_for_each. intros keyword entries.
      apply pubmed_paginate_finishes with (total := total); auto. lia.
    + intros entries. unfold PubMed.write_entries.
      destruct entries; [auto with finishes|].
      apply finishes_bind; auto with finishes.
  - intros E q sd ed batch journals fuel query retstart entries w found Hs Hid.
    cbn [PubMed.paginate].
    erewrite bind_run by reflexivity. now rewrite Hs, Hid.
  - intros E q days batch ex req fuel keyword offset st w Hfeed.
    cbn [arXiv.paginate].
    erewrite bind_run by reflexivity. now rewrite Hfeed.
  - intros E q sd ed batch ex req fuel keyword offset entries w Hget.
    cbn [bioRxiv.paginate].
    erewrite bind_run by reflexivity. now rewrite Hget.
  - cbv zeta. now rewrite pubmed_250_by_100.
  - cbv zeta. unfold page_requests. now rewrite arxiv_250_by_100.
  - cbv zeta. unfold page_requests. now rewrite biorxiv_250_by_100.
Qed.

(** The theorem at the PubMed source of 250 results, with fuel for ten
    pages, and at an arXiv feed without entries. *)
Lemma pagination_ends_witness :
  (PubMed.batch_size pubmed_args = Some 100 /\
   0 < 100 /\
   (forall n r found,
       PubMed.esearch (pubmed_env (Some oncology_config) 250) n r
       = Returns found -> PubMed.Count found <= 250) /\
   (1 <= 10)%nat /\
   250 <= 100 * Z.of_nat 10 /\
   finishes (PubMed.main (pubmed_env (Some oncology_config) 250) pubmed_args 10))
  /\
  (arXiv.feed (arxiv_env None 0) (length (requests initial))
              (ArxivQuery "oncology" 0 100) = [] /\
   arXiv.paginate (arxiv_env None 0) true 10 100 [] [] 1 "oncology" 0
                  no_state initial
   = (Ok no_state, snd (send (ArxivQuery "oncology" 0 100) initial))).
Proof.
  assert (H1 : PubMed.batch_size pubmed_args = Some 100) by reflexivity.
  assert (H2 : 0 < 100) by lia.
  assert (H3 : forall n r found,
             PubMed.esearch (pubmed_env (Some oncology_config) 250) n r
             = Returns found -> PubMed.Count found <= 250).
  { intros n r found H. destruct r; try discriminate.
    injection H as <-. cbn [PubMed.Count]. lia. }
  assert (H4 : (1 <= 10)%nat) by lia.
  assert (H5 : 250 <= 100 * Z.of_nat 10) by lia.
  assert (H6 : arXiv.feed (arxiv_env None 0) (length (requests initial))
                          (ArxivQuery "oncology" 0 100) = []) by reflexivity.
  split.
  - repeat (split; [assumption|]).
    exact (proj1 pagination_ends (pubmed_env (Some oncology_config) 250)
                 pubmed_args 10%nat 100 250 H1 H2 H3 H4 H5).
  - split; [exact H6|].
    exact (proj1 (proj2 (proj2 pagination_ends)) (arxiv_env None 0) true 10 100
                 [] [] 0%nat "oncology" 0 no_state initial H6).
Defined.

End Pagination.

(** ** C10: the date range of the requests *)

Module DateRange.
Import Text Config Runtime Spec Samples.
Import RunFacts MonadFacts.

Lemma biorxiv_item_sends P q ex req keyword i entries :
  sends_only P (bioRxiv.process_item q ex req keyword i entries).
Proof.
  unfold bioRxiv.process_item.
  repeat match goal with
         | |- sends_only _ (if ?b then _ else _) => destruct b
         | |- sends_only _ (_ ≫= _) => apply sends_only_bind; [|intros ?]
         end; auto with sends.
Qed.

Lemma biorxiv_paginate_sends (P : request -> Prop) E q sd ed batch ex req :
  (forall offset, P (BiorxivDetails sd ed offset)) ->
  forall fuel keyword offset entries,
    sends_only P (bioRxiv.paginate E q sd ed batch ex req fuel keyword offset
                                   entries).
Proof.
  intros HP. induction fuel as [|fuel IH]; intros keyword offset entries;
    cbn [bioRxiv.paginate]; [auto with sends|].
  apply sends_only_bind; [apply sends_only_send, HP|]. intros n.
  destruct (bioRxiv.get E n _) as [msg|resp]; [auto with sends|].
  destruct (bioRxiv.content resp) as [|data|stops]; [auto with sends| |].
  - destruct (bioRxiv.status_code resp =? 200), data as [[|i l]|];
      try (apply sends_only_bind; [|intros ?]); auto with sends.
    apply sends_only_for_each. intros. apply biorxiv_item_sends.
  - destruct (_ && _); [auto with sends|].
    apply sends_only_bind; auto with sends.
Qed.

Lemma biorxiv_item_appends q ex req keyword i entries :
  appends (bioRxiv.process_item q ex req keyword i entries).
Proof.
  unfold bioRxiv.process_item.
  repeat match goal with
         | |- appends (if ?b then _ else _) => destruct b
         | |- appends (_ ≫= _) => apply appends_bind; [|intros ?]
         end; auto with appends.
Qed.

Lemma biorxiv_paginate_appends E q sd ed batch ex req :
  forall fuel keyword offset entries,
    appends (bioRxiv.paginate E q sd ed batch ex req fuel keyword offset
                              entries).
Proof.
  induction fuel as [|fuel IH]; intros keyword offset entries;
    cbn [bioRxiv.paginate]; [auto with appends|].
  apply appends_bind; [apply appends_send|]. intros n.
  destruct (bioRxiv.get E n _) as [msg|resp]; [auto with appends|].
  destruct (bioRxiv.content resp) as [|data|stops]; [auto with appends| |].
  - destruct (bioRxiv.status_code resp =? 200), data as [[|i l]|];
      try (apply appends_bind; [|intros ?]); auto with appends.
    apply appends_for_each. intros. apply biorxiv_item_appends.
  - destruct (_ && _); [auto with appends|].
    apply appends_bind; auto with appends.
Qed.

Lemma pubmed_article_appends journals q a entries :
  appends (PubMed.process_article journals q a entries).
Proof.
  unfold PubMed.process_article.
  destruct (PubMed.journal_ok _ _); [|auto with appends].
  apply appends_bind.
  - unfold PubMed.abstract_of.
    destruct (PubMed.AbstractText a) as [[|x l]|]; auto with appends.
  - intros abstract. apply appends_bind; auto with appends.
Qed.

Lemma pubmed_paginate_appends E q sd ed batch journals :
  forall fuel query retstart entries,
    appends (PubMed.paginate E q sd ed batch journals fuel query retstart
                             entries).
Proof.
  induction fuel as [|fuel IH]; intros query retstart entries;
    cbn [PubMed.paginate]; [auto with appends|].
  apply appends_bind; [apply appends_send|]. intros n.
  destruct (PubMed.esearch E n _) as [msg|found].
  { apply appends_bind; auto with appends. }
  destruct (PubMed.IdList found) as [|id ids]; [auto with appends|].
  apply appends_bind; [apply appends_send|]. intros n'.
  destruct (PubMed.efetch E n' _) as [msg|articles].
  { apply appends_bind; auto with appends. }
  apply appends_bind.
  { apply appends_for_each. intros. apply pubmed_article_appends. }
  intros entries'. destruct (_ <=? _); auto with appends.
Qed.

Lemma pubmed_article_sends P journals q a entries :
  sends_only P (PubMed.process_article journals q a entries).
Proof.
  unfold PubMed.process_article.
  destruct (PubMed.journal_ok _ _); [|auto with sends].
  apply sends_only_bind.
  - unfold PubMed.abstract_of.
    destruct (PubMed.AbstractText a) as [[|x l]|]; auto with sends.
  - intros abstract. apply sends_only_bind; auto with sends.
Qed.

Lemma pubmed_paginate_sends (P : request -> Prop) E q sd ed batch journals :
  (forall term retstart, P (Esearch term sd ed batch retstart)) ->
  (forall ids, P (Efetch ids)) ->
  forall fuel query retstart entries,
    sends_only P (PubMed.paginate E q sd ed batch journals fuel query retstart
                                  entries).
Proof.
  intros HS HF. induction fuel as [|fuel IH]; intros query retstart entries;
    cbn [PubMed.paginate]; [auto with sends|].
  apply sends_only_bind; [apply sends_only_send, HS|]. intros n.
  destruct (PubMed.esearch E n _) as [msg|found].
  { apply sends_only_bind; auto with sends. }
  destruct (PubMed.IdList found) as [|id ids]; [auto with sends|].
  apply sends_only_bind; [apply sends_only_send, HF|]. intros n'.
  destruct (PubMed.efetch E n' _) as [msg|articles].
  { apply sends_only_bind; auto with sends. }
  apply sends_only_bind.
  { apply sends_only_for_each. intros. apply pubmed_article_sends. }
  intros entries'. destruct (_ <=? _); auto with sends.
Qed.

Lemma sends_only_load P file :
  sends_only P (load_keywords_from_file file) /\
  sends_only P (load_keywords_from_file_journals file).
Proof.
  unfold load_keywords_from_file, load_keywords_from_file_journals.
  destruct file as [[|d c]|]; [| destruct (strict d c) |];
    split; auto with sends.
Qed.

Lemma biorxiv_main_sends E a fuel :
  sends_only (biorxiv_request E a) (bioRxiv.main E a fuel).
Proof.
  unfold bioRxiv.main. apply sends_only_bind.
  - unfold bioRxiv.collect.
    destruct (bioRxiv.help a); [apply sends_only_bind; auto with sends|].
    apply sends_only_bind; [apply sends_only_load|]. intros kd. cbv zeta.
    destruct (_ ++ _)%list as [|e errors'];
      destruct (bioRxiv.days_before_today a) as [days|] eqn:Hdays;
      destruct (bioRxiv.batch_size a) as [batch|];
      destruct kd as [k|];
      try (apply sends_only_bind;
           [apply sends_only_for_each; intros; apply sends_only_print
           |intros; apply sends_only_sys_exit]).
    destruct (_ && _); [|auto with sends].
    apply sends_only_for_each. intros keyword entries.
    apply biorxiv_paginate_sends. intros offset.
    exists days, offset. repeat split; [exact Hdays|].
    cbn [in_range]. lia.
  - intros entries. unfold bioRxiv.write_entries.
    destruct entries; [auto with sends|].
    apply sends_only_bind; auto with sends.
Qed.

Lemma pubmed_main_sends E a fuel :
  sends_only (pubmed_request E a) (PubMed.main E a fuel).
Proof.
  unfold PubMed.main. apply sends_only_bind.
  - unfold PubMed.collect.
    apply sends_only_bind; [apply sends_only_load|]. intros kd. cbv zeta.
    destruct (_ ++ _)%list as [|e errors'];
      destruct (PubMed.days_before_today a) as [days|] eqn:Hdays;
      destruct (PubMed.batch_size a) as [batch|];
      destruct kd as [k|];
      try (apply sends_only_bind; auto with sends).
    destruct (Calendar.can_go_back _ _); [|auto with sends].
    apply sends_only_for_each. intros keyword entries.
    apply pubmed_paginate_sends.
    + intros term retstart _. exists days, term, batch, retstart.
      repeat split; [exact Hdays| |]; cbn [in_range]; lia.
    + intros ids Hpage. discriminate.
  - intros entries. unfold PubMed.write_entries.
    destruct entries; [auto with sends|].
    apply sends_only_bind; auto with sends.
Qed.

(** With its flags and a keyword file that lists [kw] first, the bioRxiv
    script starts by asking for the range that ends at yesterday. *)
Lemma biorxiv_first_request E a fuel days batch k kw kws :
  bioRxiv.help a = false ->
  bioRxiv.days_before_today a = Some days ->
  bioRxiv.batch_size a = Some batch ->
  (forall w, load_keywords_from_file (bioRxiv.keywords_file E) w
             = (Ok (Some k), w)) ->
  keywords k = kw :: kws ->
  Calendar.can_go_back (bioRxiv.today E) days = true ->
  Calendar.can_go_back (bioRxiv.today E) 1 = true ->
  starts_with (BiorxivDetails (bioRxiv.today E - days) (bioRxiv.today E - 1) 0)
              (bioRxiv.main E a (S fuel)).
Proof.
  intros Hhelp Hdays Hbatch Hload Hk Hgo Hgo1. unfold bioRxiv.main.
  apply starts_bind.
  - intros w. unfold bioRxiv.collect. rewrite Hhelp.
    erewrite bind_run by apply Hload.
    rewrite Hdays, Hbatch. unfold keyword_errors, missing_flag.
    rewrite Hk, Hgo, Hgo1. cbn [app andb]. revert w.
    rewrite Consolidation.for_each_unfold. apply starts_bind.
    + cbn [bioRxiv.paginate]. apply starts_send. intros n.
      destruct (bioRxiv.get E n _) as [msg|resp]; [auto with appends|].
      destruct (bioRxiv.content resp) as [|data|stops];
        [auto with appends| |].
      * destruct (bioRxiv.status_code resp =? 200), data as [[|i l]|];
          try (apply appends_bind; [|intros ?]); auto with appends.
        -- apply appends_for_each. intros. apply biorxiv_item_appends.
        -- apply biorxiv_paginate_appends.
      * destruct (_ && _); [auto with appends|].
        apply appends_bind; auto with appends.
    + intros entries. apply appends_for_each. intros.
      apply biorxiv_paginate_appends.
  - intros entries. unfold bioRxiv.write_entries.
    destruct entries; [auto with appends|].
    apply appends_bind; auto with appends.
Qed.

(** The same for the PubMed script, whose range ends at today. *)
Lemma pubmed_first_request E a fuel days batch address k kw kws :
  PubMed.days_before_today a = Some days ->
  PubMed.batch_size a = Some batch ->
  PubMed.email a = Some address ->
  (forall w, load_keywords_from_file_journals (PubMed.keywords_file E) w
             = (Ok (Some k), w)) ->
  keywords k = kw :: kws ->
  Calendar.can_go_back (PubMed.today E) days = true ->
  starts_with (Esearch (PubMed.build_query kw (journals_of_interest k)
                                           (exclude_keywords k))
                       (PubMed.today E - days) (PubMed.today E) batch 0)
              (PubMed.main E a (S fuel)).
Proof.
  intros Hdays Hbatch Hemail Hload Hk Hgo. unfold PubMed.main.
  apply starts_bind.
  - intros w. unfold PubMed.collect. erewrite bind_run by apply Hload.
    rewrite Hdays, Hbatch, Hemail. unfold keyword_errors, missing_flag.
    rewrite Hk, Hgo. cbn [app]. revert w.
    rewrite Consolidation.for_each_unfold. apply starts_bind.
    + cbn [PubMed.paginate]. apply starts_send. intros n.
      destruct (PubMed.esearch E n _) as [msg|found].
      { apply appends_bind; auto with appends. }
      destruct (PubMed.IdList found) as [|id ids]; [auto with appends|].
      apply appends_bind; [apply appends_send|]. intros n'.
      destruct (PubMed.efetch E n' _) as [msg|articles].
      { apply appends_bind; auto with appends. }
      apply appends_bind.
      { apply appends_for_each. intros. apply pubmed_article_appends. }
      intros entries'. destruct (_ <=? _); [auto with appends|].
      apply pubmed_paginate_appends.
    + intros entries. apply appends_for_each. intros.
      apply pubmed_paginate_appends.
  - intros entries. unfold PubMed.write_entries.
    destruct entries; [auto with appends|].
    apply appends_bind; auto with appends.
Qed.

(** The claim fails as it stands.  The bioRxiv script never looks at the
    date of an item: a preprint dated 2024-10-20 that the server hands out
    in a run of that day is written to the output file.  And with
    [--days_before_today -1] the range the PubMed script asks for starts
    tomorrow and does not include today. *)
Lemma biorxiv_keeps_item_dated_today :
  (Calendar.toordinal <$> Strptime.ymd (bioRxiv.date dated_today)
   = Some (bioRxiv.today biorxiv_serving_today) /\
   files (snd (bioRxiv.main biorxiv_serving_today biorxiv_args 10 initial))
     !! bioRxiv.output_path
   = Some (bioRxiv.entry dated_today))
  /\
  (requests (snd (PubMed.main (pubmed_env (Some oncology_config) 0)
                              pubmed_day_ahead 10 initial))
   = [Esearch "(oncology) NOT cancer" (today + 1) today 100 0] /\
   ~ in_range (Esearch "(oncology) NOT cancer" (today + 1) today 100 0) today).
Proof.
  split; split; try (vm_compute; reflexivity).
  cbn [in_range]. lia.
Qed.

(** C10 (amended): in every run each request of the bioRxiv script asks for
    the range from [today - days_before_today] to yesterday, which does not
    contain today, and each search of the PubMed script for the range from
    [today - days_before_today] to today, which contains today when the
    number of days is not negative.  A run with its flags, a keyword file
    that lists a keyword and dates within the calendar starts with such a
    request.  Which items the bioRxiv server hands out for the range is
    left to the server. *)
Theorem biorxiv_range_ends_yesterday :
  (forall E a fuel,
      Forall (biorxiv_request E a)
             (requests (snd (bioRxiv.main E a fuel initial))))
  /\
  (forall E a fuel,
      Forall (pubmed_request E a)
             (requests (snd (PubMed.main E a fuel initial))))
  /\
  (forall E a fuel days batch k kw kws,
      bioRxiv.help a = false ->
      bioRxiv.days_before_today a = Some days ->
      bioRxiv.batch_size a = Some batch ->
      (forall w, load_keywords_from_file (bioRxiv.keywords_file E) w
                 = (Ok (Some k), w)) ->
      keywords k = kw :: kws ->
      Calendar.can_go_back (bioRxiv.today E) days = true ->
      Calendar.can_go_back (bioRxiv.today E) 1 = true ->
      exists rest,
        requests (snd (bioRxiv.main E a (S fuel) initial))
        = BiorxivDetails (bioRxiv.today E - days) (bioRxiv.today E - 1) 0
          :: rest)
  /\
  (forall E a fuel days batch address k kw kws,
      PubMed.days_before_today a = Some days ->
      PubMed.batch_size a = Some batch ->
      PubMed.email a = Some address ->
      (forall w, load_keywords_from_file_journals (PubMed.keywords_file E) w
                 = (Ok (Some k), w)) ->
      keywords k = kw :: kws ->
      Calendar.can_go_back (PubMed.today E) days = true ->
      exists rest,
        requests (snd (PubMed.main E a (S fuel) initial))
        = Esearch (PubMed.build_query kw (journals_of_interest k)
                                      (exclude_keywords k))
                  (PubMed.today E - days) (PubMed.today E) batch 0
          :: rest).
Proof.
  repeat apply conj.
  - intros E a fuel. apply biorxiv_main_sends. constructor.
  - intros E a fuel. apply pubmed_main_sends. constructor.
  - intros E a fuel days batch k kw kws Hhelp Hdays Hbatch Hload Hk Hgo Hgo1.
    exact (biorxiv_first_request E a fuel days batch k kw kws
             Hhelp Hdays Hbatch Hload Hk Hgo Hgo1 initial).
  - intros E a fuel days batch address k kw kws Hdays Hbatch Hemail Hload Hk
           Hgo.
    exact (pubmed_first_request E a fuel days batch address k kw kws
             Hdays Hbatch Hemail Hload Hk Hgo initial).
Qed.

(** The theorem at the runs of the two scripts over ten days. *)
Lemma biorxiv_range_ends_yesterday_witness :
  (exists rest,
      requests (snd (bioRxiv.main (biorxiv_env (Some oncology_config) 250)
                                  biorxiv_args 3 initial))
      = BiorxivDetails (today - 10) (today - 1) 0 :: rest)
  /\
  (exists rest,
      requests (snd (PubMed.main (pubmed_env (Some oncology_config) 250)
                                 pubmed_args 3 initial))
      = Esearch "(oncology) NOT cancer" (today - 10) today 100 0 :: rest).
Proof.
  pose (k := {| keywords := ["oncology"]; exclude_keywords := ["cancer"];
                required_keywords := []; journals_of_interest := [] |}).
  assert (H0 : bioRxiv.help biorxiv_args = false) by reflexivity.
  assert (H1 : bioRxiv.days_before_today biorxiv_args = Some 10)
    by reflexivity.
  assert (H2 : bioRxiv.batch_size biorxiv_args = Some 100) by reflexivity.
  assert (H3 : forall w,
             load_keywords_from_file
               (bioRxiv.keywords_file (biorxiv_env (Some oncology_config) 250))
               w = (Ok (Some k), w)) by reflexivity.
  assert (H4 : keywords k = "oncology" :: []) by reflexivity.
  assert (H5 : Calendar.can_go_back today 10 = true) by reflexivity.
  assert (H6 : Calendar.can_go_back today 1 = true) by reflexivity.
  assert (H7 : PubMed.days_before_today pubmed_args = Some 10)
    by reflexivity.
  assert (H8 : PubMed.batch_size pubmed_args = Some 100) by reflexivity.
  assert (H9 : PubMed.email pubmed_args = Some "reader@example.org")
    by reflexivity.
  assert (H10 : forall w,
             load_keywords_from_file_journals
               (PubMed.keywords_file (pubmed_env (Some oncology_config) 250))
               w = (Ok (Some k), w)) by reflexivity.
  split.
  - exact (proj1 (proj2 (proj2 biorxiv_range_ends_yesterday))
             (biorxiv_env (Some oncology_config) 250) biorxiv_args 2%nat
             10 100 k "oncology" [] H0 H1 H2 H3 H4 H5 H6).
  - exact (proj2 (proj2 (proj2 biorxiv_range_ends_yesterday))
             (pubmed_env (Some oncology_config) 250) pubmed_args 2%nat
             10 100 "reader@example.org" k "oncology" [] H7 H8 H9 H10 H4
             H5).
Defined.

End DateRange.

(** * Further properties of the scripts *)

(** ** Required flags *)

Module RequiredFlags.
Import Text Config Runtime Spec Notions Samples.
Import TextFacts RunFacts ConfigCheck.

Lemma missing_flag_error {A} (flag : option A) name :
  flag = None ->
  missing_flag flag name = ["Error: --" +:+ name +:+ " flag is required."].
Proof. now intros ->. Qed.

(** A run that does not ask for [--help] and lacks [--days_before_today] or
    [--batch_size] (or, for PubMed, [--email]), on a keyword file that is
    missing or that the parser accepts, names each missing flag, exits with
    status 1 and makes no network call.  With [--help] the arXiv and bioRxiv
    scripts print the usage and exit with status 0, whatever else is given
    or missing. *)
Theorem missing_flag_is_fatal :
  (forall E a fuel w,
      ~ rejected (PubMed.keywords_file E) ->
      PubMed.days_before_today a = None \/ PubMed.batch_size a = None \/
      PubMed.email a = None ->
      exists errors,
        PubMed.main E a fuel w
        = (SysExit 1,
           {| stdout := stdout w;
              stderr := (stderr w ++ [join nl errors +:+ nl])%list;
              requests := requests w; files := files w |}) /\
        (PubMed.days_before_today a = None ->
         In "Error: --days_before_today flag is required." errors) /\
        (PubMed.batch_size a = None ->
         In "Error: --batch_size flag is required." errors) /\
        (PubMed.email a = None ->
         In "Error: --email flag is required." errors))
  /\
  (forall E a fuel w,
      arXiv.help a = false ->
      ~ rejected (arXiv.keywords_file E) ->
      arXiv.days_before_today a = None \/ arXiv.batch_size a = None ->
      exists errors,
        arXiv.main E a fuel w
        = (SysExit 1, after w [] errors) /\
        (arXiv.days_before_today a = None ->
         In "Error: --days_before_today flag is required." errors) /\
        (arXiv.batch_size a = None ->
         In "Error: --batch_size flag is required." errors))
  /\
  (forall E a fuel w,
      bioRxiv.help a = false ->
      ~ rejected (bioRxiv.keywords_file E) ->
      bioRxiv.days_before_today a = None \/ bioRxiv.batch_size a = None ->
      exists errors,
        bioRxiv.main E a fuel w
        = (SysExit 1, after w [] errors) /\
        (bioRxiv.days_before_today a = None ->
         In "Error: --days_before_today flag is required." errors) /\
        (bioRxiv.batch_size a = None ->
         In "Error: --batch_size flag is required." errors))
  /\
  (forall E a fuel w,
      arXiv.help a = true ->
      arXiv.main E a fuel w = (SysExit 0, after w [] [arXiv.usage E]))
  /\
  (forall E a fuel w,
      bioRxiv.help a = true ->
      bioRxiv.main E a fuel w = (SysExit 0, after w [] [bioRxiv.usage E])).
Proof.
  split; [|split; [|split; [|split]]].
  - intros E a fuel w Hok Hmiss.
    destruct (accepted_loaded _ Hok) as (kd0 & kd & _ & Hload).
    unfold PubMed.main, PubMed.collect.
    set (errors := (missing_flag (PubMed.days_before_today a)
                                 "days_before_today" ++
                    missing_flag (PubMed.batch_size a) "batch_size" ++
                    missing_flag (PubMed.email a) "email" ++
                    keyword_errors PubMed.keywords_path kd)%list).
    exists errors. split; [|split; [|split]].
    + apply bind_exit. erewrite bind_run by apply Hload. fold errors.
      assert (Hne : errors <> []).
      { subst errors. intros H.
        apply app_eq_nil in H as [H1 H]. apply app_eq_nil in H as [H2 H].
        apply app_eq_nil in H as [H3 _].
        destruct Hmiss as [Hm|[Hm|Hm]]; rewrite Hm in *; discriminate. }
      destruct errors as [|e errors']; [contradiction|].
      erewrite bind_run by reflexivity. reflexivity.
    + intros H. subst errors. rewrite (missing_flag_error _ _ H).
      rewrite !in_app_iff. left. now left.
    + intros H. subst errors. rewrite (missing_flag_error _ _ H).
      rewrite !in_app_iff. right. left. now left.
    + intros H. subst errors. rewrite (missing_flag_error _ _ H).
      rewrite !in_app_iff. right. right. left. now left.
  - intros E a fuel w Hhelp Hok Hmiss.
    destruct (accepted_loaded _ Hok) as (kd & kd' & Hload & _).
    unfold arXiv.main, arXiv.collect. rewrite Hhelp.
    set (errors := (missing_flag (arXiv.days_before_today a)
                                 "days_before_today" ++
                    missing_flag (arXiv.batch_size a) "batch_size" ++
                    keyword_errors arXiv.keywords_path kd)%list).
    exists errors. split; [|split].
    + apply bind_exit. erewrite bind_run by apply Hload. fold errors.
      assert (Hne : errors <> []).
      { subst errors. intros H.
        apply app_eq_nil in H as [H1 H]. apply app_eq_nil in H as [H2 _].
        destruct Hmiss as [Hm|Hm]; rewrite Hm in *; discriminate. }
      destruct errors as [|e errors']; [contradiction|].
      erewrite bind_run by apply print_errors.
      unfold after. now rewrite app_nil_r.
    + intros H. subst errors. rewrite (missing_flag_error _ _ H).
      rewrite !in_app_iff. left. now left.
    + intros H. subst errors. rewrite (missing_flag_error _ _ H).
      rewrite !in_app_iff. right. left. now left.
  - intros E a fuel w Hhelp Hok Hmiss.
    destruct (accepted_loaded _ Hok) as (kd & kd' & Hload & _).
    unfold bioRxiv.main, bioRxiv.collect. rewrite Hhelp.
    set (errors := (missing_flag (bioRxiv.days_before_today a)
                                 "days_before_today" ++
                    missing_flag (bioRxiv.batch_size a) "batch_size" ++
                    keyword_errors bioRxiv.keywords_path kd)%list).
    exists errors. split; [|split].
    + apply bind_exit. erewrite bind_run by apply Hload. fold errors.
      assert (Hne : errors <> []).
      { subst errors. intros H.
        apply app_eq_nil in H as [H1 H]. apply app_eq_nil in H as [H2 _].
        destruct Hmiss as [Hm|Hm]; rewrite Hm in *; discriminate. }
      destruct errors as [|e errors']; [contradiction|].
      erewrite bind_run by apply print_errors.
      unfold after. now rewrite app_nil_r.
    + intros H. subst errors. rewrite (missing_flag_error _ _ H).
      rewrite !in_app_iff. left. now left.
    + intros H. subst errors. rewrite (missing_flag_error _ _ H).
      rewrite !in_app_iff. right. left. now left.
  - intros E a fuel w Hhelp. unfold arXiv.main, arXiv.collect.
    rewrite Hhelp. apply bind_exit. erewrite bind_run by reflexivity.
    unfold sys_exit, after. cbn [stdout requests]. now rewrite app_nil_r.
  - intros E a fuel w Hhelp. unfold bioRxiv.main, bioRxiv.collect.
    rewrite Hhelp. apply bind_exit. erewrite bind_run by reflexivity.
    unfold sys_exit, after. cbn [stdout requests]. now rewrite app_nil_r.
Qed.

(** The theorem at a PubMed run without [--days_before_today] and at a
    bioRxiv run with [--help] alone. *)
Lemma missing_flag_is_fatal_witness :
  (~ rejected (PubMed.keywords_file (pubmed_env (Some oncology_config) 250)) /\
   (PubMed.days_before_today MoreSamples.pubmed_no_days = None \/
    PubMed.batch_size MoreSamples.pubmed_no_days = None \/
    PubMed.email MoreSamples.pubmed_no_days = None) /\
   exists errors,
     PubMed.main (pubmed_env (Some oncology_config) 250)
                 MoreSamples.pubmed_no_days 10 initial
     = (SysExit 1,
        {| stdout := []; stderr := [join nl errors +:+ nl];
           requests := []; files := ∅ |}) /\
     In "Error: --days_before_today flag is required." errors)
  /\
  (bioRxiv.help MoreSamples.biorxiv_help = true /\
   bioRxiv.main (biorxiv_env None 0) MoreSamples.biorxiv_help 10 initial
   = (SysExit 0, after initial [] [biorxiv_usage])).
Proof.
  split.
  2:{ assert (H : bioRxiv.help MoreSamples.biorxiv_help = true)
        by reflexivity.
      split; [exact H|].
      exact (proj2 (proj2 (proj2 (proj2 missing_flag_is_fatal)))
               (biorxiv_env None 0) MoreSamples.biorxiv_help 10%nat initial
               H). }
  assert (H0 : ~ rejected (PubMed.keywords_file
                             (pubmed_env (Some oncology_config) 250))).
  { intros [H|(d & c & H & Hs)]; [discriminate|].
    injection H as <- <-. vm_compute in Hs. discriminate. }
  assert (H : PubMed.days_before_today MoreSamples.pubmed_no_days = None \/
              PubMed.batch_size MoreSamples.pubmed_no_days = None \/
              PubMed.email MoreSamples.pubmed_no_days = None) by (now left).
  split; [exact H0|]. split; [exact H|].
  destruct (proj1 missing_flag_is_fatal (pubmed_env (Some oncology_config) 250)
              MoreSamples.pubmed_no_days 10%nat initial H0 H)
    as [errors [Hrun [Hdays _]]].
  exists errors. split; [exact Hrun|]. now apply Hdays.
Defined.

End RequiredFlags.

(** ** The output file *)

Module OutputFile.
Import Text Config Runtime Spec Notions Samples.
Import RunFacts.

Lemma leaves_ret {A} (a : A) : leaves_files (mret a).
Proof. intros w. reflexivity. Qed.

Lemma leaves_bind {A B} (m : M A) (f : A -> M B) :
  leaves_files m -> (forall a, leaves_files (f a)) -> leaves_files (m ≫= f).
Proof.
  intros Hm Hf w. unfold mbind, M_bind. specialize (Hm w).
  destruct (m w) as [[a| | |] w']; cbn [snd] in *; try exact Hm.
  now rewrite Hf.
Qed.

Lemma leaves_print s : leaves_files (print s).
Proof. intros w. reflexivity. Qed.

Lemma leaves_print_unless q s : leaves_files (print_unless q s).
Proof. destruct q; [apply leaves_ret | apply leaves_print]. Qed.

Lemma leaves_write_stderr s : leaves_files (write_stderr s).
Proof. intros w. reflexivity. Qed.

Lemma leaves_send r : leaves_files (send r).
Proof. intros w. reflexivity. Qed.

Lemma leaves_raise {A} e : leaves_files (@raise A e).
Proof. intros w. reflexivity. Qed.

Lemma leaves_sys_exit {A} c : leaves_files (@sys_exit A c).
Proof. intros w. reflexivity. Qed.

Lemma leaves_out_of_fuel {A} : leaves_files (@out_of_fuel A).
Proof. intros w. reflexivity. Qed.

Lemma leaves_for_each {A St} (body : A -> St -> M St) l :
  (forall x acc, leaves_files (body x acc)) ->
  forall acc, leaves_files (for_each body l acc).
Proof.
  intros Hb. induction l as [|x l IH]; intros acc; cbn [for_each].
  - apply leaves_ret.
  - apply leaves_bind; [apply Hb | exact IH].
Qed.

Create HintDb leaves.

#[export] Hint Resolve leaves_ret leaves_print leaves_print_unless
  leaves_write_stderr leaves_send leaves_raise leaves_sys_exit
  leaves_out_of_fuel : leaves.

Lemma pubmed_article_leaves journals q a entries :
  leaves_files (PubMed.process_article journals q a entries).
Proof.
  unfold PubMed.process_article.
  destruct (PubMed.journal_ok _ _); [|auto with leaves].
  apply leaves_bind.
  - unfold PubMed.abstract_of.
    destruct (PubMed.AbstractText a) as [[|x l]|]; auto with leaves.
  - intros abstract. apply leaves_bind; auto with leaves.
Qed.

Lemma pubmed_paginate_leaves E q sd ed batch journals fuel :
  forall query retstart entries,
    leaves_files (PubMed.paginate E q sd ed batch journals fuel query retstart
                                  entries).
Proof.
  induction fuel as [|fuel IH]; intros query retstart entries;
    cbn [PubMed.paginate]; [auto with leaves|].
  apply leaves_bind; [apply leaves_send|]. intros n.
  destruct (PubMed.esearch E n _) as [msg|found].
  { apply leaves_bind; auto with leaves. }
  destruct (PubMed.IdList found) as [|id ids]; [auto with leaves|].
  apply leaves_bind; [apply leaves_send|]. intros n'.
  destruct (PubMed.efetch E n' _) as [msg|articles].
  { apply leaves_bind; auto with leaves. }
  apply leaves_bind.
  { apply leaves_for_each. intros. apply pubmed_article_leaves. }
  intros entries'. destruct (_ <=? _); auto with leaves.
Qed.

Lemma arxiv_entry_leaves E q days ex req e st :
  leaves_files (arXiv.process_entry E q days ex req e st).
Proof.
  unfold arXiv.process_entry.
  apply leaves_bind; [auto with leaves|]. intros _.
  destruct (bool_decide _); [auto with leaves|].
  destruct (Strptime.iso _); [|auto with leaves].
  destruct (Calendar.geb _ _); [|auto with leaves].
  destruct (negb _); [destruct (_ || _)|];
    try (apply leaves_bind; [|intros ?]); auto with leaves.
Qed.

Lemma arxiv_paginate_leaves E q days batch ex req fuel :
  forall keyword offset st,
    leaves_files (arXiv.paginate E q days batch ex req fuel keyword offset st).
Proof.
  induction fuel as [|fuel IH]; intros keyword offset st;
    cbn [arXiv.paginate]; [auto with leaves|].
  apply leaves_bind; [apply leaves_send|]. intros n.
  destruct (arXiv.feed E n _) as [|e es]; [auto with leaves|].
  apply leaves_bind; [|intros; apply IH].
  apply leaves_for_each. intros. apply arxiv_entry_leaves.
Qed.

Lemma biorxiv_item_leaves q ex req keyword i entries :
  leaves_files (bioRxiv.process_item q ex req keyword i entries).
Proof.
  unfold bioRxiv.process_item.
  repeat match goal with
         | |- leaves_files (if ?b then _ else _) => destruct b
         | |- leaves_files (_ ≫= _) => apply leaves_bind; [|intros ?]
         end; auto with leaves.
Qed.

Lemma biorxiv_paginate_leaves E q sd ed batch ex req fuel :
  forall keyword offset entries,
    leaves_files (bioRxiv.paginate E q sd ed batch ex req fuel keyword offset
                                   entries).
Proof.
  induction fuel as [|fuel IH]; intros keyword offset entries;
    cbn [bioRxiv.paginate]; [auto with leaves|].
  apply leaves_bind; [apply leaves_send|]. intros n.
  destruct (bioRxiv.get E n _) as [msg|resp]; [auto with leaves|].
  destruct (bioRxiv.content resp) as [|data|stops]; [auto with leaves| |].
  - destruct (bioRxiv.status_code resp =? 200), data as [[|i l]|];
      try (apply leaves_bind; [|intros ?]); auto with leaves.
    apply leaves_for_each. intros. apply biorxiv_item_leaves.
  - destruct (_ && _); [auto with leaves|].
    apply leaves_bind; auto with leaves.
Qed.

Lemma leaves_load file :
  leaves_files (load_keywords_from_file file) /\
  leaves_files (load_keywords_from_file_journals file).
Proof.
  unfold load_keywords_from_file, load_keywords_from_file_journals.
  destruct file as [[|d c]|]; [| destruct (strict d c) |];
    split; auto with leaves.
Qed.

(** The checks and the loop over the keywords leave the files alone,
    however they end. *)
Lemma pubmed_collect_leaves E a fuel : leaves_files (PubMed.collect E a fuel).
Proof.
  unfold PubMed.collect. apply leaves_bind; [apply leaves_load|].
  intros kd. cbv zeta.
  destruct (_ ++ _)%list as [|e errors'];
    destruct (PubMed.days_before_today a) as [days|];
    destruct (PubMed.batch_size a) as [batch|];
    destruct kd as [k|];
    try (apply leaves_bind; auto with leaves).
  destruct (Calendar.can_go_back _ _); [|auto with leaves].
  apply leaves_for_each. intros. apply pubmed_paginate_leaves.
Qed.

Lemma arxiv_collect_leaves E a fuel : leaves_files (arXiv.collect E a fuel).
Proof.
  unfold arXiv.collect.
  destruct (arXiv.help a); [apply leaves_bind; auto with leaves|].
  apply leaves_bind; [apply leaves_load|].
  intros kd. cbv zeta.
  destruct (_ ++ _)%list as [|e errors'];
    destruct (arXiv.days_before_today a) as [days|];
    destruct (arXiv.batch_size a) as [batch|];
    destruct kd as [k|];
    try (apply leaves_bind;
         [apply leaves_for_each; intros; apply leaves_print
         |auto with leaves]).
  apply leaves_for_each. intros. apply arxiv_paginate_leaves.
Qed.

Lemma biorxiv_collect_leaves E a fuel :
  leaves_files (bioRxiv.collect E a fuel).
Proof.
  unfold bioRxiv.collect.
  destruct (bioRxiv.help a); [apply leaves_bind; auto with leaves|].
  apply leaves_bind; [apply leaves_load|].
  intros kd. cbv zeta.
  destruct (_ ++ _)%list as [|e errors'];
    destruct (bioRxiv.days_before_today a) as [days|];
    destruct (bioRxiv.batch_size a) as [batch|];
    destruct kd as [k|];
    try (apply leaves_bind;
         [apply leaves_for_each; intros; apply leaves_print
         |auto with leaves]).
  destruct (_ && _); [|auto with leaves].
  apply leaves_for_each. intros. apply biorxiv_paginate_leaves.
Qed.

(** A first phase that leaves the files alone, followed by a step that can
    change the file at [path] only. *)
Lemma write_at_the_end {A} (loop : M A) (write : A -> M unit)
      (path : string) w :
  leaves_files loop ->
  (forall a w1 (p : string),
      p <> path -> files (snd (write a w1)) !! p = files w1 !! p) ->
  let r := (loop ≫= write) w in
  ((forall a, fst (loop w) <> Ok a) -> files (snd r) = files w) /\
  (forall p, p <> path -> files (snd r) !! p = files w !! p).
Proof.
  intros Hl Hw r. subst r. unfold mbind, M_bind. specialize (Hl w).
  destruct (loop w) as [[a| | |] w1]; cbn [fst snd] in *;
    try (split; [intros _; exact Hl | intros p _; now rewrite Hl]).
  split.
  - intros Hn. now elim (Hn a).
  - intros p Hp. rewrite Hw by exact Hp. now rewrite Hl.
Qed.

Lemma pubmed_write_touches entries w (p : string) :
  p <> PubMed.output_path ->
  files (snd (PubMed.write_entries entries w)) !! p = files w !! p.
Proof.
  intros Hp. destruct entries as [|x l]; [reflexivity|].
  unfold PubMed.write_entries.
  erewrite bind_run by reflexivity. cbn [print snd files].
  now rewrite lookup_insert_ne by congruence.
Qed.

Lemma arxiv_write_touches d w (p : string) :
  p <> arXiv.output_path ->
  files (snd (arXiv.write_entries d w)) !! p = files w !! p.
Proof.
  intros Hp. destruct d as [|x l]; [reflexivity|].
  unfold arXiv.write_entries.
  erewrite bind_run by reflexivity. cbn [print snd files].
  now rewrite lookup_insert_ne by congruence.
Qed.

Lemma biorxiv_write_touches entries w (p : string) :
  p <> bioRxiv.output_path ->
  files (snd (bioRxiv.write_entries entries w)) !! p = files w !! p.
Proof.
  intros Hp. destruct entries as [|x l]; [reflexivity|].
  unfold bioRxiv.write_entries.
  erewrite bind_run by reflexivity. cbn [print snd files].
  now rewrite lookup_insert_ne by congruence.
Qed.

(** The run of a script once its first phase has ended with a value. *)
Lemma write_after_loop {A} (loop : M A) (write : A -> M unit) w a w1 :
  loop w = (Ok a, w1) -> (loop ≫= write) w = write a w1.
Proof. apply bind_run. Qed.

(** No retrieval script touches a file before its loop over the keywords
    has ended: the checks and the retrieval leave every file as it was, so
    that a run in which they do not end with the records (the error exit, an
    exception raised on the way, a loop still paginating) changes no file.
    Nor does a run that ends without any record.  And whatever the run, no
    file but the script's own output file is changed. *)
Theorem output_written_last :
  (forall E a fuel w,
      let r := PubMed.main E a fuel w in
      files (snd (PubMed.collect E a fuel w)) = files w /\
      ((forall entries, fst (PubMed.collect E a fuel w) <> Ok entries) ->
       files (snd r) = files w) /\
      (fst (PubMed.collect E a fuel w) = Ok [] -> files (snd r) = files w) /\
      (forall p, p <> PubMed.output_path -> files (snd r) !! p = files w !! p))
  /\
  (forall E a fuel w,
      let r := arXiv.main E a fuel w in
      files (snd (arXiv.collect E a fuel w)) = files w /\
      ((forall st, fst (arXiv.collect E a fuel w) <> Ok st) ->
       files (snd r) = files w) /\
      (forall st, fst (arXiv.collect E a fuel w) = Ok st ->
                  arXiv.entries st = [] -> files (snd r) = files w) /\
      (forall p, p <> arXiv.output_path -> files (snd r) !! p = files w !! p))
  /\
  (forall E a fuel w,
      let r := bioRxiv.main E a fuel w in
      files (snd (bioRxiv.collect E a fuel w)) = files w /\
      ((forall entries, fst (bioRxiv.collect E a fuel w) <> Ok entries) ->
       files (snd r) = files w) /\
      (fst (bioRxiv.collect E a fuel w) = Ok [] -> files (snd r) = files w) /\
      (forall p, p <> bioRxiv.output_path ->
                 files (snd r) !! p = files w !! p)).
Proof.
  split; [|split]; intros E a fuel w; cbv zeta.
  - pose proof (pubmed_collect_leaves E a fuel w) as Hl.
    destruct (write_at_the_end (PubMed.collect E a fuel) PubMed.write_entries
                PubMed.output_path w (pubmed_collect_leaves E a fuel))
      as [Hstop Hother]; [intros; now apply pubmed_write_touches|].
    repeat split; [exact Hl | exact Hstop | | exact Hother].
    intros Hnone. unfold PubMed.main.
    destruct (PubMed.collect E a fuel w) as [r1 w1] eqn:Hc.
    cbn [fst snd] in *. subst r1.
    now rewrite (write_after_loop _ _ _ _ _ Hc).
  - pose proof (arxiv_collect_leaves E a fuel w) as Hl.
    destruct (write_at_the_end (arXiv.collect E a fuel)
                (fun st => arXiv.write_entries (arXiv.entries st))
                arXiv.output_path w (arxiv_collect_leaves E a fuel))
      as [Hstop Hother]; [intros; now apply arxiv_write_touches|].
    repeat split; [exact Hl | exact Hstop | | exact Hother].
    intros st Hst Hnone. unfold arXiv.main.
    destruct (arXiv.collect E a fuel w) as [r1 w1] eqn:Hc.
    cbn [fst snd] in *. subst r1.
    rewrite (write_after_loop _ _ _ _ _ Hc), Hnone. exact Hl.
  - pose proof (biorxiv_collect_leaves E a fuel w) as Hl.
    destruct (write_at_the_end (bioRxiv.collect E a fuel)
                bioRxiv.write_entries bioRxiv.output_path w
                (biorxiv_collect_leaves E a fuel))
      as [Hstop Hother]; [intros; now apply biorxiv_write_touches|].
    repeat split; [exact Hl | exact Hstop | | exact Hother].
    intros Hnone. unfold bioRxiv.main.
    destruct (bioRxiv.collect E a fuel w) as [r1 w1] eqn:Hc.
    cbn [fst snd] in *. subst r1.
    now rewrite (write_after_loop _ _ _ _ _ Hc).
Qed.

(** The theorem at the bioRxiv run that ends with an uncaught exception,
    started with the PubMed file of the samples on disk. *)
Lemma output_written_last_witness :
  (forall entries,
      fst (bioRxiv.collect biorxiv_down biorxiv_args 10 mixed_dates)
      <> Ok entries) /\
  files (snd (bioRxiv.main biorxiv_down biorxiv_args 10 mixed_dates))
  = files mixed_dates.
Proof.
  assert (H : forall entries,
             fst (bioRxiv.collect biorxiv_down biorxiv_args 10 mixed_dates)
             <> Ok entries) by (intros entries; vm_compute; discriminate).
  split; [exact H|].
  exact (proj1 (proj2 (proj2 (proj2 output_written_last) biorxiv_down
                             biorxiv_args 10%nat mixed_dates)) H).
Defined.

End OutputFile.


(** ** The links of the arXiv entries *)

Module DistinctLinks.
Import Text Calendar Config Runtime Spec Notions Samples.
Import RunFacts FilterOrder.

Lemma dict_set_new k v d :
  ~ In k (map fst d) -> arXiv.dict_set k v d = (d ++ [(k, v)])%list.
Proof.
  induction d as [|[k' v'] d IH]; intros Hk; [reflexivity|].
  cbn [arXiv.dict_set]. cbn [map fst In] in Hk.
  destruct (String.eqb_spec k k') as [->|Hne]; [elim Hk; now left|].
  rewrite IH by tauto. reflexivity.
Qed.

Lemma grows_refl st : grows st st.
Proof.
  intros H. split; [exact H|]. split; [|reflexivity].
  exists []. now rewrite app_nil_r.
Qed.

Lemma grows_trans a b c : grows a b -> grows b c -> grows a c.
Proof.
  intros Hab Hbc Ha. destruct (Hab Ha) as [Hb [[l1 H1] S1]].
  destruct (Hbc Hb) as [Hc [[l2 H2] S2]].
  split; [exact Hc|]. split; [|set_solver].
  exists (l1 ++ l2)%list. now rewrite H2, H1, app_assoc.
Qed.

Lemma grows_mark l st : grows st (mark l st).
Proof.
  intros [Hnd Hin]. split; [|split].
  - split; [exact Hnd|]. intros k Hk. apply elem_of_union_r. now apply Hin.
  - exists []. now rewrite app_nil_r.
  - cbn. set_solver.
Qed.

Lemma grows_accept k v st :
  k ∉ arXiv.processed_links st ->
  grows st {| arXiv.entries := arXiv.dict_set k v (arXiv.entries st);
              arXiv.processed_links := {[k]} ∪ arXiv.processed_links st |}.
Proof.
  intros Hnew [Hnd Hin].
  assert (Hk : ~ In k (map fst (arXiv.entries st))).
  { intros H. apply Hnew. now apply Hin. }
  rewrite dict_set_new by exact Hk.
  split; [|split].
  - split.
    + unfold links. cbn [arXiv.entries]. rewrite map_app. cbn [map fst].
      apply NoDup_app. split; [exact Hnd|]. split.
      * intros x Hx Hx'. apply list_elem_of_In in Hx, Hx'.
        destruct Hx' as [<-|[]]. contradiction.
      * apply NoDup_singleton.
    + intros x. unfold links. cbn [arXiv.entries arXiv.processed_links].
      rewrite map_app, in_app_iff. cbn [map fst In].
      intros [Hx|[<-|[]]]; [apply elem_of_union_r; now apply Hin|].
      apply elem_of_union_l. now apply elem_of_singleton.
  - now eexists.
  - cbn. set_solver.
Qed.

(** One entry of a page. *)
Lemma arxiv_entry_grows E q days ex req e st w st' w' :
  arXiv.process_entry E q days ex req e st w = (Ok st', w') -> grows st st'.
Proof.
  intros Hrun.
  destruct (decide (arXiv.link e ∈ arXiv.processed_links st)) as [Hin|Hnew].
  - rewrite arXiv_entry_seen in Hrun by exact Hin.
    inversion Hrun; subst. apply grows_refl.
  - destruct (Strptime.iso (arXiv.published e)) as [d|] eqn:Hd.
    + destruct (geb (instant_of d) (minus_days (arXiv.now E) days)) eqn:Hwin.
      * rewrite (arXiv_entry_fresh E q days ex req e st w d Hnew Hd Hwin)
          in Hrun.
        destruct (any_in ex _);
          [inversion Hrun; subst; apply grows_mark|].
        destruct (_ || any_in req _); inversion Hrun; subst;
          [now apply grows_accept | apply grows_mark].
      * rewrite (arXiv_entry_old E q days ex req e st w d Hnew Hd Hwin)
          in Hrun.
        inversion Hrun; subst. apply grows_mark.
    + unfold arXiv.process_entry in Hrun.
      erewrite bind_run in Hrun by apply print_unless_run.
      rewrite bool_decide_eq_false_2, Hd in Hrun by exact Hnew.
      discriminate.
Qed.

(** A loop whose body respects a reflexive and transitive relation on the
    accumulated value respects it as a whole. *)
Lemma for_each_related {A St} (R : St -> St -> Prop) (body : A -> St -> M St) :
  (forall s, R s s) ->
  (forall a b c, R a b -> R b c -> R a c) ->
  (forall x acc w acc' w', body x acc w = (Ok acc', w') -> R acc acc') ->
  forall l acc w acc' w',
    for_each body l acc w = (Ok acc', w') -> R acc acc'.
Proof.
  intros Hrefl Htrans Hbody. induction l as [|x l IH];
    intros acc w acc' w' Hrun.
  - inversion Hrun; subst. apply Hrefl.
  - apply for_each_cons in Hrun as [acc1 [w1 [Hx Hl]]].
    eapply Htrans; [eapply Hbody; exact Hx | eapply IH; exact Hl].
Qed.

Lemma arxiv_paginate_grows E q days batch ex req fuel :
  forall keyword offset st w st' w',
    arXiv.paginate E q days batch ex req fuel keyword offset st w
    = (Ok st', w') -> grows st st'.
Proof.
  induction fuel as [|fuel IH]; intros keyword offset st w st' w' Hrun;
    [discriminate|].
  cbn [arXiv.paginate] in Hrun.
  erewrite bind_run in Hrun by reflexivity.
  destruct (arXiv.feed E _ _) as [|e es];
    [inversion Hrun; subst; apply grows_refl|].
  unfold mbind, M_bind in Hrun.
  destruct (for_each _ (e :: es) st _) as [[st1| | |] w1] eqn:Hpage;
    try discriminate.
  eapply grows_trans; [|eapply IH; exact Hrun].
  eapply (for_each_related grows); [apply grows_refl | apply grows_trans | |
                                    exact Hpage].
  intros. eapply arxiv_entry_grows. eassumption.
Qed.

(** In the arXiv script no URL is kept twice: after the loop over the
    keywords the links of the accumulated entries are pairwise distinct,
    each of them was noted as processed, and no entry accepted along the way
    was replaced or removed. *)
Theorem arxiv_links_are_distinct E q days batch ex req fuel keywords w st' w' :
  for_each (fun keyword st =>
              arXiv.paginate E q days batch ex req fuel keyword 0 st)
           keywords {| arXiv.entries := []; arXiv.processed_links := ∅ |} w
  = (Ok st', w') ->
  NoDup (links st') /\
  (forall k, In k (links st') -> k ∈ arXiv.processed_links st').
Proof.
  intros Hrun.
  assert (H : grows {| arXiv.entries := []; arXiv.processed_links := ∅ |} st').
  { eapply (for_each_related grows); [apply grows_refl | apply grows_trans | |
                                      exact Hrun].
    intros x acc w0 acc' w0' Hx. cbv beta in Hx.
    exact (arxiv_paginate_grows _ _ _ _ _ _ _ _ _ _ _ _ _ Hx). }
  destruct H as [Hd _]; [|exact Hd].
  split; [apply NoDup_nil_2 | intros k []].
Qed.

(** The theorem at a feed of three entries searched under two keywords:
    the second keyword meets the same three links again. *)
Lemma arxiv_links_are_distinct_witness :
  exists st' w',
    for_each (fun keyword st =>
                arXiv.paginate (arxiv_env None 3) true 10 100 ["cancer"] [] 5
                               keyword 0 st)
             ["oncology"; "study"]
             {| arXiv.entries := []; arXiv.processed_links := ∅ |} initial
    = (Ok st', w') /\
    NoDup (links st') /\
    (forall k, In k (links st') -> k ∈ arXiv.processed_links st').
Proof.
  destruct (for_each (fun keyword st =>
                        arXiv.paginate (arxiv_env None 3) true 10 100
                                       ["cancer"] [] 5 keyword 0 st)
                     ["oncology"; "study"]
                     {| arXiv.entries := []; arXiv.processed_links := ∅ |}
                     initial) as [[st'| | |] w'] eqn:Hrun;
    try (exfalso; vm_compute in Hrun; discriminate).
  exists st', w'. split; [reflexivity|].
  exact (arxiv_links_are_distinct _ _ _ _ _ _ _ _ _ _ _ Hrun).
Defined.

End DistinctLinks.


(** ** The digest of dated entries *)

Module SortedDigest.
Import Text Calendar Runtime Spec Notions Samples.
Import RunFacts Consolidation.

Lemma geb_total a b : geb a b = false -> geb b a = true.
Proof.
  destruct a as [a1 a2], b as [b1 b2]. unfold geb. cbn [fst snd].
  rewrite orb_false_iff, andb_false_iff, orb_true_iff, andb_true_iff.
  rewrite !Z.ltb_ge, !Z.ltb_lt, !Z.eqb_neq, !Z.eqb_eq, Z.leb_gt, Z.leb_le.
  lia.
Qed.

(** Inserting a dated entry in a list of dated entries sorted newest
    first. *)
Lemma insert_keeps_order x acc w :
  dated x -> Forall dated acc -> Sorted not_older acc ->
  exists acc',
    Summarise.insert_desc x acc w = (Ok acc', w) /\
    Permutation (x :: acc) acc' /\
    Sorted not_older acc' /\
    (forall y, not_older y x -> HdRel not_older y acc ->
               HdRel not_older y acc').
Proof.
  intros Hx. destruct (Summarise.date x) as [dx|] eqn:Hdx; [|now elim Hx].
  induction acc as [|y t IH]; intros Hacc Hs.
  - exists [x]. repeat split; auto.
  - apply Forall_cons_1 in Hacc as [Hy Ht].
    destruct (Summarise.date y) as [dy|] eqn:Hdy; [|now elim Hy].
    apply Sorted_inv in Hs as [Hst Hhd].
    cbn [Summarise.insert_desc]. rewrite Hdy, Hdx.
    unfold mbind at 1, M_bind, Summarise.key_lt, mret, M_ret.
    destruct (geb (instant_of dy) (instant_of dx)) eqn:Hge; cbn [negb].
    + destruct (IH Ht Hst) as [t' [Hrun [Hp [Hs' Hh]]]].
      erewrite bind_run by exact Hrun.
      exists (y :: t'). split; [reflexivity|]. split; [|split].
      * rewrite perm_swap. now constructor.
      * constructor; [exact Hs'|]. apply Hh; [|exact Hhd].
        now exists dy, dx.
      * intros z Hzx Hz. constructor. now inversion Hz.
    + exists (x :: y :: t). split; [reflexivity|]. split; [reflexivity|].
      split.
      * constructor; [now constructor|]. constructor.
        exists dx, dy. repeat split; auto. now apply geb_total.
      * intros z Hzx _. now constructor.
Qed.

Lemma sort_from_sorted l acc w :
  Forall dated l -> Forall dated acc -> Sorted not_older acc ->
  exists l',
    for_each Summarise.insert_desc l acc w = (Ok l', w) /\
    Permutation (l ++ acc) l' /\ Sorted not_older l'.
Proof.
  revert acc. induction l as [|x l IH]; intros acc Hl Hacc Hs.
  - exists acc. repeat split; auto.
  - apply Forall_cons_1 in Hl as [Hx Hl].
    destruct (insert_keeps_order x acc w Hx Hacc Hs)
      as [acc' [Hrun [Hp [Hs' _]]]].
    destruct (IH acc' Hl) as [l' [Hrun' [Hp' Hs'']]]; [|exact Hs'|].
    { rewrite <- Hp. now constructor. }
    exists l'. rewrite for_each_unfold. erewrite bind_run by exact Hrun.
    split; [exact Hrun'|]. split; [|exact Hs''].
    rewrite <- Hp', <- Hp. cbn [app]. apply Permutation_middle.
Qed.

Lemma gather_entries w :
  for_each (fun src acc =>
              file ← read_file (fst src);
              mret (acc ++ Summarise.extract_entries file)%list)
           Summarise.sources [] w
  = (Ok (all_entries w), w).
Proof.
  unfold all_entries, Summarise.sources. cbn [for_each flat_map fst].
  unfold mbind, M_bind, read_file, mret, M_ret. cbn [app].
  now rewrite app_nil_r, app_assoc.
Qed.

Lemma after_nothing w : after w [] [] = w.
Proof. destruct w. unfold after. cbn. now rewrite !app_nil_r. Qed.

Lemma after_after w ls ls' :
  after (after w [] ls) [] ls' = after w [] (ls ++ ls').
Proof. unfold after. cbn. now rewrite !app_nil_r, app_assoc. Qed.

Lemma report_one src w :
  Summarise.report_missing src tt w
  = (Ok tt,
     after w []
       (match files w !! fst src with
        | None => ["No entries were found for " +:+ snd src +:+ "."]
        | Some _ => []
        end)).
Proof.
  unfold Summarise.report_missing, mbind, M_bind, read_file.
  destruct (files w !! fst src).
  - now rewrite after_nothing.
  - unfold after, print. cbn. now rewrite app_nil_r.
Qed.

Lemma report_missing_run l w :
  for_each Summarise.report_missing l tt w
  = (Ok tt,
     after w []
       (flat_map (fun src : string * string =>
                    match files w !! fst src with
                    | None => ["No entries were found for " +:+ snd src +:+ "."]
                    | Some _ => []
                    end) l)).
Proof.
  revert w. induction l as [|src l IH]; intros w.
  - cbn [for_each flat_map]. now rewrite after_nothing.
  - rewrite for_each_unfold. cbn [flat_map].
    erewrite bind_run by apply report_one.
    rewrite IH. cbn [files after]. now rewrite after_after.
Qed.

Lemma missing_lines_insert c fs :
  missing_lines (<[Summarise.output_file := c]> fs) = missing_lines fs.
Proof.
  unfold missing_lines, Summarise.sources, Summarise.output_file.
  cbn [flat_map fst snd]. now rewrite !lookup_insert_ne by discriminate.
Qed.

(** When every extracted entry has a parsed date, the consolidation step
    ends normally: the digest it writes lists the same entries, each once,
    newest first; it then reports the source files that do not exist. *)
Theorem digest_of_dated_entries w :
  Forall dated (all_entries w) ->
  exists sorted,
    Permutation (all_entries w) sorted /\
    Sorted not_older sorted /\
    Summarise.main w
    = (Ok tt,
       {| stdout :=
            (stdout w ++
             ["Titles and URLs have been successfully written to /Scitify/output/titles_and_urls.txt."]
             ++ missing_lines (files w))%list;
          stderr := stderr w;
          requests := requests w;
          files := <[Summarise.output_file := Summarise.digest sorted]>
                     (files w) |}).
Proof.
  intros Hd.
  destruct (sort_from_sorted (all_entries w) [] w Hd) as [sorted [Hrun [Hp Hs]]];
    [constructor | constructor |].
  rewrite app_nil_r in Hp. exists sorted. split; [exact Hp|].
  split; [exact Hs|]. unfold Summarise.main.
  erewrite bind_run by apply gather_entries.
  erewrite bind_run by exact Hrun.
  erewrite bind_run by reflexivity.
  erewrite bind_run by reflexivity.
  rewrite report_missing_run. unfold after.
  cbn [stdout stderr requests files write_file print snd].
  fold (missing_lines (<[Summarise.output_file := Summarise.digest sorted]>
                         (files w))).
  rewrite missing_lines_insert. now rewrite app_nil_r, <- app_assoc.
Qed.

(** The theorem at a PubMed file of two dated records. *)
Lemma digest_of_dated_entries_witness :
  Forall dated (all_entries MoreSamples.two_dated) /\
  exists sorted,
    Permutation (all_entries MoreSamples.two_dated) sorted /\
    Sorted not_older sorted /\
    Summarise.main MoreSamples.two_dated
    = (Ok tt,
       {| stdout :=
            ["Titles and URLs have been successfully written to /Scitify/output/titles_and_urls.txt."]
            ++ missing_lines (files MoreSamples.two_dated);
          stderr := []; requests := [];
          files := <[Summarise.output_file := Summarise.digest sorted]>
                     (files MoreSamples.two_dated) |}).
Proof.
  assert (H : Forall dated (all_entries MoreSamples.two_dated)).
  { vm_compute. repeat constructor; discriminate. }
  split; [exact H|].
  exact (digest_of_dated_entries MoreSamples.two_dated H).
Defined.

End SortedDigest.

(** ** Dates written and read back *)

Module DateRoundTrip.
Import Text Calendar Strptime Runtime Spec Notions Samples.
Import TextFacts.

Lemma code_chr z : 0 <= z < 256 -> code (chr z) = z.
Proof.
  intros Hz. unfold code, chr.
  rewrite nat_ascii_embedding by lia. lia.
Qed.

(** A decimal digit is read back as its value. *)
Lemma one_digit k s :
  one "0" "9" (String (digit k) s) = Some (k mod 10, s).
Proof.
  unfold one, Calendar.in_range, digit_val, digit.
  pose proof (Z.mod_pos_bound k 10 ltac:(lia)) as Hr.
  rewrite code_chr by lia.
  change (code "0") with 48. change (code "9") with 57.
  destruct (Z.leb_spec 48 (48 + k mod 10)); [|lia].
  destruct (Z.leb_spec (48 + k mod 10) 57); [|lia].
  cbn [andb]. f_equal. f_equal. lia.
Qed.

Lemma two_digits n s :
  two "0" "9" "0" "9" (pad2 n +:+ s) = Some (n mod 100, s).
Proof.
  unfold two, pad2. rewrite !append_cons, append_nil.
  rewrite !one_digit. f_equal. f_equal.
  pose proof (Z.rem_mul_r n 10 10 ltac:(lia) ltac:(lia)) as H.
  change (10 * 10) with 100 in H. lia.
Qed.

Lemma year_read_back y s :
  0 <= y <= 9999 -> re_Y (pad4 y +:+ s) = Some (y, s).
Proof.
  intros Hy. unfold re_Y, pad4. rewrite app_assoc_s, !two_digits.
  f_equal. f_equal.
  rewrite (Z.mod_small (y / 100)) by (split; [apply Z.div_pos | apply Z.div_lt_upper_bound]; lia).
  pose proof (Z.div_mod y 100 ltac:(lia)). lia.
Qed.

Lemma month_read_back m s :
  1 <= m <= 12 -> re_m (pad2 m +:+ s) = Some (m, s).
Proof.
  intros Hm.
  assert (H : m = 1 \/ m = 2 \/ m = 3 \/ m = 4 \/ m = 5 \/ m = 6 \/ m = 7 \/
              m = 8 \/ m = 9 \/ m = 10 \/ m = 11 \/ m = 12) by lia.
  repeat (destruct H as [->|H]; [reflexivity|]). now subst.
Qed.

Lemma day_read_back d s :
  1 <= d <= 31 -> re_d (pad2 d +:+ s) = Some (d, s).
Proof.
  intros Hd.
  assert (H : d = 1 \/ d = 2 \/ d = 3 \/ d = 4 \/ d = 5 \/ d = 6 \/ d = 7 \/
              d = 8 \/ d = 9 \/ d = 10 \/ d = 11 \/ d = 12 \/ d = 13 \/
              d = 14 \/ d = 15 \/ d = 16 \/ d = 17 \/ d = 18 \/ d = 19 \/
              d = 20 \/ d = 21 \/ d = 22 \/ d = 23 \/ d = 24 \/ d = 25 \/
              d = 26 \/ d = 27 \/ d = 28 \/ d = 29 \/ d = 30 \/ d = 31) by lia.
  repeat (destruct H as [->|H]; [reflexivity|]). now subst.
Qed.

Lemma days_in_month_le y m : days_in_month y m <= 31.
Proof.
  unfold days_in_month.
  destruct (m =? 2); [destruct (is_leap y); lia|].
  destruct (_ || _); lia.
Qed.

Lemma lit_dash s : lit "-" ("-" +:+ s) = Some s.
Proof. reflexivity. Qed.

Lemma valid_bounds t :
  valid t = true ->
  1 <= year t <= 9999 /\ 1 <= month t <= 12 /\
  1 <= day t <= days_in_month (year t) (month t).
Proof.
  unfold valid. rewrite !andb_true_iff, !Z.leb_le. tauto.
Qed.

Lemma make_midnight t :
  valid t = true ->
  make (year t) (month t) (day t) 0 0 0 = Some (midnight t).
Proof.
  intros Hv. pose proof (valid_bounds t Hv) as [Hy [Hm Hd]].
  unfold make, midnight.
  set (t0 := {| year := year t; month := month t; day := day t;
                hour := 0; minute := 0; second := 0; microsecond := 0 |}).
  assert (H : valid t0 = true).
  { unfold valid, t0. cbn [year month day hour minute second microsecond].
    rewrite !andb_true_iff, !Z.leb_le. lia. }
  now rewrite H.
Qed.

Lemma unpadded_four y : 1000 <= y -> unpadded y = pad4 y.
Proof.
  intros Hy. unfold unpadded.
  destruct (Z.ltb_spec y 10); [lia|].
  destruct (Z.ltb_spec y 100); [lia|].
  destruct (Z.ltb_spec y 1000); [lia|]. reflexivity.
Qed.

Lemma no_digit_dash s : one "0" "9" ("-" +:+ s) = None.
Proof. reflexivity. Qed.

(** A year written with fewer than four digits is not read as a year. *)
Lemma short_year_not_read y s :
  y < 1000 -> re_Y (unpadded y +:+ "-" +:+ s) = None.
Proof.
  intros Hy. unfold unpadded.
  destruct (Z.ltb_spec y 10).
  - unfold re_Y, two. rewrite append_cons, append_nil, one_digit.
    cbv beta iota. now rewrite no_digit_dash.
  - destruct (Z.ltb_spec y 100).
    + unfold re_Y. rewrite two_digits. cbv beta iota. unfold two.
      now rewrite no_digit_dash.
    + destruct (Z.ltb_spec y 1000); [|lia].
      unfold re_Y, pad2. rewrite !append_cons, append_nil. unfold two.
      rewrite !one_digit. cbv beta iota. rewrite ?one_digit.
      reflexivity.
Qed.

(** The day a [Date] line holds is read back as written when its year has
    four digits. *)
Lemma date_read_back t :
  valid t = true -> 1000 <= year t ->
  Strptime.ymd (strftime_ymd t) = Some (midnight t).
Proof.
  intros Hv Hfour. pose proof (valid_bounds t Hv) as [Hy [Hm Hd]].
  pose proof (days_in_month_le (year t) (month t)) as Hle.
  unfold Strptime.ymd, strftime_ymd. rewrite unpadded_four by exact Hfour.
  rewrite year_read_back by lia. cbn [mbind option_bind].
  rewrite lit_dash. cbn [mbind option_bind].
  rewrite month_read_back by lia. cbn [mbind option_bind].
  rewrite lit_dash. cbn [mbind option_bind].
  rewrite <- (append_nil_r (pad2 (day t))).
  rewrite day_read_back by lia. cbn [mbind option_bind].
  now apply make_midnight.
Qed.

(** A day of a year before 1000, written without padding, is not read. *)
Lemma early_date_not_read t :
  year t < 1000 -> Strptime.ymd (strftime_ymd t) = None.
Proof.
  intros Hshort. unfold Strptime.ymd, strftime_ymd.
  now rewrite short_year_not_read.
Qed.

End DateRoundTrip.


(** ** Records read back by the consolidation step *)

Module ReadBack.
Import Text Calendar Runtime Spec Notions Samples.
Import TextFacts RecordFormat.

Lemma split_lines_nonempty s : split_lines s <> [].
Proof.
  destruct s as [|c s]; [discriminate|]. cbn [split_lines].
  destruct (Ascii.eqb c LF); [discriminate|].
  destruct (split_lines s); discriminate.
Qed.

(** Text that ends a line, followed by more text. *)
Lemma split_lines_after_newline a b ls :
  split_lines a = (ls ++ [EmptyString])%list ->
  split_lines (a +:+ b) = (ls ++ split_lines b)%list.
Proof.
  revert ls. induction a as [|c a IH]; intros ls H.
  - cbn [split_lines] in H. destruct ls as [|x [|y ls]]; try discriminate.
    reflexivity.
  - rewrite append_cons. cbn [split_lines] in *.
    destruct (Ascii.eqb c LF).
    + destruct ls as [|x ls].
      * injection H as H. now apply split_lines_nonempty in H.
      * injection H as <- H. cbn [app]. f_equal. now apply IH.
    + destruct (split_lines a) as [|l rest] eqn:Ha;
        [now apply split_lines_nonempty in Ha|].
      destruct ls as [|x ls]; [destruct rest; discriminate|].
      injection H as <- H. rewrite (IH (l :: ls)) by (cbn [app]; now f_equal).
      reflexivity.
Qed.

Lemma concat_cons r rs :
  String.concat "" (r :: rs) = r +:+ String.concat "" rs.
Proof.
  destruct rs as [|r' rs]; cbn [String.concat].
  - now rewrite append_nil_r.
  - reflexivity.
Qed.

Lemma no_cr_app a b : no_cr (a +:+ b) = no_cr a && no_cr b.
Proof.
  induction a as [|c a IH]; [reflexivity|].
  rewrite append_cons. cbn [no_cr]. rewrite IH. now rewrite andb_assoc.
Qed.

(** Without carriage returns the lines read are the lines between the line
    feeds. *)
Lemma text_lines_no_cr s : no_cr s = true -> text_lines false s = split_lines s.
Proof.
  induction s as [|c s IH]; [reflexivity|].
  cbn [no_cr text_lines split_lines]. intros H.
  apply andb_true_iff in H as [Hc Hs]. apply negb_true_iff in Hc.
  rewrite Hc, (IH Hs). reflexivity.
Qed.

Lemma file_lines_closed content ls :
  no_cr content = true ->
  split_lines content = (ls ++ [EmptyString])%list ->
  Summarise.file_lines content = ls.
Proof.
  intros Hcr H. unfold Summarise.file_lines.
  rewrite (text_lines_no_cr _ Hcr), H, last_snoc.
  apply removelast_last.
Qed.

(** A file made of complete records is read back record by record. *)
Lemma records_read_back (rs : list (string * (list string * Summarise.entry))) :
  Forall (fun r => no_cr (fst r) = true /\
                   split_lines (fst r) = (fst (snd r) ++ [EmptyString])%list /\
                   reads_as (fst (snd r)) (snd (snd r))) rs ->
  Summarise.extract_entries (Some (String.concat "" (map fst rs)))
  = map (fun r => snd (snd r)) rs.
Proof.
  intros Hrs. unfold Summarise.extract_entries.
  assert (Hl : split_lines (String.concat "" (map fst rs))
               = (flat_map (fun r => fst (snd r)) rs ++ [EmptyString])%list).
  { induction Hrs as [|r rs [_ [Hr _]] _ IH]; [reflexivity|].
    cbn [map flat_map]. rewrite concat_cons.
    rewrite (split_lines_after_newline _ _ _ Hr), IH.
    now rewrite app_assoc. }
  assert (Hcr : no_cr (String.concat "" (map fst rs)) = true).
  { clear Hl. induction Hrs as [|r rs [Hr _] _ IH]; [reflexivity|].
    cbn [map]. now rewrite concat_cons, no_cr_app, Hr, IH. }
  rewrite (file_lines_closed _ _ Hcr Hl).
  enough (H : forall acc,
             fold_left Summarise.read_line
                       (flat_map (fun r => fst (snd r)) rs)
                       (Summarise.blank, acc)
             = (Summarise.blank, (acc ++ map (fun r => snd (snd r)) rs)%list))
    by (now rewrite H).
  clear Hl Hcr. induction Hrs as [|r rs [_ [_ Hr]] _ IH]; intros acc.
  - cbn. now rewrite app_nil_r.
  - cbn [flat_map map]. rewrite fold_left_app, Hr, IH.
    rewrite <- app_assoc. reflexivity.
Qed.

(** A record made of values without carriage return holds none. *)
Ltac record_without_cr H :=
  repeat match type of H with
         | Forall _ (_ :: _) =>
             let Hx := fresh "Hx" in
             apply Forall_cons in H as [Hx H]; cbn [snd] in Hx
         end;
  rewrite !no_cr_app;
  repeat match goal with
         | Hx : no_cr _ = true |- _ => rewrite Hx; clear Hx
         end;
  reflexivity.

Lemma pubmed_record_no_cr v :
  without_cr (pubmed_value_fields v) -> no_cr (pubmed_record v) = true.
Proof.
  unfold without_cr, pubmed_value_fields, pubmed_record, PubMed.entry.
  intros H. record_without_cr H.
Qed.

Lemma arxiv_record_no_cr e d :
  without_cr (arxiv_fields e d) -> no_cr (arXiv.entry_data e d) = true.
Proof.
  unfold without_cr, arxiv_fields, arXiv.entry_data.
  intros H. record_without_cr H.
Qed.

Lemma biorxiv_record_no_cr i :
  without_cr (biorxiv_fields i) -> no_cr (bioRxiv.entry i) = true.
Proof.
  unfold without_cr, biorxiv_fields, bioRxiv.entry.
  intros H. record_without_cr H.
Qed.

Lemma lstrip_keep c t : is_space c = false -> lstrip (String c t) = String c t.
Proof. intros H. cbn [lstrip]. now rewrite H. Qed.

Lemma rstrip_keep c t :
  is_space c = false -> rstrip (String c t) = String c (rstrip t).
Proof. intros H. cbn [rstrip]. rewrite H. now destruct (rstrip t). Qed.

Lemma rstrip_space t :
  rstrip (String " " t)
  = match rstrip t with
    | EmptyString => EmptyString
    | String a b => String " " (String a b)
    end.
Proof. cbn [rstrip]. now destruct (rstrip t). Qed.

(** Reads the line of one field: the label is known, the value is not. *)
Ltac read_field v :=
  unfold Summarise.read_line, strip;
  rewrite !append_cons, ?append_nil;
  rewrite lstrip_keep by reflexivity;
  rewrite !rstrip_keep by reflexivity;
  rewrite rstrip_space;
  destruct (rstrip v); reflexivity.

Lemma read_title e acc v :
  Summarise.read_line (e, acc) ("Title" +:+ ": " +:+ v)
  = ({| Summarise.p_title := Some (rstrip v);
        Summarise.p_date := Summarise.p_date e;
        Summarise.p_url := Summarise.p_url e |}, acc).
Proof. read_field v. Qed.

Lemma read_date e acc v :
  Summarise.read_line (e, acc) ("Date" +:+ ": " +:+ v)
  = ({| Summarise.p_title := Summarise.p_title e;
        Summarise.p_date := Some (Strptime.ymd (rstrip v));
        Summarise.p_url := Summarise.p_url e |}, acc).
Proof. read_field v. Qed.

Lemma read_url e acc v :
  Summarise.read_line (e, acc) ("URL" +:+ ": " +:+ v)
  = ({| Summarise.p_title := Summarise.p_title e;
        Summarise.p_date := Summarise.p_date e;
        Summarise.p_url := Some (rstrip v) |}, acc).
Proof. read_field v. Qed.

Lemma read_authors st v :
  Summarise.read_line st ("Authors" +:+ ": " +:+ v) = st.
Proof. destruct st as [e acc]. read_field v. Qed.

Lemma read_journal st v :
  Summarise.read_line st ("Journal" +:+ ": " +:+ v) = st.
Proof. destruct st as [e acc]. read_field v. Qed.

Lemma read_abstract st v :
  Summarise.read_line st ("Abstract" +:+ ": " +:+ v) = st.
Proof. destruct st as [e acc]. read_field v. Qed.

Lemma read_doi st v :
  Summarise.read_line st ("DOI" +:+ ": " +:+ v) = st.
Proof. destruct st as [e acc]. read_field v. Qed.

Lemma field_lines_closed fields :
  field_lines fields
  = ((map (fun f => fst f +:+ ": " +:+ snd f) fields ++ [EmptyString])
     ++ [EmptyString])%list.
Proof. unfold field_lines. now rewrite <- app_assoc. Qed.

Lemma pubmed_lines_read v :
  reads_as
    (map (fun f => fst f +:+ ": " +:+ snd f) (pubmed_value_fields v)
     ++ [EmptyString])
    (read_back (v_title v) (v_date v) (v_url v)).
Proof.
  intros acc. unfold pubmed_value_fields. cbn [map app fold_left fst snd].
  now rewrite read_title, read_authors, read_journal, read_date, read_url,
    read_abstract.
Qed.

Lemma arxiv_lines_read e d :
  reads_as
    (map (fun f => fst f +:+ ": " +:+ snd f) (arxiv_fields e d)
     ++ [EmptyString])
    (read_back (arXiv.clean_title e) (Strptime.strftime_ymd d) (arXiv.link e)).
Proof.
  intros acc. unfold arxiv_fields. cbn [map app fold_left fst snd].
  now rewrite read_title, read_authors, read_date, read_url, read_abstract.
Qed.

Lemma biorxiv_lines_read i :
  reads_as
    (map (fun f => fst f +:+ ": " +:+ snd f) (biorxiv_fields i)
     ++ [EmptyString])
    (read_back (bioRxiv.title i) (bioRxiv.date i)
               ("https://doi.org/" +:+ bioRxiv.doi i)).
Proof.
  intros acc. unfold biorxiv_fields. cbn [map app fold_left fst snd].
  now rewrite read_title, read_authors, read_date, read_doi, read_url,
    read_abstract.
Qed.

(** The file of PubMed records, made of values that hold no line feed and
    no carriage return, is read back by the consolidation step record by
    record: one entry per record, in the order written, with the title, the
    date string handed to [strptime] and the URL of the record, less their
    trailing whitespace. *)
Theorem pubmed_file_is_read_back (vs : list pubmed_values) :
  Forall (fun v => pubmed_one_line v /\ without_cr (pubmed_value_fields v)) vs ->
  Summarise.extract_entries (Some (String.concat "" (map pubmed_record vs)))
  = map (fun v => read_back (v_title v) (v_date v) (v_url v)) vs.
Proof.
  intros Hvs.
  pose (pack := fun v : pubmed_values =>
          (pubmed_record v,
           ((map (fun f => fst f +:+ ": " +:+ snd f) (pubmed_value_fields v)
             ++ [EmptyString])%list,
            read_back (v_title v) (v_date v) (v_url v)))).
  replace (map pubmed_record vs) with (map fst (map pack vs))
    by (rewrite map_map; reflexivity).
  rewrite records_read_back; [now rewrite map_map|].
  apply Forall_map. eapply Forall_impl; [exact Hvs|].
  intros v [Hv Hcr]. cbn [pack fst snd].
  split; [now apply pubmed_record_no_cr|].
  split; [|apply pubmed_lines_read].
  unfold pubmed_record. rewrite pubmed_entry_lines by exact Hv.
  apply field_lines_closed.
Qed.

(** The same for the file of arXiv records. *)
Theorem arxiv_file_is_read_back (es : list (arXiv.entry * datetime)) :
  Forall (fun r => one_line_each (arxiv_fields (fst r) (snd r)) /\
                   without_cr (arxiv_fields (fst r) (snd r))) es ->
  Summarise.extract_entries
    (Some (String.concat ""
             (map (fun r => arXiv.entry_data (fst r) (snd r)) es)))
  = map (fun r => read_back (arXiv.clean_title (fst r))
                            (Strptime.strftime_ymd (snd r))
                            (arXiv.link (fst r))) es.
Proof.
  intros Hes.
  pose (pack := fun r : arXiv.entry * datetime =>
          (arXiv.entry_data (fst r) (snd r),
           ((map (fun f => fst f +:+ ": " +:+ snd f)
                 (arxiv_fields (fst r) (snd r)) ++ [EmptyString])%list,
            read_back (arXiv.clean_title (fst r))
                      (Strptime.strftime_ymd (snd r))
                      (arXiv.link (fst r))))).
  replace (map (fun r => arXiv.entry_data (fst r) (snd r)) es)
    with (map fst (map pack es)) by (rewrite map_map; reflexivity).
  rewrite records_read_back; [now rewrite map_map|].
  apply Forall_map. eapply Forall_impl; [exact Hes|].
  intros r [Hr Hcr]. cbn [pack fst snd].
  split; [now apply arxiv_record_no_cr|].
  split; [|apply arxiv_lines_read].
  rewrite arxiv_entry_lines by exact Hr. apply field_lines_closed.
Qed.

(** The same for the file of bioRxiv records, whose [DOI] line is passed
    over. *)
Theorem biorxiv_file_is_read_back (items : list bioRxiv.item) :
  Forall (fun i => one_line_each (biorxiv_fields i) /\
                   without_cr (biorxiv_fields i)) items ->
  Summarise.extract_entries
    (Some (String.concat "" (map bioRxiv.entry items)))
  = map (fun i => read_back (bioRxiv.title i) (bioRxiv.date i)
                            ("https://doi.org/" +:+ bioRxiv.doi i)) items.
Proof.
  intros Hitems.
  pose (pack := fun i : bioRxiv.item =>
          (bioRxiv.entry i,
           ((map (fun f => fst f +:+ ": " +:+ snd f) (biorxiv_fields i)
             ++ [EmptyString])%list,
            read_back (bioRxiv.title i) (bioRxiv.date i)
                      ("https://doi.org/" +:+ bioRxiv.doi i)))).
  replace (map bioRxiv.entry items) with (map fst (map pack items))
    by (rewrite map_map; reflexivity).
  rewrite records_read_back; [now rewrite map_map|].
  apply Forall_map. eapply Forall_impl; [exact Hitems|].
  intros i [Hi Hcr]. cbn [pack fst snd].
  split; [now apply biorxiv_record_no_cr|].
  split; [|apply biorxiv_lines_read].
  rewrite biorxiv_entry_lines by exact Hi. apply field_lines_closed.
Qed.

(** The theorems at two PubMed records, one arXiv record and two bioRxiv
    records. *)
Lemma pubmed_file_is_read_back_witness :
  Forall (fun v => pubmed_one_line v /\ without_cr (pubmed_value_fields v))
         [MoreSamples.dated_values; MoreSamples.undated_values]
  /\
  map Summarise.title
      (Summarise.extract_entries
         (Some (String.concat ""
                  (map pubmed_record
                       [MoreSamples.dated_values; MoreSamples.undated_values]))))
  = ["Pancreatic Cancer Cells"; "No Title"].
Proof.
  assert (H : Forall (fun v => pubmed_one_line v /\
                               without_cr (pubmed_value_fields v))
                     [MoreSamples.dated_values; MoreSamples.undated_values])
    by (repeat constructor).
  split; [exact H|].
  now rewrite (pubmed_file_is_read_back _ H).
Defined.

Lemma arxiv_file_is_read_back_witness :
  Forall (fun r => one_line_each (arxiv_fields (fst r) (snd r)) /\
                   without_cr (arxiv_fields (fst r) (snd r)))
         [(second_version, published_day)]
  /\
  Summarise.extract_entries
    (Some (String.concat ""
             (map (fun r => arXiv.entry_data (fst r) (snd r))
                  [(second_version, published_day)])))
  = [{| Summarise.title := "Oncology of tumours";
        Summarise.date := Some (midnight published_day);
        Summarise.url := "http://arxiv.org/abs/2410.00001" |}].
Proof.
  assert (H : Forall (fun r => one_line_each (arxiv_fields (fst r) (snd r)) /\
                               without_cr (arxiv_fields (fst r) (snd r)))
                     [(second_version, published_day)])
    by (repeat constructor).
  split; [exact H|].
  now rewrite (arxiv_file_is_read_back _ H).
Defined.

Lemma biorxiv_file_is_read_back_witness :
  Forall (fun i => one_line_each (biorxiv_fields i) /\
                   without_cr (biorxiv_fields i)) [rna_only; title_only]
  /\
  map Summarise.title
      (Summarise.extract_entries
         (Some (String.concat "" (map bioRxiv.entry [rna_only; title_only]))))
  = ["Small RNA maps"; "CRISPR screens"].
Proof.
  assert (H : Forall (fun i => one_line_each (biorxiv_fields i) /\
                               without_cr (biorxiv_fields i))
                     [rna_only; title_only])
    by (repeat constructor).
  split; [exact H|].
  now rewrite (biorxiv_file_is_read_back _ H).
Defined.

End ReadBack.

(** ** The date line of an arXiv record *)

Module DateLine.
Import Text Calendar Strptime Runtime Spec Notions Samples.
Import TextFacts DateRoundTrip ReadBack.

Lemma digit_not_space k : is_space (digit k) = false.
Proof.
  unfold is_space, digit.
  pose proof (Z.mod_pos_bound k 10 ltac:(lia)) as Hr.
  rewrite code_chr by lia.
  destruct (Z.leb_spec (48 + k mod 10) 13); [lia|].
  destruct (Z.leb_spec (48 + k mod 10) 32); [lia|].
  now rewrite !andb_false_r.
Qed.

Lemma spaceless_app a b : spaceless (a +:+ b) = spaceless a && spaceless b.
Proof.
  induction a as [|c a IH]; [reflexivity|].
  rewrite append_cons. cbn [spaceless]. rewrite IH. now rewrite andb_assoc.
Qed.

Lemma rstrip_spaceless s : spaceless s = true -> rstrip s = s.
Proof.
  induction s as [|c s IH]; [reflexivity|]. cbn [spaceless]. intros H.
  apply andb_true_iff in H as [Hc Hs]. apply negb_true_iff in Hc.
  rewrite rstrip_keep by exact Hc. now rewrite IH.
Qed.

Lemma pad2_spaceless n : spaceless (pad2 n) = true.
Proof. unfold pad2. cbn [spaceless]. now rewrite !digit_not_space. Qed.

Lemma unpadded_spaceless y : spaceless (unpadded y) = true.
Proof.
  unfold unpadded, pad4.
  destruct (y <? 10); [|destruct (y <? 100); [|destruct (y <? 1000)]];
    rewrite ?spaceless_app; cbn [spaceless];
    now rewrite ?digit_not_space, ?pad2_spaceless.
Qed.

Lemma strftime_spaceless t : spaceless (strftime_ymd t) = true.
Proof.
  unfold strftime_ymd. rewrite !spaceless_app.
  now rewrite unpadded_spaceless, !pad2_spaceless.
Qed.

(** The [Date] line the arXiv script writes, read by the consolidation
    script.  For a day of a year with four digits the entry gets that day
    as its date.  A day of a year before 1000 is written without padding,
    [strptime] raises on it, and the entry gets [None]. *)
Theorem arxiv_date_line_is_read_back d st acc :
  valid d = true ->
  Summarise.read_line (st, acc) ("Date" +:+ ": " +:+ strftime_ymd d)
  = ({| Summarise.p_title := Summarise.p_title st;
        Summarise.p_date :=
          Some (if 1000 <=? year d then Some (midnight d) else None);
        Summarise.p_url := Summarise.p_url st |}, acc).
Proof.
  intros Hv. rewrite read_date, (rstrip_spaceless _ (strftime_spaceless d)).
  destruct (Z.leb_spec 1000 (year d)) as [Hfour|Hshort].
  - now rewrite date_read_back.
  - now rewrite early_date_not_read.
Qed.

(** The theorem at the publication day of the sample entries, and at the
    fifth of January 999. *)
Lemma arxiv_date_line_is_read_back_witness :
  (valid published_day = true /\
   Summarise.read_line (Summarise.blank, []) "Date: 2024-10-18"
   = ({| Summarise.p_title := None;
         Summarise.p_date := Some (Some (midnight published_day));
         Summarise.p_url := None |}, []))
  /\
  (valid early_day = true /\
   strftime_ymd early_day = "999-01-05" /\
   Summarise.read_line (Summarise.blank, []) "Date: 999-01-05"
   = ({| Summarise.p_title := None; Summarise.p_date := Some None;
         Summarise.p_url := None |}, [])).
Proof.
  assert (H : valid published_day = true) by reflexivity.
  assert (H' : valid early_day = true) by reflexivity.
  split.
  - split; [exact H|].
    exact (arxiv_date_line_is_read_back published_day Summarise.blank [] H).
  - split; [exact H'|]. split; [reflexivity|].
    exact (arxiv_date_line_is_read_back early_day Summarise.blank [] H').
Defined.

End DateLine.

(** ** A service that fails on every call *)

Module ServiceDown.
Import Text Config Runtime Spec Notions Samples.
Import RunFacts Consolidation SortedDigest.

Lemma after_then w rs ls rs' ls' :
  after (after w rs ls) rs' ls' = after w (rs ++ rs') (ls ++ ls').
Proof. unfold after. cbn. now rewrite !app_assoc. Qed.

Lemma after_none w : after w [] [] = w.
Proof. apply after_nothing. Qed.

(** One keyword of the PubMed script when the search call raises. *)
Lemma pubmed_keyword_down E q sd ed batch journals fuel query entries w msg :
  (forall n r, PubMed.esearch E n r = Fails msg) ->
  PubMed.paginate E q sd ed batch journals (S fuel) query 0 entries w
  = (Ok entries,
     after w [Esearch query sd ed batch 0] ["Error querying PubMed: " +:+ msg]).
Proof.
  intros Hdown. cbn [PubMed.paginate].
  erewrite bind_run by reflexivity. rewrite Hdown.
  erewrite bind_run by reflexivity. reflexivity.
Qed.

Lemma pubmed_keywords_down E q sd ed batch journals ex fuel msg :
  (forall n r, PubMed.esearch E n r = Fails msg) ->
  forall kws w,
    for_each (fun keyword entries =>
                PubMed.paginate E q sd ed batch journals (S fuel)
                                (PubMed.build_query keyword journals ex)
                                0 entries)
             kws [] w
    = (Ok [],
       after w
         (map (fun keyword =>
                 Esearch (PubMed.build_query keyword journals ex) sd ed batch 0)
              kws)
         (map (fun _ => "Error querying PubMed: " +:+ msg) kws)).
Proof.
  intros Hdown kws. induction kws as [|k ks IH]; intros w.
  - cbn [for_each map]. now rewrite after_none.
  - rewrite for_each_unfold.
    erewrite bind_run by (now apply pubmed_keyword_down).
    rewrite IH, after_then. reflexivity.
Qed.

(** When every search call raises, the PubMed script, run with its flags, a
    keyword file that lists keywords and a start date within the calendar,
    makes exactly one search per keyword, each at offset 0, logs one error
    per keyword, reports that nothing matched, writes no file and ends
    normally. *)
Theorem pubmed_survives_failing_searches E a fuel days batch address k msg w :
  PubMed.days_before_today a = Some days ->
  PubMed.batch_size a = Some batch ->
  PubMed.email a = Some address ->
  (forall w0, load_keywords_from_file_journals (PubMed.keywords_file E) w0
              = (Ok (Some k), w0)) ->
  keywords k <> [] ->
  Calendar.can_go_back (PubMed.today E) days = true ->
  (forall n r, PubMed.esearch E n r = Fails msg) ->
  PubMed.main E a (S fuel) w
  = (Ok tt,
     after w
       (map (fun keyword =>
               Esearch (PubMed.build_query keyword (journals_of_interest k)
                                           (exclude_keywords k))
                       (PubMed.today E - days) (PubMed.today E) batch 0)
            (keywords k))
       (map (fun _ => "Error querying PubMed: " +:+ msg) (keywords k)
        ++ ["No matching entries found for the given keywords."])).
Proof.
  intros Hdays Hbatch Hemail Hload Hk Hgo Hdown.
  unfold PubMed.main.
  erewrite bind_run.
  2:{ unfold PubMed.collect. erewrite bind_run by apply Hload.
      rewrite Hdays, Hbatch, Hemail. unfold keyword_errors, missing_flag.
      destruct (keywords k) as [|k0 ks] eqn:Hkw; [contradiction|].
      cbn [app]. rewrite Hgo, <- Hkw. now apply pubmed_keywords_down. }
  unfold PubMed.write_entries, print, after.
  cbn [fst snd stdout stderr requests files].
  now rewrite app_assoc.
Qed.

(** One keyword of the bioRxiv script when the reply is a refusal. *)
Lemma biorxiv_keyword_refused E q sd ed batch ex req fuel keyword entries w :
  (forall n r, exists resp,
      bioRxiv.get E n r = Returns resp /\ refusal resp) ->
  bioRxiv.paginate E q sd ed batch ex req (S fuel) keyword 0 entries w
  = (Ok entries,
     after w [BiorxivDetails sd ed 0]
           ["Failed to retrieve data from bioRxiv. Please try again later."]).
Proof.
  intros Hdown. cbn [bioRxiv.paginate].
  erewrite bind_run by reflexivity.
  destruct (Hdown (length (requests w)) (BiorxivDetails sd ed 0))
    as [resp [-> Hbad]].
  unfold refusal in Hbad.
  destruct (bioRxiv.content resp) as [|data|stops]; [contradiction| |].
  - destruct (Z.eqb_spec (bioRxiv.status_code resp) 200) as [H200|Hne].
    + destruct Hbad as [Hbad| ->]; [contradiction|].
      erewrite bind_run by reflexivity. reflexivity.
    + destruct data as [[|i l]|]; erewrite bind_run by reflexivity;
        reflexivity.
  - destruct (Z.eqb_spec (bioRxiv.status_code resp) 200) as [H200|Hne].
    + destruct Hbad as [Hbad| ->]; [contradiction|].
      cbn [andb]. erewrite bind_run by reflexivity. reflexivity.
    + cbn [andb]. erewrite bind_run by reflexivity. reflexivity.
Qed.

(** The bioRxiv script, run without [--help], with its flags, a keyword
    file that lists keywords and dates within the calendar.  When every
    reply decodes and is
    a refusal (the status is not 200; or the body is an object without
    [collection], or another JSON value in which the test for that key is
    false), the script makes exactly one request per keyword, logs one
    failure per keyword, reports that nothing matched, writes no file and
    ends normally.  When the first reply has status 200 and a JSON body on
    which the test for the key or the subscript raises, such as [null], the
    run ends there with that [TypeError]. *)
Theorem biorxiv_survives_refusals E a fuel days batch k w :
  bioRxiv.help a = false ->
  bioRxiv.days_before_today a = Some days ->
  bioRxiv.batch_size a = Some batch ->
  (forall w0, load_keywords_from_file (bioRxiv.keywords_file E) w0
              = (Ok (Some k), w0)) ->
  keywords k <> [] ->
  Calendar.can_go_back (bioRxiv.today E) days = true ->
  Calendar.can_go_back (bioRxiv.today E) 1 = true ->
  ((forall n r, exists resp,
       bioRxiv.get E n r = Returns resp /\ refusal resp) ->
   bioRxiv.main E a (S fuel) w
   = (Ok tt,
      after w
        (map (fun _ => BiorxivDetails (bioRxiv.today E - days)
                                      (bioRxiv.today E - 1) 0)
             (keywords k))
        (map (fun _ =>
                "Failed to retrieve data from bioRxiv. Please try again later.")
             (keywords k)
         ++ ["No matching entries found for the given keywords."])))
  /\
  (bioRxiv.get E (length (requests w))
               (BiorxivDetails (bioRxiv.today E - days) (bioRxiv.today E - 1) 0)
   = Returns {| bioRxiv.status_code := 200;
                bioRxiv.content := bioRxiv.NotObject true |} ->
   bioRxiv.main E a (S fuel) w
   = (Raised TypeError,
      after w [BiorxivDetails (bioRxiv.today E - days) (bioRxiv.today E - 1) 0]
            [])).
Proof.
  intros Hhelp Hdays Hbatch Hload Hk Hgo Hgo1.
  assert (Hc : bioRxiv.collect E a (S fuel) w
               = for_each (fun keyword entries =>
                             bioRxiv.paginate E (bioRxiv.quiet a)
                               (bioRxiv.today E - days) (bioRxiv.today E - 1)
                               batch (exclude_keywords k) (required_keywords k)
                               (S fuel) keyword 0 entries)
                          (keywords k) [] w).
  { unfold bioRxiv.collect. rewrite Hhelp.
    erewrite bind_run by apply Hload.
    rewrite Hdays, Hbatch. unfold keyword_errors, missing_flag.
    destruct (keywords k) as [|k0 ks] eqn:Hkw; [contradiction|].
    cbn [app]. now rewrite Hgo, Hgo1. }
  split.
  - intros Hdown.
    assert (Hloop : forall kws w0,
               for_each (fun keyword entries =>
                           bioRxiv.paginate E (bioRxiv.quiet a)
                             (bioRxiv.today E - days) (bioRxiv.today E - 1)
                             batch (exclude_keywords k) (required_keywords k)
                             (S fuel) keyword 0 entries)
                        kws [] w0
               = (Ok [],
                  after w0
                    (map (fun _ => BiorxivDetails (bioRxiv.today E - days)
                                                  (bioRxiv.today E - 1) 0) kws)
                    (map (fun _ =>
                            "Failed to retrieve data from bioRxiv. Please try again later.")
                         kws))).
    { induction kws as [|kw kws IH]; intros w0.
      - cbn [for_each map]. now rewrite after_none.
      - rewrite for_each_unfold.
        erewrite bind_run by (now apply biorxiv_keyword_refused).
        rewrite IH, after_then. reflexivity. }
    unfold bioRxiv.main.
    erewrite bind_run by (rewrite Hc; apply Hloop).
    unfold bioRxiv.write_entries, print, after.
    cbn [fst snd stdout stderr requests files].
    now rewrite app_assoc.
  - intros Hnull. unfold bioRxiv.main. apply bind_raised. rewrite Hc.
    destruct (keywords k) as [|k0 ks]; [contradiction|].
    rewrite for_each_unfold. apply bind_raised.
    cbn [bioRxiv.paginate]. erewrite bind_run by reflexivity.
    rewrite Hnull. cbn [bioRxiv.content bioRxiv.status_code].
    unfold raise, after. cbn [send snd stdout]. now rewrite app_nil_r.
Qed.

(** The theorems at the samples with two keywords. *)
Lemma pubmed_survives_failing_searches_witness :
  keywords {| keywords := ["oncology"; "crispr"];
              exclude_keywords := ["cancer"]; required_keywords := [];
              journals_of_interest := [] |} <> [] /\
  (forall n r, PubMed.esearch pubmed_down n r = Fails "connection refused") /\
  PubMed.main pubmed_down pubmed_args 10 initial
  = (Ok tt,
     after initial
       [Esearch "(oncology) NOT cancer" (today - 10) today 100 0;
        Esearch "(crispr) NOT cancer" (today - 10) today 100 0]
       ["Error querying PubMed: connection refused";
        "Error querying PubMed: connection refused";
        "No matching entries found for the given keywords."]).
Proof.
  assert (H1 : keywords {| keywords := ["oncology"; "crispr"];
                           exclude_keywords := ["cancer"];
                           required_keywords := [];
                           journals_of_interest := [] |} <> [])
    by discriminate.
  assert (H2 : forall n r,
             PubMed.esearch pubmed_down n r = Fails "connection refused")
    by reflexivity.
  split; [exact H1|]. split; [exact H2|].
  exact (pubmed_survives_failing_searches pubmed_down pubmed_args 9%nat 10 100
           "reader@example.org" _ "connection refused" initial
           eq_refl eq_refl eq_refl (fun _ => eq_refl) H1 eq_refl H2).
Defined.

Lemma biorxiv_survives_refusals_witness :
  (keywords {| keywords := ["oncology"; "crispr"];
               exclude_keywords := ["cancer"]; required_keywords := [];
               journals_of_interest := [] |} <> [] /\
   (forall n r, exists resp,
       bioRxiv.get MoreSamples.biorxiv_refusing n r = Returns resp /\
       refusal resp) /\
   bioRxiv.main MoreSamples.biorxiv_refusing biorxiv_args 10 initial
   = (Ok tt,
      after initial
        [BiorxivDetails (today - 10) (today - 1) 0;
         BiorxivDetails (today - 10) (today - 1) 0]
        ["Failed to retrieve data from bioRxiv. Please try again later.";
         "Failed to retrieve data from bioRxiv. Please try again later.";
         "No matching entries found for the given keywords."]))
  /\
  bioRxiv.main MoreSamples.biorxiv_null biorxiv_args 10 initial
  = (Raised TypeError,
     after initial [BiorxivDetails (today - 10) (today - 1) 0] []).
Proof.
  assert (H1 : keywords {| keywords := ["oncology"; "crispr"];
                           exclude_keywords := ["cancer"];
                           required_keywords := [];
                           journals_of_interest := [] |} <> [])
    by discriminate.
  assert (H2 : forall n r, exists resp,
             bioRxiv.get MoreSamples.biorxiv_refusing n r = Returns resp /\
             refusal resp).
  { intros n r. eexists. split; [reflexivity|]. now right. }
  split.
  - split; [exact H1|]. split; [exact H2|].
    exact (proj1 (biorxiv_survives_refusals MoreSamples.biorxiv_refusing
                    biorxiv_args 9%nat 10 100 _ initial eq_refl eq_refl
                    eq_refl (fun _ => eq_refl) H1 eq_refl eq_refl) H2).
  - exact (proj2 (biorxiv_survives_refusals MoreSamples.biorxiv_null
                    biorxiv_args 9%nat 10 100 _ initial eq_refl eq_refl
                    eq_refl (fun _ => eq_refl) H1 eq_refl eq_refl) eq_refl).
Defined.

End ServiceDown.


(** ** Blank lines end the records *)

Module BlankLines.
Import Text Calendar Runtime Spec Notions Samples.
Import TextFacts.

Lemma read_line_adds e acc l :
  (length (snd (Summarise.read_line (e, acc) l))
   <= length acc + (if String.eqb (strip l) EmptyString then 1 else 0))%nat.
Proof.
  unfold Summarise.read_line.
  destruct (startswith "Title:" (strip l)); [cbn [snd]; lia|].
  destruct (startswith "Date:" (strip l)); [cbn [snd]; lia|].
  destruct (startswith "URL:" (strip l)); [cbn [snd]; lia|].
  destruct (strip l) as [|c s]; [|cbn [snd]; lia].
  destruct (Summarise.p_title e), (Summarise.p_date e), (Summarise.p_url e);
    cbn [snd String.eqb]; rewrite ?length_app; cbn [length]; lia.
Qed.

Lemma read_lines_add ls :
  forall st,
    (length (snd (fold_left Summarise.read_line ls st))
     <= length (snd st)
        + length (List.filter (fun l => String.eqb (strip l) EmptyString) ls))%nat.
Proof.
  induction ls as [|l ls IH]; intros [e acc]; cbn [fold_left List.filter].
  - cbn [length]. lia.
  - specialize (IH (Summarise.read_line (e, acc) l)).
    pose proof (read_line_adds e acc l) as H1. cbn [snd] in *.
    destruct (String.eqb (strip l) EmptyString); cbn [length] in *; lia.
Qed.

(** [extract_entries] closes an entry only at a blank line: it never returns
    more entries than the file has blank lines, so a record that is not
    followed by a blank line is lost, and a file without blank line yields
    nothing. *)
Theorem entries_end_at_blank_lines content :
  (length (Summarise.extract_entries (Some content))
   <= blank_line_count content)%nat.
Proof.
  unfold Summarise.extract_entries, blank_line_count.
  pose proof (read_lines_add (Summarise.file_lines content)
                             (Summarise.blank, [])) as H.
  cbn [snd length] in H. lia.
Qed.

End BlankLines.

(** ** The shape of the PubMed query and date *)

Module PubMedShape.
Import Text Config Runtime Spec Notions Samples.
Import TextFacts QueryFacts.

Lemma join_contains sep k l :
  In k l -> exists pre post, join sep l = pre +:+ k +:+ post.
Proof.
  induction l as [|x l IH]; intros Hin; [destruct Hin|].
  destruct l as [|y l].
  - destruct Hin as [->|[]]. exists EmptyString, EmptyString.
    cbn [join]. now rewrite append_nil, append_nil_r.
  - rewrite join_cons2. destruct Hin as [->|Hin].
    + now exists EmptyString, (sep +:+ join sep (y :: l)).
    + destruct (IH Hin) as [pre [post H]].
      exists (x +:+ sep +:+ pre), post. rewrite H.
      now rewrite !app_assoc_s.
Qed.

(** The PubMed query opens with the keyword in parentheses and names every
    journal of interest as [name[Journal]]; with neither journals nor
    exclusion keywords it is the parenthesised keyword alone. *)
Theorem query_names_keyword_and_journals keyword journals ex :
  startswith ("(" +:+ keyword +:+ ")")
             (PubMed.build_query keyword journals ex) = true /\
  (forall j, In j journals ->
             contains (j +:+ "[Journal]")
                      (PubMed.build_query keyword journals ex) = true) /\
  (journals = [] -> ex = [] ->
   PubMed.build_query keyword journals ex = "(" +:+ keyword +:+ ")").
Proof.
  split; [|split].
  - apply startswith_spec. unfold PubMed.build_query.
    destruct journals as [|j js], ex as [|x xs]; eexists;
      rewrite ?app_assoc_s; reflexivity.
  - intros j Hj. apply contains_spec. unfold PubMed.build_query.
    destruct journals as [|j0 js]; [destruct Hj|].
    destruct (join_contains " OR " (j +:+ "[Journal]")
                (map (fun j => j +:+ "[Journal]") (j0 :: js)))
      as [pre [post H]];
      [exact (in_map (fun j => j +:+ "[Journal]") _ _ Hj)|].
    rewrite H. destruct ex as [|x xs].
    + exists (("(" +:+ keyword +:+ ")") +:+ " AND (" +:+ pre), (post +:+ ")").
      now rewrite !app_assoc_s.
    + exists (("(" +:+ keyword +:+ ")") +:+ " AND (" +:+ pre),
             (post +:+ ")" +:+ " NOT " +:+ join " NOT " (x :: xs)).
      now rewrite !app_assoc_s.
  - now intros -> ->.
Qed.

(** The theorem at a query with two journals. *)
Lemma query_names_keyword_and_journals_witness :
  In "cell" ["nature"; "cell"] /\
  contains "cell[Journal]"
           (PubMed.build_query "oncology" ["nature"; "cell"] ["cancer"]) = true.
Proof.
  assert (H : In "cell" ["nature"; "cell"]) by (right; now left).
  split; [exact H|].
  exact (proj1 (proj2 (query_names_keyword_and_journals
                         "oncology" ["nature"; "cell"] ["cancer"])) "cell" H).
Defined.

Lemma length_append_s (a b : string) :
  String.length (a +:+ b) = (String.length a + String.length b)%nat.
Proof.
  induction a as [|c a IH]; [reflexivity|].
  rewrite append_cons. cbn [String.length]. now rewrite IH.
Qed.

Lemma month_code_length m :
  String.length (PubMed.dict_get m PubMed.month_mapping "01") = 2%nat.
Proof.
  unfold PubMed.month_mapping. cbn [PubMed.dict_get].
  repeat (destruct (String.eqb m _); [reflexivity|]). reflexivity.
Qed.

Lemma month_code_known name code :
  In (name, code) PubMed.month_mapping ->
  PubMed.dict_get name PubMed.month_mapping "01" = code.
Proof.
  unfold PubMed.month_mapping. cbn [In].
  intros H. repeat (destruct H as [H|H]; [now inversion H|]). destruct H.
Qed.

Lemma dict_get_default m d default :
  (forall k v, In (k, v) d -> k <> m) -> PubMed.dict_get m d default = default.
Proof.
  induction d as [|[k v] d IH]; intros H; [reflexivity|].
  cbn [PubMed.dict_get]. destruct (String.eqb_spec m k) as [->|Hne].
  - elim (H k v); [now left | reflexivity].
  - apply IH. intros k' v' Hin. apply (H k' v'). now right.
Qed.

Lemma day_part_length d :
  (String.length d <= 2)%nat -> String.length (day_part d) = 2%nat.
Proof.
  destruct d as [|c1 [|c2 [|c3 d]]]; intros H; cbn [String.length] in H;
    try lia; [reflexivity | | ].
  - unfold day_part, zfill.
    destruct (Ascii.eqb c1 "+" || Ascii.eqb c1 "-"); reflexivity.
  - unfold day_part, zfill.
    destruct (Ascii.eqb c1 "+" || Ascii.eqb c1 "-"); reflexivity.
Qed.

Lemma date_with_year p year :
  PubMed.Year p = Some year -> year <> "No Year" ->
  PubMed.date_str_of p
  = year +:+ "-" +:+
    PubMed.dict_get
      (take 3 (lower (match PubMed.Month p with
                      | Some m => m
                      | None => EmptyString
                      end)))
      PubMed.month_mapping "01" +:+ "-" +:+
    day_part (match PubMed.Day p with Some d => d | None => EmptyString end).
Proof.
  intros Hy Hne. unfold PubMed.date_str_of. rewrite Hy.
  apply String.eqb_neq in Hne. now rewrite Hne.
Qed.

(** The [Date] value of a PubMed record: [Unknown Date] without a year, and
    also when the year reads [No Year], the text the script marks an absent
    year with; otherwise the year, the two-digit number of the month named
    by the first three letters of [Month] whatever their case ([01] when
    there is none or it names no month) and the day padded to two digits
    ([01] when there is none).  With a four-character year and a day of at
    most two characters the value has the ten characters of [YYYY-MM-DD]. *)
Theorem pubmed_date_shape p :
  let day := match PubMed.Day p with Some d => d | None => EmptyString end in
  (PubMed.Year p = None \/ PubMed.Year p = Some "No Year" ->
   PubMed.date_str_of p = "Unknown Date") /\
  (forall year name code m,
      PubMed.Year p = Some year -> year <> "No Year" ->
      PubMed.Month p = Some m ->
      In (name, code) PubMed.month_mapping ->
      take 3 (lower m) = name ->
      PubMed.date_str_of p = year +:+ "-" +:+ code +:+ "-" +:+ day_part day) /\
  (forall year,
      PubMed.Year p = Some year -> year <> "No Year" ->
      (forall m name code,
          PubMed.Month p = Some m -> In (name, code) PubMed.month_mapping ->
          name <> take 3 (lower m)) ->
      PubMed.date_str_of p = year +:+ "-" +:+ "01" +:+ "-" +:+ day_part day) /\
  (forall year,
      PubMed.Year p = Some year ->
      String.length year = 4%nat ->
      (String.length day <= 2)%nat ->
      String.length (PubMed.date_str_of p) = 10%nat).
Proof.
  intros day. split; [|split; [|split]].
  - unfold PubMed.date_str_of. now intros [->| ->].
  - intros year name code m Hy Hne Hm Hin Hname.
    rewrite (date_with_year p year Hy Hne), Hm, Hname.
    now rewrite (month_code_known _ _ Hin).
  - intros year Hy Hne Hm. rewrite (date_with_year p year Hy Hne).
    rewrite dict_get_default; [reflexivity|].
    intros k v Hin. destruct (PubMed.Month p) as [m|].
    + now apply (Hm m k v).
    + destruct Hin as [H|Hin]; [now inversion H|].
      repeat (destruct Hin as [H|Hin]; [now inversion H|]). destruct Hin.
  - intros year Hy Hlen Hd.
    assert (Hne : year <> "No Year") by (intros ->; discriminate).
    rewrite (date_with_year p year Hy Hne).
    rewrite !length_append_s, Hlen, month_code_length, day_part_length
      by exact Hd.
    reflexivity.
Qed.

(** The theorem at year 2023, month "Mar" and an empty day, and at a year
    that reads [No Year]. *)
Lemma pubmed_date_shape_witness :
  (let p := {| PubMed.Year := Some "2023"; PubMed.Month := Some "Mar";
               PubMed.Day := Some "" |} in
   PubMed.Year p = Some "2023" /\ "2023" <> "No Year" /\
   PubMed.Month p = Some "Mar" /\
   In ("mar", "03") PubMed.month_mapping /\ take 3 (lower "Mar") = "mar" /\
   PubMed.date_str_of p = "2023-03-01")
  /\
  (let p := {| PubMed.Year := Some "No Year"; PubMed.Month := Some "Mar";
               PubMed.Day := None |} in
   (PubMed.Year p = None \/ PubMed.Year p = Some "No Year") /\
   PubMed.date_str_of p = "Unknown Date").
Proof.
  split.
  - intros p.
    assert (H1 : PubMed.Year p = Some "2023") by reflexivity.
    assert (H0 : "2023" <> "No Year") by discriminate.
    assert (H2 : PubMed.Month p = Some "Mar") by reflexivity.
    assert (H3 : In ("mar", "03") PubMed.month_mapping)
      by (right; right; now left).
    assert (H4 : take 3 (lower "Mar") = "mar") by reflexivity.
    repeat (split; [assumption|]).
    exact (proj1 (proj2 (pubmed_date_shape p)) "2023" "mar" "03" "Mar"
                 H1 H0 H2 H3 H4).
  - intros p.
    assert (H : PubMed.Year p = None \/ PubMed.Year p = Some "No Year")
      by (now right).
    split; [exact H|].
    exact (proj1 (pubmed_date_shape p) H).
Defined.

End PubMedShape.

(** ** The title and date lines of an arXiv record *)

Module ArxivLines.
Import Text Calendar Strptime Runtime Spec Notions Samples.
Import TextFacts RecordFormat DateRoundTrip.

Lemma single_line_of_chars l :
  Forall (fun c => c <> LF) l -> single_line (string_of_list_ascii l) = true.
Proof.
  induction 1 as [|c l Hc _ IH]; [reflexivity|].
  cbn [string_of_list_ascii]. apply single_line_cons. now split.
Qed.

Lemma not_space_not_lf c : is_space c = false -> c <> LF.
Proof. intros H ->. discriminate. Qed.

Lemma split_ws_aux_lines s :
  forall cur,
    Forall (fun c => c <> LF) cur ->
    Forall (fun p => single_line p = true) (split_ws_aux cur s).
Proof.
  induction s as [|c s IH]; intros cur Hcur; cbn [split_ws_aux].
  - destruct cur as [|x cur]; [constructor|].
    constructor; [|constructor].
    apply single_line_of_chars. now apply Forall_rev.
  - destruct (is_space c) eqn:Hc.
    + destruct cur as [|x cur]; [now apply IH|].
      constructor; [|apply IH; constructor].
      apply single_line_of_chars. now apply Forall_rev.
    + apply IH. constructor; [now apply not_space_not_lf | exact Hcur].
Qed.

Lemma join_single_line sep l :
  single_line sep = true ->
  Forall (fun p => single_line p = true) l ->
  single_line (join sep l) = true.
Proof.
  intros Hsep. induction 1 as [|x l Hx Hl IH]; [reflexivity|].
  destruct l as [|y l]; [exact Hx|].
  change (join sep (x :: y :: l)) with (x +:+ sep +:+ join sep (y :: l)).
  repeat apply single_line_app; auto.
Qed.

Lemma digit_not_lf k : digit k <> LF.
Proof.
  intros H. apply (f_equal code) in H. unfold digit in H.
  pose proof (Z.mod_pos_bound k 10 ltac:(lia)).
  rewrite code_chr in H by lia. change (code LF) with 10 in H. lia.
Qed.

Lemma pad2_single_line n : single_line (pad2 n) = true.
Proof.
  unfold pad2. apply single_line_cons. split; [apply digit_not_lf|].
  apply single_line_cons. split; [apply digit_not_lf | reflexivity].
Qed.

Lemma unpadded_single_line y : single_line (unpadded y) = true.
Proof.
  unfold unpadded, pad4.
  destruct (y <? 10); [|destruct (y <? 100); [|destruct (y <? 1000)]].
  - apply single_line_cons. split; [apply digit_not_lf | reflexivity].
  - apply pad2_single_line.
  - apply single_line_cons. split; [apply digit_not_lf|].
    apply pad2_single_line.
  - apply single_line_app; apply pad2_single_line.
Qed.

(** Whatever the feed delivers as title and publication date, the [Title]
    and [Date] values of an arXiv record hold no line break; the record has
    exactly its five field lines and the blank separator as soon as the
    author names, the link and the summary hold none. *)
Theorem arxiv_title_and_date_stay_on_one_line e d :
  single_line (arXiv.clean_title e) = true /\
  single_line (strftime_ymd d) = true /\
  (single_line (join ", " (arXiv.authors e)) = true ->
   single_line (arXiv.link e) = true ->
   single_line (arXiv.summary e) = true ->
   split_lines (arXiv.entry_data e d) = field_lines (arxiv_fields e d)).
Proof.
  assert (Ht : single_line (arXiv.clean_title e) = true).
  { unfold arXiv.clean_title. apply join_single_line; [reflexivity|].
    apply split_ws_aux_lines. constructor. }
  assert (Hd : single_line (strftime_ymd d) = true).
  { unfold strftime_ymd.
    repeat apply single_line_app;
      try apply pad2_single_line; try apply unpadded_single_line;
      reflexivity. }
  split; [exact Ht|]. split; [exact Hd|].
  intros Ha Hl Hs. apply arxiv_entry_lines.
  unfold one_line_each, arxiv_fields. repeat constructor; assumption.
Qed.

(** The theorem at an entry whose title runs over two lines. *)
Lemma arxiv_title_and_date_stay_on_one_line_witness :
  let e := {| arXiv.title := "Oncology
  of tumours ";
              arXiv.summary := "A study in oncology.";
              arXiv.link := "http://arxiv.org/abs/2410.00001";
              arXiv.published := "2024-10-18T09:00:00Z";
              arXiv.authors := ["Cyan Ching"] |} in
  single_line (join ", " (arXiv.authors e)) = true /\
  single_line (arXiv.link e) = true /\
  single_line (arXiv.summary e) = true /\
  split_lines (arXiv.entry_data e published_day)
  = ["Title: Oncology of tumours"; "Authors: Cyan Ching"; "Date: 2024-10-18";
     "URL: http://arxiv.org/abs/2410.00001";
     "Abstract: A study in oncology."; ""; ""].
Proof.
  intros e.
  assert (H1 : single_line (join ", " (arXiv.authors e)) = true)
    by reflexivity.
  assert (H2 : single_line (arXiv.link e) = true) by reflexivity.
  assert (H3 : single_line (arXiv.summary e) = true) by reflexivity.
  repeat (split; [assumption|]).
  exact (proj2 (proj2 (arxiv_title_and_date_stay_on_one_line e published_day))
               H1 H2 H3).
Defined.

End ArxivLines.

(** ** Records accumulate in the order they are accepted *)

Module Accumulation.
Import Text Config Runtime Spec Notions Samples.
Import RunFacts RecordFormat FilterOrder DistinctLinks.

Lemma extends_refl a : extends a a.
Proof. exists []. now rewrite app_nil_r. Qed.

Lemma extends_trans a b c : extends a b -> extends b c -> extends a c.
Proof.
  intros [l1 ->] [l2 ->]. exists (l1 ++ l2)%list. now rewrite app_assoc.
Qed.

Lemma extends_one a x : extends a (a ++ [x]).
Proof. now exists [x]. Qed.

Lemma pubmed_article_extends journals q a entries w entries' w' :
  PubMed.process_article journals q a entries w = (Ok entries', w') ->
  extends entries entries'.
Proof.
  unfold PubMed.process_article.
  destruct (PubMed.journal_ok _ _).
  - unfold PubMed.abstract_of.
    destruct (PubMed.AbstractText a) as [[|x l]|]; try discriminate;
      (erewrite bind_run by reflexivity);
      (erewrite bind_run by apply print_unless_run);
      intros H; inversion H; apply extends_one.
  - intros H. inversion H. apply extends_refl.
Qed.

Lemma pubmed_paginate_extends E q sd ed batch journals fuel :
  forall query retstart entries w entries' w',
    PubMed.paginate E q sd ed batch journals fuel query retstart entries w
    = (Ok entries', w') -> extends entries entries'.
Proof.
  induction fuel as [|fuel IH]; intros query retstart entries w entries' w' Hrun;
    [discriminate|].
  cbn [PubMed.paginate] in Hrun.
  erewrite bind_run in Hrun by reflexivity.
  destruct (PubMed.esearch E _ _) as [msg|found].
  { erewrite bind_run in Hrun by reflexivity.
    inversion Hrun. apply extends_refl. }
  destruct (PubMed.IdList found) as [|id ids];
    [inversion Hrun; apply extends_refl|].
  erewrite bind_run in Hrun by reflexivity.
  destruct (PubMed.efetch E _ _) as [msg|articles].
  { erewrite bind_run in Hrun by reflexivity.
    inversion Hrun. apply extends_refl. }
  unfold mbind, M_bind in Hrun.
  destruct (for_each _ articles entries _) as [[entries1| | |] w1] eqn:Hpage;
    try discriminate.
  assert (H1 : extends entries entries1).
  { eapply (for_each_related extends);
      [apply extends_refl | apply extends_trans | | exact Hpage].
    intros x acc w0 acc' w0' Hx.
    exact (pubmed_article_extends _ _ _ _ _ _ _ Hx). }
  destruct (_ <=? _).
  - inversion Hrun; subst. exact H1.
  - eapply extends_trans; [exact H1 | eapply IH; exact Hrun].
Qed.

Lemma biorxiv_item_extends q ex req keyword i entries w entries' w' :
  bioRxiv.process_item q ex req keyword i entries w = (Ok entries', w') ->
  extends entries entries'.
Proof.
  rewrite bioRxiv_item_run.
  destruct (contains _ _); [|intros H; inversion H; apply extends_refl].
  destruct (any_in ex _); [intros H; inversion H; apply extends_refl|].
  destruct (_ || _); intros H; inversion H;
    [apply extends_one | apply extends_refl].
Qed.

Lemma biorxiv_paginate_extends E q sd ed batch ex req fuel :
  forall keyword offset entries w entries' w',
    bioRxiv.paginate E q sd ed batch ex req fuel keyword offset entries w
    = (Ok entries', w') -> extends entries entries'.
Proof.
  induction fuel as [|fuel IH]; intros keyword offset entries w entries' w' Hrun;
    [discriminate|].
  cbn [bioRxiv.paginate] in Hrun.
  erewrite bind_run in Hrun by reflexivity.
  destruct (bioRxiv.get E _ _) as [msg|resp]; [discriminate|].
  destruct (bioRxiv.content resp) as [|data|stops]; [discriminate| |].
  2:{ destruct (_ && _); [discriminate|].
      erewrite bind_run in Hrun by reflexivity.
      inversion Hrun. apply extends_refl. }
  destruct (bioRxiv.status_code resp =? 200), data as [[|i l]|];
    try (erewrite bind_run in Hrun by reflexivity);
    try (inversion Hrun; apply extends_refl).
  unfold mbind, M_bind in Hrun.
  destruct (for_each _ (i :: l) entries _) as [[entries1| | |] w1] eqn:Hpage;
    try discriminate.
  eapply extends_trans; [|eapply IH; exact Hrun].
  eapply (for_each_related extends);
    [apply extends_refl | apply extends_trans | | exact Hpage].
  intros x acc w0 acc' w0' Hx.
  exact (biorxiv_item_extends _ _ _ _ _ _ _ _ _ Hx).
Qed.

(** In the PubMed and bioRxiv scripts the list of records only grows at its
    end: whatever was accepted before a keyword is searched is still there,
    unchanged and in the same order, after it. *)
Theorem records_only_accumulate :
  (forall E q sd ed batch journals ex fuel kws entries w entries' w',
      for_each (fun keyword entries =>
                  PubMed.paginate E q sd ed batch journals fuel
                                  (PubMed.build_query keyword journals ex)
                                  0 entries)
               kws entries w = (Ok entries', w') ->
      extends entries entries')
  /\
  (forall E q sd ed batch ex req fuel kws entries w entries' w',
      for_each (fun keyword entries =>
                  bioRxiv.paginate E q sd ed batch ex req fuel keyword 0
                                   entries)
               kws entries w = (Ok entries', w') ->
      extends entries entries').
Proof.
  split.
  - intros E q sd ed batch journals ex fuel kws entries w entries' w' Hrun.
    eapply (for_each_related extends);
      [apply extends_refl | apply extends_trans | | exact Hrun].
    intros x acc w0 acc' w0' Hx. cbv beta in Hx.
    exact (pubmed_paginate_extends _ _ _ _ _ _ _ _ _ _ _ _ _ Hx).
  - intros E q sd ed batch ex req fuel kws entries w entries' w' Hrun.
    eapply (for_each_related extends);
      [apply extends_refl | apply extends_trans | | exact Hrun].
    intros x acc w0 acc' w0' Hx. cbv beta in Hx.
    exact (biorxiv_paginate_extends _ _ _ _ _ _ _ _ _ _ _ _ _ _ Hx).
Qed.

(** The theorem at a bioRxiv collection of three items searched under two
    keywords, starting from one record already accepted. *)
Lemma records_only_accumulate_witness :
  exists entries' w',
    for_each (fun keyword entries =>
                bioRxiv.paginate (biorxiv_env None 3) true (today - 10)
                                 (today - 1) 100 ["cancer"] [] 5 keyword 0
                                 entries)
             ["oncology"; "study"] [bioRxiv.entry rna_only] initial
    = (Ok entries', w') /\
    extends [bioRxiv.entry rna_only] entries'.
Proof.
  destruct (for_each (fun keyword entries =>
                        bioRxiv.paginate (biorxiv_env None 3) true (today - 10)
                                         (today - 1) 100 ["cancer"] [] 5
                                         keyword 0 entries)
                     ["oncology"; "study"] [bioRxiv.entry rna_only] initial)
    as [[entries'| | |] w'] eqn:Hrun;
    try (exfalso; vm_compute in Hrun; discriminate).
  exists entries', w'. split; [reflexivity|].
  exact (proj2 records_only_accumulate _ _ _ _ _ _ _ _ _ _ _ _ _ Hrun).
Defined.

End Accumulation.

(** ** The journal filter and the link of a PubMed article *)

Module PubMedArticle.
Import Text Config Runtime Spec Notions Samples.
Import TextFacts FilterFacts RunFacts RecordFormat.

(** The journal test of the script, in words. *)
Lemma journal_ok_spec journals title :
  PubMed.journal_ok journals (lower title) = true <->
  journals = [] \/ exists j, In j journals /\ occurs_ci j title.
Proof.
  unfold PubMed.journal_ok. destruct journals as [|j js].
  - split; [now left | reflexivity].
  - rewrite any_in_excluded. unfold excluded.
    split; [now right | intros [H|H]; [discriminate | exact H]].
Qed.

(** The PubMed script keeps an article exactly when no journal of interest
    is configured or the name of one of them occurs, ignoring case, in the
    title of the article's journal.  An article that fails this test is
    passed over without a trace. *)
Theorem pubmed_journal_filter journals q a entries w :
  let kept := journals = [] \/
              exists j, In j journals /\ occurs_ci j (PubMed.JournalTitle a) in
  (~ kept -> PubMed.process_article journals q a entries w = (Ok entries, w))
  /\
  (kept -> forall abstract,
      PubMed.abstract_of a w = (Ok abstract, w) ->
      exists r,
        PubMed.process_article journals q a entries w
        = (Ok (entries ++ [r])%list,
           logged q ("Retrieved: " +:+ PubMed.title_of a) w)).
Proof.
  intros kept. pose proof (journal_ok_spec journals (PubMed.JournalTitle a)) as H.
  split.
  - intros Hn. unfold PubMed.process_article.
    destruct (PubMed.journal_ok _ _); [|reflexivity].
    elim Hn. now apply H.
  - intros Hk abstract Ha. eexists. apply pubmed_article_kept; [|exact Ha].
    now apply H.
Qed.

(** The theorem at the sample article under two journal lists. *)
Lemma pubmed_journal_filter_witness :
  (~ (["cell"] = [] \/
      exists j, In j ["cell"] /\
                occurs_ci j (PubMed.JournalTitle cancer_article)) /\
   PubMed.process_article ["cell"] false cancer_article [] initial
   = (Ok [], initial))
  /\
  ((["cell"; "NATURE"] = [] \/
    exists j, In j ["cell"; "NATURE"] /\
              occurs_ci j (PubMed.JournalTitle cancer_article)) /\
   PubMed.abstract_of cancer_article initial
   = (Ok "Advances in oncology.", initial) /\
   exists r,
     PubMed.process_article ["cell"; "NATURE"] false cancer_article [] initial
     = (Ok [r],
        logged false ("Retrieved: " +:+ PubMed.title_of cancer_article)
               initial)).
Proof.
  assert (H1 : ~ (["cell"] = [] \/
                  exists j, In j ["cell"] /\
                            occurs_ci j (PubMed.JournalTitle cancer_article))).
  { intros H. apply journal_ok_spec in H. vm_compute in H. discriminate. }
  assert (H2 : ["cell"; "NATURE"] = [] \/
               exists j, In j ["cell"; "NATURE"] /\
                         occurs_ci j (PubMed.JournalTitle cancer_article)).
  { apply journal_ok_spec. reflexivity. }
  assert (H3 : PubMed.abstract_of cancer_article initial
               = (Ok "Advances in oncology.", initial)) by reflexivity.
  split.
  - split; [exact H1|].
    exact (proj1 (pubmed_journal_filter ["cell"] false cancer_article []
                                        initial) H1).
  - split; [exact H2|]. split; [exact H3|].
    exact (proj2 (pubmed_journal_filter ["cell"; "NATURE"] false
                                        cancer_article [] initial)
                 H2 _ H3).
Defined.

End PubMedArticle.

(** ** The link of a PubMed record *)

Module PubMedLink.
Import Text Config Runtime Spec Notions Samples.

Lemma is_doi_spec e : is_doi e = true <-> PubMed.EIdType e = Some "doi".
Proof.
  unfold is_doi. destruct (PubMed.EIdType e) as [t|].
  - rewrite String.eqb_eq. split; [now intros -> | now intros [= ->]].
  - split; discriminate.
Qed.

Lemma find_none_doi l :
  Forall (fun e => PubMed.EIdType e <> Some "doi") l ->
  List.find is_doi l = None.
Proof.
  induction 1 as [|e l He _ IH]; [reflexivity|].
  cbn [List.find]. destruct (is_doi e) eqn:Hd; [|exact IH].
  apply is_doi_spec in Hd. contradiction.
Qed.

Lemma find_first_doi pre e post :
  Forall (fun x => PubMed.EIdType x <> Some "doi") pre ->
  PubMed.EIdType e = Some "doi" ->
  List.find is_doi (pre ++ e :: post) = Some e.
Proof.
  induction 1 as [|x pre Hx _ IH]; intros He; cbn [app List.find].
  - apply is_doi_spec in He. now rewrite He.
  - destruct (is_doi x) eqn:Hd; [|now apply IH].
    apply is_doi_spec in Hd. contradiction.
Qed.

(** The [URL] of a PubMed record comes from the first [ELocationID] whose
    type is [doi], and from no other: it is [https://doi.org/] followed by
    the text of that element, and the token [Full text link not available]
    when no element has that type or when the text of the first one is
    empty. *)
Theorem pubmed_link_from_first_doi a :
  let elocs := match PubMed.ELocationID a with Some l => l | None => [] end in
  (Forall (fun e => PubMed.EIdType e <> Some "doi") elocs ->
   PubMed.full_text_url_of a = "Full text link not available") /\
  (forall pre e post,
      elocs = (pre ++ e :: post)%list ->
      Forall (fun x => PubMed.EIdType x <> Some "doi") pre ->
      PubMed.EIdType e = Some "doi" ->
      (PubMed.eloc_text e <> EmptyString ->
       PubMed.full_text_url_of a = "https://doi.org/" +:+ PubMed.eloc_text e) /\
      (PubMed.eloc_text e = EmptyString ->
       PubMed.full_text_url_of a = "Full text link not available")).
Proof.
  intros elocs. unfold PubMed.full_text_url_of, PubMed.doi_of.
  fold elocs. fold is_doi. split.
  - intros H. now rewrite find_none_doi.
  - intros pre e post -> Hpre He. rewrite find_first_doi by assumption.
    cbn [fmap option_fmap option_map].
    destruct (PubMed.eloc_text e); split; intros H; congruence.
Qed.

(** The theorem at an article whose DOI comes second. *)
Lemma pubmed_link_from_first_doi_witness :
  let pii := {| PubMed.EIdType := Some "pii";
                PubMed.eloc_text := "S0092-8674(24)00001-1" |} in
  let doi := {| PubMed.EIdType := Some "doi";
                PubMed.eloc_text := "10.1000/j.9" |} in
  Forall (fun x => PubMed.EIdType x <> Some "doi") [pii] /\
  PubMed.EIdType doi = Some "doi" /\
  PubMed.eloc_text doi <> EmptyString /\
  PubMed.full_text_url_of MoreSamples.two_locations
  = "https://doi.org/10.1000/j.9".
Proof.
  intros pii doi.
  assert (H1 : Forall (fun x => PubMed.EIdType x <> Some "doi") [pii])
    by (repeat constructor; discriminate).
  assert (H2 : PubMed.EIdType doi = Some "doi") by reflexivity.
  assert (H3 : PubMed.eloc_text doi <> EmptyString) by discriminate.
  repeat (split; [assumption|]).
  exact (proj1 (proj2 (pubmed_link_from_first_doi MoreSamples.two_locations)
                      [pii] doi [] eq_refl H1 H2) H3).
Defined.

End PubMedLink.


(** ** Pagination reaches every result once *)

Module Coverage.
Import Text Config Runtime Spec Notions Samples.
Import RunFacts Consolidation MonadFacts.

Lemma fetched_ids_app w rs ls :
  fetched_ids (after w rs ls)
  = (fetched_ids w
     ++ flat_map (fun r => match r with Efetch ids => ids | _ => [] end) rs)%list.
Proof. unfold fetched_ids, after. cbn [requests]. apply flat_map_app. Qed.

(** A page of articles that all have an abstract is processed to the end,
    without any network call. *)
Lemma abstract_found a w :
  has_abstract a -> exists abstract, PubMed.abstract_of a w = (Ok abstract, w).
Proof.
  unfold has_abstract, PubMed.abstract_of.
  destruct (PubMed.AbstractText a) as [[|x l]|]; intros H;
    [now elim H | now exists x | now exists "No Abstract"].
Qed.

Lemma logged_after q s w :
  exists ls, logged q s w = after w [] ls.
Proof.
  destruct q.
  - exists []. symmetry. apply SortedDigest.after_nothing.
  - exists [s]. unfold logged, after. cbn. now rewrite app_nil_r.
Qed.

Lemma pubmed_article_skipped journals q a entries w :
  PubMed.journal_ok journals (lower (PubMed.JournalTitle a)) = false ->
  PubMed.process_article journals q a entries w = (Ok entries, w).
Proof. intros H. unfold PubMed.process_article. now rewrite H. Qed.

Lemma pubmed_page_ok journals q articles :
  Forall has_abstract articles ->
  forall entries w,
    exists entries' ls,
      for_each (PubMed.process_article journals q) articles entries w
      = (Ok entries', after w [] ls).
Proof.
  induction 1 as [|a articles Ha _ IH]; intros entries w.
  - exists entries, []. cbn [for_each].
    now rewrite SortedDigest.after_nothing.
  - rewrite for_each_unfold.
    destruct (PubMed.journal_ok journals (lower (PubMed.JournalTitle a)))
      eqn:Hj.
    + destruct (abstract_found a w Ha) as [abstract Hab].
      erewrite bind_run
        by (apply RecordFormat.pubmed_article_kept; eassumption).
      destruct (logged_after q ("Retrieved: " +:+ PubMed.title_of a) w)
        as [l1 ->].
      match goal with
      | |- context [for_each _ articles ?e ?w'] =>
          destruct (IH e w') as [entries' [ls Hrun]]
      end.
      exists entries', (l1 ++ ls)%list.
      now rewrite Hrun, SortedDigest.after_after.
    + erewrite bind_run by (now apply pubmed_article_skipped). apply IH.
Qed.

Lemma send_run r w : send r w = (Ok (length (requests w)), snd (send r w)).
Proof. reflexivity. Qed.

Lemma fetched_after_search w term sd ed b o :
  fetched_ids (snd (send (Esearch term sd ed b o) w)) = fetched_ids w.
Proof.
  unfold fetched_ids. cbn [send snd requests].
  rewrite flat_map_app. cbn [flat_map]. now rewrite !app_nil_r.
Qed.

Lemma fetched_after_fetch w ids :
  fetched_ids (snd (send (Efetch ids) w)) = (fetched_ids w ++ ids)%list.
Proof.
  unfold fetched_ids. cbn [send snd requests].
  rewrite flat_map_app. cbn [flat_map]. now rewrite !app_nil_r.
Qed.

Lemma fetched_after_lines w ls : fetched_ids (after w [] ls) = fetched_ids w.
Proof. rewrite fetched_ids_app. cbn [flat_map]. apply app_nil_r. Qed.

Lemma firstn_nil_skipn {A} n (l : list A) :
  (0 < n)%nat -> firstn n l = [] -> l = [].
Proof. destruct n, l; intros; try lia; try discriminate; reflexivity. Qed.

(** One keyword against a search service over [ids]: the loop ends, and the
    identifiers it fetches from offset [o] on are those of [ids] from that
    offset on, each once and in order. *)
Lemma pubmed_paginate_covers E q sd ed batch journals ids :
  0 < batch -> serves E ids -> delivers E ->
  forall fuel query o entries w,
    0 <= o -> (1 <= fuel)%nat ->
    Z.of_nat (length ids) - o <= batch * Z.of_nat fuel ->
    exists entries' w',
      PubMed.paginate E q sd ed batch journals fuel query o entries w
      = (Ok entries', w') /\
      fetched_ids w' = (fetched_ids w ++ skipn (Z.to_nat o) ids)%list.
Proof.
  intros Hb Hs Hd. induction fuel as [|fuel IH];
    intros query o entries w Ho Hfuel Hcover; [lia|].
  cbn [PubMed.paginate]. erewrite bind_run by apply send_run.
  rewrite Hs. cbn [PubMed.IdList PubMed.Count].
  set (w1 := snd (send (Esearch query sd ed batch o) w)).
  destruct (firstn (Z.to_nat batch) (skipn (Z.to_nat o) ids))
    as [|id page] eqn:Hpage.
  - exists entries, w1. split; [reflexivity|].
    apply firstn_nil_skipn in Hpage; [|lia].
    subst w1. now rewrite fetched_after_search, Hpage, app_nil_r.
  - erewrite bind_run by apply send_run.
    set (w2 := snd (send (Efetch (id :: page)) w1)).
    destruct (Hd (length (requests w1)) (id :: page))
      as [articles [-> Harts]].
    destruct (pubmed_page_ok journals q articles Harts entries w2)
      as [entries1 [ls Hrun]].
    erewrite bind_run by exact Hrun.
    assert (Hf : fetched_ids (after w2 [] ls)
                 = (fetched_ids w ++ id :: page)%list).
    { subst w2 w1.
      now rewrite fetched_after_lines, fetched_after_fetch,
        fetched_after_search. }
    destruct (Z.leb_spec (Z.of_nat (length ids)) (o + batch)) as [Hle|Hgt].
    + exists entries1, (after w2 [] ls). split; [reflexivity|].
      rewrite Hf, <- Hpage. f_equal.
      apply firstn_all2. rewrite length_skipn. lia.
    + destruct (IH query (o + batch) entries1 (after w2 [] ls))
        as [entries' [w' [Hrest Hf']]]; [lia | lia | lia |].
      exists entries', w'. split; [exact Hrest|].
      rewrite Hf', Hf, <- Hpage, <- app_assoc. f_equal.
      rewrite Z2Nat.inj_add by lia.
      rewrite (Nat.add_comm (Z.to_nat o)), <- skipn_skipn.
      apply firstn_skipn.
Qed.

(** Against a search service that holds the identifiers [ids] and serves
    them [retmax] at a time, with a positive batch size and fuel for all the
    pages, the PubMed loop of one keyword ends normally and its fetch calls
    ask for every identifier of [ids] exactly once, in order. *)
Theorem pubmed_fetches_every_id_once E q sd ed batch journals ids fuel query
        entries w :
  0 < batch -> serves E ids -> delivers E ->
  (1 <= fuel)%nat ->
  Z.of_nat (length ids) <= batch * Z.of_nat fuel ->
  exists entries' w',
    PubMed.paginate E q sd ed batch journals fuel query 0 entries w
    = (Ok entries', w') /\
    fetched_ids w' = (fetched_ids w ++ ids)%list.
Proof.
  intros Hb Hs Hd Hfuel Hcover.
  destruct (pubmed_paginate_covers E q sd ed batch journals ids Hb Hs Hd
              fuel query 0 entries w) as [entries' [w' [Hrun Hf]]];
    [lia | exact Hfuel | lia |].
  exists entries', w'. split; [exact Hrun | exact Hf].
Qed.

Lemma pubmed_fetches_every_id_once_witness :
  exists entries' w',
    PubMed.paginate (pubmed_env None 5) true 0 10 2 [] 3 "(cancer)" 0 []
                    initial
    = (Ok entries', w') /\
    fetched_ids w' = (fetched_ids initial ++ map pretty (seq 0 5))%list.
Proof.
  assert (Hb : 0 < 2) by lia.
  assert (Hs : serves (pubmed_env None 5) (map pretty (seq 0 5))).
  { intros n term mindate maxdate retmax retstart. reflexivity. }
  assert (Hd : delivers (pubmed_env None 5)).
  { intros n ids. exists (map (fun _ => cancer_article) ids).
    split; [reflexivity|].
    induction ids as [|i ids IH]; constructor; [discriminate | exact IH]. }
  assert (Hfuel : (1 <= 3)%nat) by lia.
  assert (Hcover : Z.of_nat (length (map pretty (seq 0 5)))
                   <= 2 * Z.of_nat 3) by (vm_compute; discriminate).
  exact (pubmed_fetches_every_id_once (pubmed_env None 5) true 0 10 2 [] _ 3
           "(cancer)" [] initial Hb Hs Hd Hfuel Hcover).
Defined.

End Coverage.

(** ** The bioRxiv loop and pages that never run dry *)

Module EndlessLoop.
Import Text Config Runtime Spec Notions Samples.
Import RunFacts Consolidation MonadFacts.

Lemma send_after r w : snd (send r w) = after w [r] [].
Proof. unfold send, after. cbn [snd]. now rewrite app_nil_r. Qed.

Lemma send_then r w : send r w = (Ok (length (requests w)), after w [r] []).
Proof. rewrite <- send_after. reflexivity. Qed.

Lemma biorxiv_item_ok q ex req keyword i entries w :
  exists entries' ls,
    bioRxiv.process_item q ex req keyword i entries w
    = (Ok entries', after w [] ls).
Proof.
  rewrite bioRxiv_item_run. cbv zeta.
  destruct (contains _ _).
  - destruct (any_in ex _).
    + destruct (Coverage.logged_after q
                  ("Excluded (excluded keyword): " +:+ bioRxiv.title i) w)
        as [ls ->]. now exists entries, ls.
    + destruct (_ || _).
      * destruct (Coverage.logged_after q
                    ("Retrieved: " +:+ bioRxiv.title i) w) as [ls ->].
        now exists (entries ++ [bioRxiv.entry i])%list, ls.
      * destruct (Coverage.logged_after q
                    ("Excluded (missing required keyword): "
                     +:+ bioRxiv.title i) w) as [ls ->].
        now exists entries, ls.
  - exists entries, []. now rewrite SortedDigest.after_nothing.
Qed.

Lemma biorxiv_page_ok q ex req keyword collection :
  forall entries w,
    exists entries' ls,
      for_each (bioRxiv.process_item q ex req keyword) collection entries w
      = (Ok entries', after w [] ls).
Proof.
  induction collection as [|i l IH]; intros entries w.
  - exists entries, []. cbn [for_each].
    now rewrite SortedDigest.after_nothing.
  - rewrite for_each_unfold.
    destruct (biorxiv_item_ok q ex req keyword i entries w)
      as [e1 [l1 H1]].
    erewrite bind_run by exact H1.
    destruct (IH e1 (after w [] l1)) as [entries' [ls Hrun]].
    exists entries', (l1 ++ ls)%list.
    now rewrite Hrun, SortedDigest.after_after.
Qed.

Lemma offsets_succ sd ed offset batch n :
  offsets sd ed offset batch (S n)
  = BiorxivDetails sd ed offset :: offsets sd ed (offset + batch) batch n.
Proof.
  unfold offsets. cbn [seq map]. f_equal.
  - f_equal. lia.
  - rewrite <- seq_shift, map_map. apply map_ext. intros k.
    f_equal. lia.
Qed.

(** As long as every page holds an item the loop of one keyword goes on:
    whatever the number of iterations allowed, it has asked for that many
    pages, at [offset], [offset + batch], ..., and has not ended. *)
Theorem biorxiv_loop_goes_on_while_pages_are_full
        E q sd ed batch ex req keyword offset :
  always_full E sd ed offset batch ->
  forall fuel entries w,
    exists ls,
      bioRxiv.paginate E q sd ed batch ex req fuel keyword offset entries w
      = (OutOfFuel, after w (offsets sd ed offset batch fuel) ls).
Proof.
  intros Hfull fuel. revert offset Hfull.
  induction fuel as [|fuel IH]; intros offset Hfull entries w.
  - exists []. cbn [bioRxiv.paginate]. unfold out_of_fuel, offsets.
    cbn [seq map]. now rewrite SortedDigest.after_nothing.
  - cbn [bioRxiv.paginate]. erewrite bind_run by apply send_then.
    destruct (Hfull (length (requests w)) 0%nat) as [i [page Hget]].
    replace (offset + Z.of_nat 0 * batch) with offset in Hget by lia.
    rewrite Hget. cbn [bioRxiv.content bioRxiv.status_code].
    rewrite Z.eqb_refl.
    destruct (biorxiv_page_ok q ex req keyword (i :: page) entries
                (after w [BiorxivDetails sd ed offset] []))
      as [entries1 [l1 Hrun]].
    erewrite bind_run by exact Hrun.
    destruct (IH (offset + batch)) with (entries := entries1)
      (w := after (after w [BiorxivDetails sd ed offset] []) [] l1)
      as [ls Hrest].
    { intros n k. destruct (Hfull n (S k)) as [i' [page' H']].
      exists i', page'. rewrite <- H'. do 2 f_equal. lia. }
    exists (l1 ++ ls)%list. rewrite Hrest. f_equal.
    rewrite !ServiceDown.after_then, offsets_succ. reflexivity.
Qed.

Lemma biorxiv_loop_goes_on_while_pages_are_full_witness :
  exists ls,
    bioRxiv.paginate (biorxiv_env (Some oncology_config) 5) true
                     (today - 10) (today - 1) 0 [] [] 3 "oncology" 0 []
                     initial
    = (OutOfFuel,
       after initial (offsets (today - 10) (today - 1) 0 0 3) ls).
Proof.
  assert (Hfull : always_full (biorxiv_env (Some oncology_config) 5)
                              (today - 10) (today - 1) 0 0).
  { intros n k. eexists _, _. rewrite Z.mul_0_r. reflexivity. }
  exact (biorxiv_loop_goes_on_while_pages_are_full
           (biorxiv_env (Some oncology_config) 5) true (today - 10)
           (today - 1) 0 [] [] "oncology" 0 Hfull 3 [] initial).
Defined.

End EndlessLoop.
